(** * Expense tracker: aggregation, period filtering and budget evaluation

    A shallow embedding of the TypeScript sources

      - [src/lib/supabase.ts]            (the record types),
      - [src/lib/utils.ts]               (the record-store calls),
      - [src/components/Dashboard.tsx]   (period filter, totals, alerts, grouping),
      - [src/components/BudgetManager.tsx] (budget list and classification),

    together with the properties the specification states about them.

    Conventions of the embedding.
      - A JavaScript [number] is an IEEE-754 binary64 value: [float], with the
        kernel's primitive operations.  [a >= b] is [b <=? a], [a > b] is
        [b <? a]; every comparison with NaN is false.
      - A JavaScript string is a [string]; calendar dates cross the store
        boundary as ISO strings [YYYY-MM-DD].
      - A [Date] is its time value: milliseconds since the epoch in UTC, or
        [None] for an invalid date, with the day, year, month and week-day
        functions of ECMA-262.  Local time is UTC shifted by a constant
        offset [LocalTZA] (milliseconds east of Greenwich, no daylight
        saving).  Strings are parsed in the date-only ISO forms, which
        ECMA-262 reads as UTC.
      - A plain object used as a map is the list of its own properties in
        creation order, next to the names it inherits from
        [Object.prototype].
      - The record store is the three tables of the migration with its
        constraints; a request can fail as a whole.
      - A call that can reject (a thrown error, a failed store request) returns
        a [Result]; React state is a record threaded through the handlers. *)

From Stdlib Require Import Floats ZArith String Ascii List Bool Lia Permutation.
Import ListNotations.

#[local] Set Warnings "-inexact-float".
#[local] Open Scope string_scope.
#[local] Open Scope list_scope.

(** * The embedding *)

(** ** JavaScript numbers *)

Module JS.

Definition number : Type := float.

(** [a > b], [a >= b], [a < b], [a <= b] on numbers. *)
Definition gt (a b : number) : bool := (b <? a)%float.
Definition ge (a b : number) : bool := (b <=? a)%float.
Definition lt (a b : number) : bool := (a <? b)%float.
Definition le (a b : number) : bool := (a <=? b)%float.

(** ToBoolean on a number: [0], [-0] and NaN are falsy. *)
Definition truthy (x : number) : bool :=
  negb (x =? 0)%float && negb (is_nan x).

(** [x || d] on numbers. *)
Definition or_else (x d : number) : number := if truthy x then x else d.

(** ToBoolean on a string: only the empty string is falsy; [s || d]. *)
Definition str_or_else (s d : string) : string :=
  match s with EmptyString => d | _ => s end.

(** [xs.reduce((sum, x) => sum + x, init)]. *)
Definition sum_from (init : number) (xs : list number) : number :=
  fold_left (fun sum x => (sum + x)%float) xs init.

End JS.

(** ** Record types ([src/lib/supabase.ts]) *)

(** The string literal types ['income' | 'expense'] and the recurrence
    frequencies. *)
Inductive kind : Type := Income | Expense.

Definition kind_eqb (a b : kind) : bool :=
  match a, b with
  | Income, Income | Expense, Expense => true
  | _, _ => false
  end.

Inductive frequency : Type := daily | weekly | monthly | yearly.

Module Category.
Record t : Type := mk {
  id : string;
  name : string;
  type : kind;
  icon : string;
  is_custom : bool;
  color : string;
  created_at : string
}.
End Category.

Module Transaction.
Record t : Type := mk {
  id : string;
  type : kind;
  amount : JS.number;
  category_id : string;
  description : option string;
  date : string;
  created_at : string;
  is_recurring : bool;
  recurring_frequency : option frequency;
  recurring_end_date : option string
}.
End Transaction.

Module Budget.
Record t : Type := mk {
  id : string;
  category_id : string;
  limit_amount : JS.number;
  month : string;
  created_at : string;
  updated_at : string
}.
End Budget.

(** [Transaction & { categories: Category }]; the components read the join
    through [?.], so a missing join is [None]. *)
Module TransactionWithCategory.
Record t : Type := mk {
  row : Transaction.t;
  categories : option Category.t
}.
Definition type (x : t) : kind := Transaction.type (row x).
Definition amount (x : t) : JS.number := Transaction.amount (row x).
Definition date (x : t) : string := Transaction.date (row x).
End TransactionWithCategory.

(** [categories.find((c) => c.id === id)]. *)
Definition find_category (categories : list Category.t) (id : string)
  : option Category.t :=
  find (fun c => String.eqb (Category.id c) id) categories.

(** ** JavaScript strings *)

Module JSString.

(** [s.split(sep)] for a one-character separator. *)
Fixpoint split (sep : ascii) (s : string) : list string :=
  match s with
  | EmptyString => [EmptyString]
  | String c rest =>
      if Ascii.eqb c sep then EmptyString :: split sep rest
      else match split sep rest with
           | h :: t => String c h :: t
           | [] => [String c EmptyString]
           end
  end.

(** [s.startsWith(p)]. *)
Definition startsWith (s p : string) : bool := String.prefix p s.

(** An array element read by destructuring and spliced into a template
    literal: a missing element prints as [undefined]. *)
Definition template_nth (i : nat) (parts : list string) : string :=
  nth i parts "undefined".

Definition is_digit (c : ascii) : bool :=
  let n := nat_of_ascii c in (48 <=? n)%nat && (n <=? 57)%nat.

Definition digit_value (c : ascii) : Z := (Z.of_nat (nat_of_ascii c) - 48)%Z.

(** The value of a string of decimal digits, continuing from [acc]; [None]
    when a character is not a digit. *)
Fixpoint digits_value (acc : Z) (s : string) : option Z :=
  match s with
  | EmptyString => Some acc
  | String c rest =>
      if is_digit c then digits_value (10 * acc + digit_value c)%Z rest
      else None
  end.

(** The value of a non-empty string of decimal digits. *)
Definition parse_digits (s : string) : option Z :=
  match s with
  | EmptyString => None
  | _ => digits_value 0%Z s
  end.

Definition digit_char (d : Z) : ascii := ascii_of_nat (Z.to_nat (48 + d mod 10)%Z).

(** The last [n] decimal digits of [v], zero padded ([padStart(n, '0')] of
    a non-negative integer below [10^n]). *)
Fixpoint pad_digits (n : nat) (v : Z) (suffix : string) : string :=
  match n with
  | O => suffix
  | S n' => pad_digits n' (v / 10)%Z (String (digit_char v) suffix)
  end.

End JSString.

(** ** JavaScript dates (ECMA-262, "Date objects") *)

Module JSDate.

#[local] Open Scope Z_scope.

Definition msPerDay : Z := 86400000.

Definition Day (t : Z) : Z := t / msPerDay.
Definition TimeWithinDay (t : Z) : Z := t mod msPerDay.

Definition InLeapYear (y : Z) : bool :=
  (y mod 4 =? 0)%Z && (negb (y mod 100 =? 0)%Z || (y mod 400 =? 0)%Z).

Definition DaysInYear (y : Z) : Z := if InLeapYear y then 366 else 365.

Definition DayFromYear (y : Z) : Z :=
  365 * (y - 1970) + (y - 1969) / 4 - (y - 1901) / 100 + (y - 1601) / 400.

(** The year of a day number: the largest [y] with [DayFromYear y <= d]
    (see [YearFromDay_spec]), found from an estimate one step away. *)
Definition YearFromDay (d : Z) : Z :=
  let y := 1970 + (d * 400) / 146097 in
  if (d <? DayFromYear y)%Z then y - 1
  else if (DayFromYear (y + 1) <=? d)%Z then y + 1
  else y.

Definition YearFromTime (t : Z) : Z := YearFromDay (Day t).

Definition DayWithinYear (t : Z) : Z := Day t - DayFromYear (YearFromTime t).

(** Days of the year before month [m] (0 = January). *)
Definition DaysBeforeMonth (leap : bool) (m : Z) : Z :=
  let l := if leap then 1 else 0 in
  match m with
  | 0 => 0 | 1 => 31 | 2 => 59 + l | 3 => 90 + l | 4 => 120 + l
  | 5 => 151 + l | 6 => 181 + l | 7 => 212 + l | 8 => 243 + l
  | 9 => 273 + l | 10 => 304 + l | _ => 334 + l
  end.

Definition MonthFromTime (t : Z) : Z :=
  let d := DayWithinYear t in
  let leap := InLeapYear (YearFromTime t) in
  if (d <? DaysBeforeMonth leap 1)%Z then 0
  else if (d <? DaysBeforeMonth leap 2)%Z then 1
  else if (d <? DaysBeforeMonth leap 3)%Z then 2
  else if (d <? DaysBeforeMonth leap 4)%Z then 3
  else if (d <? DaysBeforeMonth leap 5)%Z then 4
  else if (d <? DaysBeforeMonth leap 6)%Z then 5
  else if (d <? DaysBeforeMonth leap 7)%Z then 6
  else if (d <? DaysBeforeMonth leap 8)%Z then 7
  else if (d <? DaysBeforeMonth leap 9)%Z then 8
  else if (d <? DaysBeforeMonth leap 10)%Z then 9
  else if (d <? DaysBeforeMonth leap 11)%Z then 10
  else 11.

Definition DateFromTime (t : Z) : Z :=
  DayWithinYear t
  - DaysBeforeMonth (InLeapYear (YearFromTime t)) (MonthFromTime t) + 1.

Definition WeekDay (t : Z) : Z := (Day t + 4) mod 7.

(** [MakeDay(year, month, date)]: the day number of the first of the month
    ([month] may lie outside 0..11), plus [date - 1]. *)
Definition MakeDay (year month date : Z) : Z :=
  let ym := year + month / 12 in
  let mn := month mod 12 in
  DayFromYear ym + DaysBeforeMonth (InLeapYear ym) mn + date - 1.

Definition MakeDate (day time : Z) : Z := day * msPerDay + time.

Definition DaysInMonth (year month : Z) : Z :=
  MakeDay year (month + 1) 1 - MakeDay year month 1.

(** A Date object is its time value; [None] is the NaN of an invalid date. *)
Definition t : Type := option Z.

Definition TimeClip (time : Z) : t :=
  if (Z.abs time <=? 8640000000000000)%Z then Some time else None.

Section Local.

(** The local time zone adjustment, in milliseconds. *)
Variable LocalTZA : Z.

Definition LocalTime (u : Z) : Z := u + LocalTZA.
Definition UTC (l : Z) : Z := l - LocalTZA.

(** Getters return an integer, or [None] for NaN. *)
Definition getDate (d : t) : option Z := option_map (fun u => DateFromTime (LocalTime u)) d.
Definition getDay (d : t) : option Z := option_map (fun u => WeekDay (LocalTime u)) d.
Definition getMonth (d : t) : option Z := option_map (fun u => MonthFromTime (LocalTime u)) d.

(** [d.setDate(dt)]: the new time value. *)
Definition setDate (d : t) (dt : option Z) : t :=
  match d, dt with
  | Some u, Some n =>
      let l := LocalTime u in
      TimeClip (UTC (MakeDate (MakeDay (YearFromTime l) (MonthFromTime l) n)
                              (TimeWithinDay l)))
  | _, _ => None
  end.

(** [d.setMonth(m)]: the new time value (which the call also returns). *)
Definition setMonth (d : t) (m : option Z) : t :=
  match d, m with
  | Some u, Some n =>
      let l := LocalTime u in
      TimeClip (UTC (MakeDate (MakeDay (YearFromTime l) n (DateFromTime l))
                              (TimeWithinDay l)))
  | _, _ => None
  end.

End Local.

(** Integer arithmetic on getter results; NaN propagates. *)
Definition sub (a b : option Z) : option Z :=
  match a, b with Some x, Some y => Some (x - y) | _, _ => None end.
Definition add (a : option Z) (k : Z) : option Z := option_map (fun x => x + k) a.

(** [a >= b] and [a <= b] on Date objects compare the time values; a
    comparison with an invalid date is false. *)
Definition ge (a b : t) : bool :=
  match a, b with Some x, Some y => (y <=? x)%Z | _, _ => false end.
Definition le (a b : t) : bool :=
  match a, b with Some x, Some y => (x <=? y)%Z | _, _ => false end.

(** [new Date(s)] for the date-only forms of the ISO format, [YYYY],
    [YYYY-MM] and [YYYY-MM-DD], which are read as UTC midnight.  The fields
    must be in range (month 1..12, day 1..length of the month).  Any other
    string is taken as an invalid date. *)
Definition field (len : nat) (s : string) : option Z :=
  if (String.length s =? len)%nat then JSString.parse_digits s else None.

Definition from_fields (y m d : Z) : t :=
  if ((1 <=? m) && (m <=? 12) && (1 <=? d) && (d <=? DaysInMonth y (m - 1)))%Z
  then TimeClip (MakeDate (MakeDay y (m - 1) d) 0)
  else None.

Definition parse (s : string) : t :=
  match JSString.split "-" s with
  | [ys] =>
      match field 4 ys with Some y => from_fields y 1 1 | None => None end
  | [ys; ms] =>
      match field 4 ys, field 2 ms with
      | Some y, Some m => from_fields y m 1
      | _, _ => None
      end
  | [ys; ms; ds] =>
      match field 4 ys, field 2 ms, field 2 ds with
      | Some y, Some m, Some d => from_fields y m d
      | _, _, _ => None
      end
  | _ => None
  end.

(** [d.toISOString()]: UTC fields, [YYYY-MM-DDTHH:mm:ss.sssZ]; years outside
    0..9999 take a sign and six digits.  An invalid date throws a
    [RangeError]: [None]. *)
Definition year_string (y : Z) : string :=
  if ((0 <=? y) && (y <=? 9999))%Z then JSString.pad_digits 4 y ""
  else String (if (y <? 0)%Z then "-" else "+")%char
              (JSString.pad_digits 6 (Z.abs y) "").

Definition toISOString (d : t) : option string :=
  match d with
  | None => None
  | Some u =>
      let w := TimeWithinDay u in
      Some (year_string (YearFromTime u) ++ "-"
            ++ JSString.pad_digits 2 (MonthFromTime u + 1) "" ++ "-"
            ++ JSString.pad_digits 2 (DateFromTime u) "" ++ "T"
            ++ JSString.pad_digits 2 (w / 3600000) "" ++ ":"
            ++ JSString.pad_digits 2 (w / 60000 mod 60) "" ++ ":"
            ++ JSString.pad_digits 2 (w / 1000 mod 60) "" ++ "."
            ++ JSString.pad_digits 3 (w mod 1000) "" ++ "Z")%string
  end.

End JSDate.

(** ** Calls that can reject *)

Inductive Error : Type :=
| StoreError (message : string)
| RangeError.

Inductive Result (A : Type) : Type :=
| Ok (value : A)
| Err (error : Error).
Arguments Ok {A} value.
Arguments Err {A} error.

Definition bind {A B : Type} (r : Result A) (k : A -> Result B) : Result B :=
  match r with
  | Ok a => k a
  | Err e => Err e
  end.

Notation "x <- r ;; k" := (bind r (fun x => k))
  (at level 61, r at next level, right associativity).

(** [await Promise.all(xs.map(async (x) => f x))]: every result, in order, or
    a rejection if any call rejects. *)
Fixpoint all {A B : Type} (f : A -> Result B) (xs : list A) : Result (list B) :=
  match xs with
  | [] => Ok []
  | x :: rest =>
      match f x, all f rest with
      | Ok y, Ok ys => Ok (y :: ys)
      | Err e, _ => Err e
      | Ok _, Err e => Err e
      end
  end.

(** ** The record store: the tables of the SQL migration (its
    [CREATE TABLE] statements), queried through the supabase client.  The store itself is outside the repository; it is
    modelled by what the schema and the client's calls say.  A request either
    fails as a whole, as [failing] says, or is answered from the tables; a
    write that violates a constraint of the schema is refused and changes
    nothing. *)

Module Store.

Inductive Request : Type :=
| SelectBudgets (month : string)
| SelectBudgetId (category_id month : string)
| UpdateBudget (id : string)
| InsertBudget (category_id month : string)
| DeleteBudget (id : string)
| SelectAmounts (category_id startDate endDate : string).

Record t : Type := mk {
  categories : list Category.t;
  transactions : list Transaction.t;
  budgets : list Budget.t;
  failing : Request -> bool
}.

Definition with_budgets (s : t) (bs : list Budget.t) : t :=
  mk (categories s) (transactions s) bs (failing s).

(** What the database supplies on an insert and the client's clock. *)
Record Env : Type := mkEnv {
  gen_random_uuid : string;
  db_now : string;
  client_now : string
}.

Definition request {A : Type} (s : t) (r : Request) (answer : Result A)
  : Result A :=
  if failing s r then Err (StoreError "request failed") else answer.

(** [.single()] and [.maybeSingle()] on the rows of an answer. *)
Definition single {A : Type} (rows : list A) : Result A :=
  match rows with
  | [r] => Ok r
  | _ => Err (StoreError "JSON object requested, multiple (or no) rows returned")
  end.

Definition maybeSingle {A : Type} (rows : list A) : Result (option A) :=
  match rows with
  | [] => Ok None
  | [r] => Ok (Some r)
  | _ => Err (StoreError "JSON object requested, multiple rows returned")
  end.

(** [from('budgets').select(..).eq('month', month)]. *)
Definition select_budgets (s : t) (month : string) : Result (list Budget.t) :=
  request s (SelectBudgets month)
    (Ok (filter (fun b => String.eqb (Budget.month b) month) (budgets s))).

(** [from('budgets').select('id').eq('category_id', c).eq('month', m)
    .maybeSingle()]. *)
Definition budget_for (category_id month : string) (b : Budget.t) : bool :=
  String.eqb (Budget.category_id b) category_id
  && String.eqb (Budget.month b) month.

Definition select_budget_id (s : t) (category_id month : string)
  : Result (option string) :=
  request s (SelectBudgetId category_id month)
    (maybeSingle (map Budget.id (filter (budget_for category_id month) (budgets s)))).

(** [CHECK (limit_amount > 0)] on a value that arrived as a JSON number. *)
Definition check_limit (limit_amount : JS.number) : bool :=
  (0 <? limit_amount)%float && is_finite limit_amount.

(** [from('budgets').update({limit_amount, updated_at}).eq('id', id)
    .select().single()]. *)
Definition set_limit (limit_amount : JS.number) (updated_at : string)
    (b : Budget.t) : Budget.t :=
  Budget.mk (Budget.id b) (Budget.category_id b) limit_amount
            (Budget.month b) (Budget.created_at b) updated_at.

Definition update_budget (s : t) (id : string) (limit_amount : JS.number)
    (updated_at : string) : t * Result Budget.t :=
  let hit := fun b => String.eqb (Budget.id b) id in
  let rows := map (set_limit limit_amount updated_at) (filter hit (budgets s)) in
  if failing s (UpdateBudget id) then (s, Err (StoreError "request failed"))
  else if negb (check_limit limit_amount)
       then (s, Err (StoreError "violates check constraint"))
  else match single rows with
       | Ok row =>
           (with_budgets s
              (map (fun b => if hit b then set_limit limit_amount updated_at b else b)
                   (budgets s)),
            Ok row)
       | Err e => (s, Err e)
       end.

(** [from('budgets').insert([{category_id, limit_amount, month}]).select()
    .single()], under the primary key, the foreign key, the check and
    [UNIQUE(category_id, month)]. *)
Definition insert_budget (env : Env) (s : t) (category_id : string)
    (limit_amount : JS.number) (month : string) : t * Result Budget.t :=
  let row := Budget.mk (gen_random_uuid env) category_id limit_amount month
                       (db_now env) (db_now env) in
  if failing s (InsertBudget category_id month)
  then (s, Err (StoreError "request failed"))
  else if negb (check_limit limit_amount)
       then (s, Err (StoreError "violates check constraint"))
  else if negb (existsb (fun c => String.eqb (Category.id c) category_id) (categories s))
       then (s, Err (StoreError "violates foreign key constraint"))
  else if existsb (fun b => String.eqb (Budget.id b) (Budget.id row)) (budgets s)
       then (s, Err (StoreError "duplicate key value: id"))
  else if existsb (budget_for category_id month) (budgets s)
       then (s, Err (StoreError "duplicate key value: category_id, month"))
  else (with_budgets s (budgets s ++ [row]), Ok row).

(** [from('budgets').delete().eq('id', id)]. *)
Definition delete_budget (s : t) (id : string) : t * Result unit :=
  if failing s (DeleteBudget id) then (s, Err (StoreError "request failed"))
  else (with_budgets s
          (filter (fun b => negb (String.eqb (Budget.id b) id)) (budgets s)),
        Ok tt).

(** [from('transactions').select('amount').eq('category_id', c)
    .eq('type', 'expense').gte('date', startDate).lt('date', endDate)].
    The [date] column is ordered chronologically; on the ISO strings that
    cross the boundary this is the order of the strings. *)
Definition in_range (category_id startDate endDate : string)
    (x : Transaction.t) : bool :=
  String.eqb (Transaction.category_id x) category_id
  && kind_eqb (Transaction.type x) Expense
  && String.leb startDate (Transaction.date x)
  && String.ltb (Transaction.date x) endDate.

Definition select_amounts (s : t) (category_id startDate endDate : string)
  : Result (list JS.number) :=
  request s (SelectAmounts category_id startDate endDate)
    (Ok (map Transaction.amount
             (filter (in_range category_id startDate endDate) (transactions s)))).

End Store.

(** ** [src/lib/utils.ts] *)

Module Utils.

Definition getBudgets (s : Store.t) (month : string) : Result (list Budget.t) :=
  Store.select_budgets s month.

Definition setBudget (env : Store.Env) (s : Store.t) (categoryId : string)
    (limitAmount : JS.number) (month : string) : Store.t * Result Budget.t :=
  match Store.select_budget_id s categoryId month with
  | Err existError => (s, Err existError)
  | Ok (Some existing) =>
      Store.update_budget s existing limitAmount (Store.client_now env)
  | Ok None =>
      Store.insert_budget env s categoryId limitAmount month
  end.

Definition deleteBudget (s : Store.t) (id : string) : Store.t * Result unit :=
  Store.delete_budget s id.

Section Local.

Variable LocalTZA : Z.

(** [endDateStr]: the first bound that the spending queries exclude. *)
Definition endDateStr (month : string) : Result string :=
  let endDate :=
    JSDate.setMonth LocalTZA (JSDate.parse month)
      (JSDate.add (JSDate.getMonth LocalTZA (JSDate.parse month)) 1) in
  match JSDate.toISOString endDate with
  | Some iso => Ok (nth 0 (JSString.split "T" iso) "")
  | None => Err RangeError
  end.

Definition getCategorySpending (s : Store.t) (categoryId month : string)
  : Result JS.number :=
  let startDate := month in
  endDateStr <- endDateStr month ;;
  data <- Store.select_amounts s categoryId startDate endDateStr ;;
  Ok (JS.or_else (JS.sum_from 0%float data) 0%float).

End Local.

End Utils.

(** ** [src/components/Dashboard.tsx] *)

Module Dashboard.

Inductive TimeView : Type := day | week | month.
Inductive ChartType : Type := pie | bar.

Record Props : Type := mkProps {
  transactions : list TransactionWithCategory.t;
  categories : list Category.t;
  selectedMonth : string;
  timeView : TimeView
}.

Record Alert : Type := mkAlert {
  categoryName : string;
  spent : JS.number;
  limit : JS.number;
  percentage : JS.number
}.

Record Stats : Type := mkStats {
  income : JS.number;
  expenses : JS.number;
  net : JS.number
}.

(** The component's [useState] cells. *)
Record State : Type := mkState {
  chartType : ChartType;
  budgetAlerts : list Alert;
  monthlyStats : Stats
}.

Definition setMonthlyStats (st : State) (v : Stats) : State :=
  mkState (chartType st) (budgetAlerts st) v.

Definition setBudgetAlerts (st : State) (v : list Alert) : State :=
  mkState (chartType st) v (monthlyStats st).

Definition is_kind (k : kind) (x : TransactionWithCategory.t) : bool :=
  kind_eqb (TransactionWithCategory.type x) k.

(** One row of the expense breakdown, and the object the rows are
    accumulated in. *)
Record Bucket : Type := mkBucket {
  bucket_amount : JS.number;
  bucket_color : string;
  bucket_icon : string
}.

Record CategoryExpense : Type := mkCategoryExpense {
  name : string;
  amount : JS.number;
  color : string;
  icon : string
}.

(** The own properties of the accumulator [{}], in creation order. *)
Definition Grouped : Type := list (string * Bucket).

(** The property names every plain object inherits from [Object.prototype];
    [acc[name]] finds a function (or the prototype itself) under them. *)
Definition Object_prototype_keys : list string :=
  [ "constructor"; "__proto__"; "hasOwnProperty"; "isPrototypeOf";
    "propertyIsEnumerable"; "toLocaleString"; "toString"; "valueOf";
    "__defineGetter__"; "__defineSetter__"; "__lookupGetter__";
    "__lookupSetter__" ].

Definition inherited (key : string) : bool :=
  existsb (String.eqb key) Object_prototype_keys.

Definition has_own (acc : Grouped) (key : string) : bool :=
  existsb (fun e => String.eqb (fst e) key) acc.

(** [acc[key].amount += x] on an own property. *)
Definition add_amount (key : string) (x : JS.number) (acc : Grouped) : Grouped :=
  map (fun e =>
         if String.eqb (fst e) key
         then (fst e, mkBucket (bucket_amount (snd e) + x)%float
                               (bucket_color (snd e)) (bucket_icon (snd e)))
         else e) acc.

Definition categoryNameOf (trans : TransactionWithCategory.t) : string :=
  JS.str_or_else
    (match TransactionWithCategory.categories trans with
     | Some c => Category.name c
     | None => ""
     end) "Other".

(** The reducer of [getExpensesByCategory].  When [acc[categoryName]] is
    inherited the test [!acc[categoryName]] is false and the [+=] writes to
    the inherited object: the accumulator gains nothing. *)
Definition group_step (acc : Grouped) (trans : TransactionWithCategory.t)
  : Grouped :=
  let categoryName := categoryNameOf trans in
  let acc :=
    if negb (has_own acc categoryName || inherited categoryName)
    then acc ++ [(categoryName,
                  mkBucket 0%float
                    (JS.str_or_else
                       (match TransactionWithCategory.categories trans with
                        | Some c => Category.color c | None => "" end)
                       "#6B7280")
                    (JS.str_or_else
                       (match TransactionWithCategory.categories trans with
                        | Some c => Category.icon c | None => "" end)
                       "Package"))]
    else acc in
  if has_own acc categoryName
  then add_amount categoryName (TransactionWithCategory.amount trans) acc
  else acc.

(** [Object.entries]: the keys that are array indices come first, in
    ascending order, then the other keys in creation order. *)
Definition array_index (key : string) : option Z :=
  match key with
  | EmptyString => None
  | String "0" EmptyString => Some 0%Z
  | String "0" _ => None
  | _ =>
      match JSString.parse_digits key with
      | Some n => if (n <=? 4294967294)%Z then Some n else None
      | None => None
      end
  end.

Definition is_index (e : string * Bucket) : bool :=
  match array_index (fst e) with Some _ => true | None => false end.

Definition index_of (e : string * Bucket) : Z :=
  match array_index (fst e) with Some n => n | None => 0%Z end.

Fixpoint insert_by_index (e : string * Bucket) (l : Grouped) : Grouped :=
  match l with
  | [] => [e]
  | h :: t =>
      if (index_of e <=? index_of h)%Z then e :: l
      else h :: insert_by_index e t
  end.

Definition entries (acc : Grouped) : Grouped :=
  fold_right insert_by_index [] (filter is_index acc)
  ++ filter (fun e => negb (is_index e)) acc.

Section Local.

Variable LocalTZA : Z.

Definition startOfWeek (selectedMonth : string) : JSDate.t :=
  let date := JSDate.parse selectedMonth in
  JSDate.setDate LocalTZA date
    (JSDate.sub (JSDate.getDate LocalTZA date) (JSDate.getDay LocalTZA date)).

Definition endOfWeek (selectedMonth : string) : JSDate.t :=
  let startOfWeek := startOfWeek selectedMonth in
  JSDate.setDate LocalTZA startOfWeek
    (JSDate.add (JSDate.getDate LocalTZA startOfWeek) 6).

(** The test of the period filter, which [calculateStats] and
    [getExpensesByCategory] both apply. *)
Definition in_period (selectedMonth : string) (timeView : TimeView)
    (t : TransactionWithCategory.t) : bool :=
  match timeView with
  | day => String.eqb (TransactionWithCategory.date t) selectedMonth
  | week =>
      let tDate := JSDate.parse (TransactionWithCategory.date t) in
      JSDate.ge tDate (startOfWeek selectedMonth)
      && JSDate.le tDate (endOfWeek selectedMonth)
  | month =>
      let parts := JSString.split "-" selectedMonth in
      let year := JSString.template_nth 0 parts in
      let month := JSString.template_nth 1 parts in
      JSString.startsWith (TransactionWithCategory.date t)
                          (year ++ "-" ++ month)%string
  end.

Definition filterByPeriod (transactions : list TransactionWithCategory.t)
    (selectedMonth : string) (timeView : TimeView)
  : list TransactionWithCategory.t :=
  filter (in_period selectedMonth timeView) transactions.

(** The totals that [calculateStats] stores. *)
Definition aggregate (filtered : list TransactionWithCategory.t) : Stats :=
  let income :=
    JS.sum_from 0%float
      (map TransactionWithCategory.amount (filter (is_kind Income) filtered)) in
  let expenses :=
    JS.sum_from 0%float
      (map TransactionWithCategory.amount (filter (is_kind Expense) filtered)) in
  mkStats income expenses (income - expenses)%float.

(** The body of the loop of [checkBudgetAlerts] for one budget. *)
Definition alert_for (p : Props) (budget : Budget.t) (spent : JS.number)
  : option Alert :=
  let percentage := ((spent / Budget.limit_amount budget) * 100)%float in
  if JS.ge percentage 80%float then
    let categoryName :=
      JS.str_or_else
        (match find_category (categories p) (Budget.category_id budget) with
         | Some c => Category.name c
         | None => ""
         end) "Unknown" in
    Some (mkAlert categoryName spent (Budget.limit_amount budget) percentage)
  else None.

Fixpoint alerts_loop (p : Props) (s : Store.t) (budgets : list Budget.t)
    (alerts : list Alert) : Result (list Alert) :=
  match budgets with
  | [] => Ok alerts
  | budget :: rest =>
      spent <- Utils.getCategorySpending LocalTZA s
                 (Budget.category_id budget) (selectedMonth p) ;;
      alerts_loop p s rest
        (match alert_for p budget spent with
         | Some a => alerts ++ [a]
         | None => alerts
         end)
  end.

Definition checkBudgetAlerts (p : Props) (s : Store.t) (st : State) : State :=
  match (budgets <- Utils.getBudgets s (selectedMonth p) ;;
         alerts_loop p s budgets []) with
  | Ok alerts => setBudgetAlerts st alerts
  | Err _ => st
  end.

Definition calculateStats (p : Props) (s : Store.t) (st : State) : State :=
  let filtered :=
    filterByPeriod (transactions p) (selectedMonth p) (timeView p) in
  let st := setMonthlyStats st (aggregate filtered) in
  match timeView p with
  | month => checkBudgetAlerts p s st
  | _ => st
  end.

(** The grouping of [getExpensesByCategory], after its filter. *)
Definition groupExpensesByCategory
    (filtered : list TransactionWithCategory.t) : list CategoryExpense :=
  let grouped := fold_left group_step filtered [] in
  map (fun e => mkCategoryExpense (fst e) (bucket_amount (snd e))
                  (bucket_color (snd e)) (bucket_icon (snd e)))
      (entries grouped).

Definition getExpensesByCategory (p : Props) : list CategoryExpense :=
  groupExpensesByCategory
    (filter (fun t => in_period (selectedMonth p) (timeView p) t
                      && is_kind Expense t)
            (transactions p)).

(** [const totalExpense = expenses.reduce((sum, e) => sum + e.amount, 0)]. *)
Definition totalExpense (expenses : list CategoryExpense) : JS.number :=
  JS.sum_from 0%float (map amount expenses).

End Local.

End Dashboard.

(** ** [src/components/BudgetManager.tsx] *)

Module BudgetManager.

Record Props : Type := mkProps {
  categories : list Category.t;
  selectedMonth : string
}.

(** [interface BudgetWithSpending extends Budget]. *)
Record BudgetWithSpending : Type := mkBudgetWithSpending {
  budget : Budget.t;
  spent : JS.number;
  categoryName : string;
  categoryColor : string;
  categoryIcon : string
}.

Definition limit_amount (b : BudgetWithSpending) : JS.number :=
  Budget.limit_amount (budget b).

(** The component's [useState] cells. *)
Record State : Type := mkState {
  budgets : list BudgetWithSpending;
  isLoading : bool;
  isAdding : bool;
  newBudgetCategory : string;
  newBudgetAmount : string;
  error : string;
  deletingIds : list string
}.

Definition setBudgets (st : State) (v : list BudgetWithSpending) : State :=
  mkState v (isLoading st) (isAdding st) (newBudgetCategory st)
          (newBudgetAmount st) (error st) (deletingIds st).

Definition setIsLoading (st : State) (v : bool) : State :=
  mkState (budgets st) v (isAdding st) (newBudgetCategory st)
          (newBudgetAmount st) (error st) (deletingIds st).

Definition setError (st : State) (v : string) : State :=
  mkState (budgets st) (isLoading st) (isAdding st) (newBudgetCategory st)
          (newBudgetAmount st) v (deletingIds st).

Section Local.

Variable LocalTZA : Z.

(** The callback that [loadBudgets] maps over the fetched budgets. *)
Definition withSpending (p : Props) (s : Store.t) (budget : Budget.t)
  : Result BudgetWithSpending :=
  spent <- Utils.getCategorySpending LocalTZA s
             (Budget.category_id budget) (selectedMonth p) ;;
  let category := find_category (categories p) (Budget.category_id budget) in
  Ok (mkBudgetWithSpending budget spent
        (JS.str_or_else
           (match category with Some c => Category.name c | None => "" end)
           "Unknown")
        (JS.str_or_else
           (match category with Some c => Category.color c | None => "" end)
           "#6B7280")
        (JS.str_or_else
           (match category with Some c => Category.icon c | None => "" end)
           "Package")).

Definition loadBudgets (p : Props) (s : Store.t) (st : State) : State :=
  let st := setIsLoading st true in
  let st :=
    match (data <- Utils.getBudgets s (selectedMonth p) ;;
           all (withSpending p s) data) with
    | Ok budgetsWithSpending => setBudgets st budgetsWithSpending
    | Err _ => setError st "Failed to load budgets"
    end in
  setIsLoading st false.

End Local.

(** The render of one budget.
    [const percentage = (budget.spent / budget.limit_amount) * 100]. *)
Definition percentage (b : BudgetWithSpending) : JS.number :=
  ((spent b / limit_amount b) * 100)%float.

Definition isOverBudget (b : BudgetWithSpending) : bool :=
  JS.gt (percentage b) 100%float.

Definition isWarning (b : BudgetWithSpending) : bool :=
  JS.ge (percentage b) 80%float.

(** The three renderings that the card, the bar and the caption choose
    between, each by [isOverBudget ? .. : isWarning ? .. : ..]. *)
Inductive level : Type := Normal | Warning | Over.

Definition classify (b : BudgetWithSpending) : level :=
  if isOverBudget b then Over
  else if isWarning b then Warning
  else Normal.

(** [isOverBudget && `(Over by ...${budget.spent - budget.limit_amount}...)`]:
    the amount the caption reports, before [toFixed(2)]. *)
Definition overAmount (b : BudgetWithSpending) : option JS.number :=
  if isOverBudget b then Some (spent b - limit_amount b)%float else None.

End BudgetManager.

(** ** Sample data: two expense categories, their budgets for June 2024 and
    a handful of transactions *)

Module Sample.

Definition food : Category.t :=
  Category.mk "c1" "Food" Expense "Utensils" false "#F87171" "2024-01-01".
Definition rent : Category.t :=
  Category.mk "c2" "Rent" Expense "Home" false "#10B981" "2024-01-01".
Definition salary : Category.t :=
  Category.mk "c3" "Salary" Income "Briefcase" false "#10B981" "2024-01-01".

Definition txn (id : string) (type : kind) (amount : JS.number)
    (category_id date : string) : Transaction.t :=
  Transaction.mk id type amount category_id None date "2024-01-01" false None None.

Definition joined (c : Category.t) (x : Transaction.t)
  : TransactionWithCategory.t :=
  TransactionWithCategory.mk x (Some c).

Definition transactions : list Transaction.t :=
  [ txn "t1" Expense 7 "c1" "2024-05-31";
    txn "t2" Income 1000 "c3" "2024-06-02";
    txn "t3" Expense 500 "c2" "2024-06-05";
    txn "t4" Expense 85 "c1" "2024-06-10";
    txn "t5" Expense 20 "c1" "2024-07-01" ]%float.

Definition food_budget : Budget.t :=
  Budget.mk "b1" "c1" 100%float "2024-06-01" "2024-05-20" "2024-05-20".
Definition rent_budget : Budget.t :=
  Budget.mk "b2" "c2" 1000%float "2024-06-01" "2024-05-20" "2024-05-20".

Definition store : Store.t :=
  Store.mk [food; rent; salary] transactions [food_budget; rent_budget]
           (fun _ => false).

(** The same store while the spending query for the rent category fails. *)
Definition store_rent_down : Store.t :=
  Store.mk [food; rent; salary] transactions [food_budget; rent_budget]
           (fun r => match r with
                     | Store.SelectAmounts c _ _ => String.eqb c "c2"
                     | _ => false
                     end).

Definition env : Store.Env :=
  Store.mkEnv "b3" "2024-06-20T10:00:00.000Z" "2024-06-20T10:00:00.000Z".


(** The transactions as the dashboard receives them, joined with their
    categories. *)
Definition category_of (x : Transaction.t) : option Category.t :=
  find (fun c => String.eqb (Category.id c) (Transaction.category_id x))
       [food; rent; salary].

Definition joined_transactions : list TransactionWithCategory.t :=
  map (fun x => TransactionWithCategory.mk x (category_of x)) transactions.

(** Expenses on the Saturday before, the Sunday and the Saturday of, and the
    Sunday after the week of Wednesday 2024-06-12. *)
Definition around_the_week : list TransactionWithCategory.t :=
  [ joined food (txn "w1" Expense 1 "c1" "2024-06-08");
    joined food (txn "w2" Expense 2 "c1" "2024-06-09");
    joined food (txn "w3" Expense 4 "c1" "2024-06-15");
    joined food (txn "w4" Expense 8 "c1" "2024-06-16") ]%float.

(** Milliseconds of local time ahead of UTC: New York in winter, UTC and
    India. *)
Definition UTC_minus_5 : Z := -18000000.
Definition UTC_0 : Z := 0.
Definition UTC_plus_5_30 : Z := 19800000.

(** Expenses of 0.1 (Food), 0.1 (Rent) and 1.1 (Food). *)
Definition rounding_sample : list TransactionWithCategory.t :=
  [ joined food (txn "t1" Expense 0.1%float "c1" "2024-06-01");
    joined rent (txn "t2" Expense 0.1%float "c2" "2024-06-02");
    joined food (txn "t3" Expense 1.1%float "c1" "2024-06-03") ].

(** The dashboard on June 2024, by month and by week, before any totals
    were computed. *)
Definition month_props : Dashboard.Props :=
  Dashboard.mkProps joined_transactions [food; rent; salary] "2024-06-01"
                    Dashboard.month.

Definition week_props : Dashboard.Props :=
  Dashboard.mkProps joined_transactions [food; rent; salary] "2024-06-12"
                    Dashboard.week.

Definition stale_alert : Dashboard.Alert :=
  Dashboard.mkAlert "Rent" 900%float 1000%float 90%float.

Definition dashboard0 : Dashboard.State :=
  Dashboard.mkState Dashboard.pie [stale_alert]
                    (Dashboard.mkStats 0%float 0%float 0%float).

(** The budget manager on June 2024, showing one budget already. *)
Definition manager_props : BudgetManager.Props :=
  BudgetManager.mkProps [food; rent; salary] "2024-06-01".

Definition manager0 : BudgetManager.State :=
  BudgetManager.mkState
    [BudgetManager.mkBudgetWithSpending food_budget 60%float "Food" "#F87171"
                                        "Utensils"]
    false false "" "" "" [].

End Sample.

(** ** The vocabulary of the specification *)

Module Spec.

(** The calendar date [YYYY-MM-DD] of a year in 0..9999, a month 1..12 and
    a day. *)
Definition iso_date (y m d : Z) : string :=
  (JSString.pad_digits 4 y "" ++ "-" ++ JSString.pad_digits 2 m "" ++ "-"
   ++ JSString.pad_digits 2 d "")%string.


(** The shape of a reference date that names a month: [YYYY-MM] or
    [YYYY-MM-DD]. *)
Definition names_month (s : string) : bool :=
  match s with
  | String y1 (String y2 (String y3 (String y4 (String "-"
      (String m1 (String m2 rest)))))) =>
      JSString.is_digit y1 && JSString.is_digit y2 && JSString.is_digit y3
      && JSString.is_digit y4 && JSString.is_digit m1 && JSString.is_digit m2
      && match rest with
         | EmptyString => true
         | String "-" (String d1 (String d2 EmptyString)) =>
             JSString.is_digit d1 && JSString.is_digit d2
         | _ => false
         end
  | _ => false
  end.

(** The [YYYY-MM] prefix of a reference date. *)
Definition year_month (s : string) : string := substring 0 7 s.

(** "The sum of amount over the transactions of type [k]", read off the
    specification: one pass over the list, adding the amounts of that type
    in the order of the list. *)
Fixpoint sum_where (k : kind) (sum : JS.number)
    (T : list TransactionWithCategory.t) : JS.number :=
  match T with
  | [] => sum
  | t :: rest =>
      sum_where k
        (match Transaction.type (TransactionWithCategory.row t), k with
         | Income, Income | Expense, Expense =>
             (sum + Transaction.amount (TransactionWithCategory.row t))%float
         | _, _ => sum
         end)
        rest
  end.

(** What one budget's spending fetch answers, when it answers, and the
    percentage of its limit that this is. *)
Definition spent_of (LocalTZA : Z) (s : Store.t) (month : string)
    (b : Budget.t) : JS.number :=
  match Utils.getCategorySpending LocalTZA s (Budget.category_id b) month with
  | Ok x => x
  | Err _ => 0%float
  end.

Definition percentage_of (LocalTZA : Z) (s : Store.t) (month : string)
    (b : Budget.t) : JS.number :=
  ((spent_of LocalTZA s month b / Budget.limit_amount b) * 100)%float.

Definition fetched (LocalTZA : Z) (s : Store.t) (month : string)
    (b : Budget.t) : Prop :=
  exists x,
    Utils.getCategorySpending LocalTZA s (Budget.category_id b) month = Ok x.

(** At most one budget for every pair of a category and a month. *)
Definition at_most_one_per_pair (bs : list Budget.t) : Prop :=
  forall category_id month,
    (List.length (filter (Store.budget_for category_id month) bs) <= 1)%nat.

(** The two ways a call of [setBudget] can succeed. *)
Definition updated_in_place (env : Store.Env) (s s' : Store.t) (c : string)
    (a : JS.number) (m : string) (b : Budget.t) : Prop :=
  exists old,
    filter (Store.budget_for c m) (Store.budgets s) = [old]
    /\ b = Store.set_limit a (Store.client_now env) old
    /\ Store.budgets s'
       = map (fun x => if Store.budget_for c m x
                       then Store.set_limit a (Store.client_now env) x else x)
             (Store.budgets s).

Definition inserted (env : Store.Env) (s s' : Store.t) (c : string)
    (a : JS.number) (m : string) (b : Budget.t) : Prop :=
  filter (Store.budget_for c m) (Store.budgets s) = []
  /\ b = Budget.mk (Store.gen_random_uuid env) c a m (Store.db_now env)
                   (Store.db_now env)
  /\ Store.budgets s' = Store.budgets s ++ [b].

(** The amounts of the transactions whose category name is [n], in the
    order of the list. *)
Definition amounts_named (n : string) (T : list TransactionWithCategory.t)
  : list JS.number :=
  map TransactionWithCategory.amount
      (filter (fun t => String.eqb (Dashboard.categoryNameOf t) n) T).

(** What holds of the accumulator of the grouping after the transactions
    [T]. *)
Record grouped_of (T : list TransactionWithCategory.t) (acc : Dashboard.Grouped)
  : Prop := mkGroupedOf {
  keys_distinct : NoDup (map fst acc);
  keys_from_input :
    forall k, In k (map fst acc) ->
              Dashboard.inherited k = false
              /\ exists t, In t T /\ Dashboard.categoryNameOf t = k;
  input_has_key :
    forall t, In t T -> Dashboard.inherited (Dashboard.categoryNameOf t) = false ->
              In (Dashboard.categoryNameOf t) (map fst acc);
  amount_is_sum :
    forall k b, In (k, b) acc ->
                Dashboard.bucket_amount b
                = JS.sum_from 0%float (amounts_named k T)
}.

(** The value of a finite binary64 number, times 2^1074: an integer. *)
Definition scaled (x : JS.number) : Z :=
  match Prim2SF x with
  | S754_finite s m e => ((if s then Z.neg m else Z.pos m) * 2 ^ (e + 1074))%Z
  | _ => 0%Z
  end.

(** The sum of a list of numbers without rounding (times 2^1074). *)
Definition exact_total (xs : list JS.number) : Z :=
  fold_right Z.add 0%Z (map scaled xs).

End Spec.

(** ** [src/lib/utils.ts]: the rows of a month *)

Module UtilsMonthly.

(** The columns that [getMonthlySpending] selects. *)
Record Row : Type := mkRow {
  amount : JS.number;
  category_id : string
}.

(** [from('transactions').select('amount, category_id').eq('type', type)
    .gte('date', startDate).lt('date', endDate)]: one more request of the
    store, which can fail like the others. *)
Inductive Request : Type :=
| SelectMonth (type : kind) (startDate endDate : string).

Record Backend : Type := mkBackend {
  store : Store.t;
  failing : Request -> bool
}.

Definition in_month (type : kind) (startDate endDate : string)
    (x : Transaction.t) : bool :=
  kind_eqb (Transaction.type x) type
  && String.leb startDate (Transaction.date x)
  && String.ltb (Transaction.date x) endDate.

Definition select_month (b : Backend) (type : kind)
    (startDate endDate : string) : Result (list Row) :=
  if failing b (SelectMonth type startDate endDate)
  then Err (StoreError "request failed")
  else Ok (map (fun x => mkRow (Transaction.amount x) (Transaction.category_id x))
               (filter (in_month type startDate endDate)
                       (Store.transactions (store b)))).

Definition getMonthlySpending (LocalTZA : Z) (b : Backend) (month : string)
    (type : kind) : Result (list Row) :=
  let startDate := month in
  endDateStr <- Utils.endDateStr LocalTZA month ;;
  select_month b type startDate endDateStr.

End UtilsMonthly.

(** ** [src/components/BudgetManager.tsx]: the add and delete handlers *)

Module BudgetManagerHandlers.
Import BudgetManager.

Definition setNewBudgetCategory (st : State) (v : string) : State :=
  mkState (budgets st) (isLoading st) (isAdding st) v
          (newBudgetAmount st) (error st) (deletingIds st).

Definition setNewBudgetAmount (st : State) (v : string) : State :=
  mkState (budgets st) (isLoading st) (isAdding st) (newBudgetCategory st)
          v (error st) (deletingIds st).

Definition setDeletingIds (st : State) (v : list string) : State :=
  mkState (budgets st) (isLoading st) (isAdding st) (newBudgetCategory st)
          (newBudgetAmount st) (error st) v.

(** A [Set<string>] is the list of its elements in insertion order.
    [new Set(xs)], [set.has(x)] and the copy of a set without [x]. *)
Definition Set_of (xs : list string) : list string :=
  fold_left (fun acc x => if existsb (String.eqb x) acc then acc else acc ++ [x])
            xs [].

Definition Set_has (set : list string) (x : string) : bool :=
  existsb (String.eqb x) set.

Definition Set_without (set : list string) (x : string) : list string :=
  filter (fun y => negb (String.eqb y x)) (Set_of set).

(** The categories that the form offers. *)
Definition expenseCategories (p : Props) : list Category.t :=
  filter (fun c => kind_eqb (Category.type c) Expense) (categories p).

Definition usedCategoryIds (st : State) : list string :=
  map (fun b => Budget.category_id (budget b)) (budgets st).

Definition availableCategories (p : Props) (st : State) : list Category.t :=
  filter (fun c => negb (existsb (String.eqb (Category.id c)) (usedCategoryIds st)))
         (expenseCategories p).

Section Handlers.

Variable LocalTZA : Z.

(** [parseFloat] of the text of the amount field. *)
Variable parseFloat : string -> JS.number.

(** The handlers run against the store and leave a new store and a new
    component state. *)
Definition handleAddBudget (p : Props) (env : Store.Env) (s : Store.t)
    (st : State) : Store.t * State :=
  match newBudgetCategory st, newBudgetAmount st with
  | EmptyString, _ | _, EmptyString =>
      (s, setError st "Please fill in all fields")
  | _, _ =>
      let st := setError st "" in
      match Utils.setBudget env s (newBudgetCategory st)
                            (parseFloat (newBudgetAmount st)) (selectedMonth p) with
      | (s', Ok _) =>
          let st := setNewBudgetCategory st "" in
          let st := setNewBudgetAmount st "" in
          (s', loadBudgets LocalTZA p s' st)
      | (s', Err _) => (s', setError st "Failed to add budget")
      end
  end.

Definition handleDeleteBudget (p : Props) (s : Store.t) (st : State)
    (id : string) : Store.t * State :=
  let st := setDeletingIds st (Set_of (deletingIds st ++ [id])) in
  let (s', r) := Utils.deleteBudget s id in
  let st :=
    match r with
    | Ok _ => loadBudgets LocalTZA p s' st
    | Err _ => setError st "Failed to delete budget"
    end in
  (s', setDeletingIds st (Set_without (deletingIds st) id)).

End Handlers.

End BudgetManagerHandlers.

(** ** [src/App.tsx]: the date navigation and what the dashboard is given *)

Module App.

Inductive Direction : Type := prev | next.

(** The component's [useState] cells. *)
Record State : Type := mkState {
  isAuthenticated : bool;
  showTransactionForm : bool;
  showBudgetManager : bool;
  transactions : list TransactionWithCategory.t;
  categories : list Category.t;
  isLoading : bool;
  selectedMonth : string;
  timeView : Dashboard.TimeView;
  currentDate : string
}.

Definition setCurrentDate (st : State) (v : string) : State :=
  mkState (isAuthenticated st) (showTransactionForm st) (showBudgetManager st)
          (transactions st) (categories st) (isLoading st) (selectedMonth st)
          (timeView st) v.

Definition setSelectedMonth (st : State) (v : string) : State :=
  mkState (isAuthenticated st) (showTransactionForm st) (showBudgetManager st)
          (transactions st) (categories st) (isLoading st) v
          (timeView st) (currentDate st).

Definition setTimeView (st : State) (v : Dashboard.TimeView) : State :=
  mkState (isAuthenticated st) (showTransactionForm st) (showBudgetManager st)
          (transactions st) (categories st) (isLoading st) (selectedMonth st)
          v (currentDate st).

(** [new Date(ms).toISOString().split('T')[0]]. *)
Definition isoDay (d : JSDate.t) : option string :=
  option_map (fun iso => nth 0 (JSString.split "T" iso) "")
             (JSDate.toISOString d).

(** The state of the first render, at the time [now]:
    [useState(new Date().toISOString().split('T')[0].slice(0, 7))] and
    [useState(new Date().toISOString().split('T')[0])]. *)
Definition initial (now : Z) : option State :=
  match isoDay (JSDate.TimeClip now) with
  | Some today =>
      Some (mkState false false false [] [] true (substring 0 7 today)
                    Dashboard.month today)
  | None => None
  end.

Section Local.

Variable LocalTZA : Z.

(** [direction === 'next' ? k : -k]. *)
Definition step (direction : Direction) (k : Z) : Z :=
  match direction with next => k | prev => (- k)%Z end.

(** [handleDateChange]: when [toISOString] throws on an invalid date the
    handler ends before it sets any state. *)
Definition handleDateChange (direction : Direction) (st : State) : State :=
  let date := JSDate.parse (currentDate st) in
  let date :=
    match timeView st with
    | Dashboard.day =>
        JSDate.setDate LocalTZA date
          (JSDate.add (JSDate.getDate LocalTZA date) (step direction 1))
    | Dashboard.week =>
        JSDate.setDate LocalTZA date
          (JSDate.add (JSDate.getDate LocalTZA date) (step direction 7))
    | Dashboard.month =>
        JSDate.setMonth LocalTZA date
          (JSDate.add (JSDate.getMonth LocalTZA date) (step direction 1))
    end in
  match isoDay date with
  | Some newDate =>
      setSelectedMonth (setCurrentDate st newDate) (substring 0 7 newDate)
  | None => st
  end.

End Local.

(** The props of the [<Dashboard>] and [<BudgetManager>] elements. *)
Definition dashboardProps (st : State) : Dashboard.Props :=
  Dashboard.mkProps (transactions st) (categories st) (selectedMonth st)
                    (timeView st).

Definition budgetManagerProps (st : State) : BudgetManager.Props :=
  BudgetManager.mkProps (categories st) (selectedMonth st).

End App.

(** ** More vocabulary: the navigation of the application *)

Module SpecApp.

(** The days that one step of the navigation moves by, in the day and the
    week view. *)
Definition stride (v : Dashboard.TimeView) : Z :=
  match v with
  | Dashboard.day => 1
  | Dashboard.week => 7
  | Dashboard.month => 0
  end%Z.

Definition opposite (d : App.Direction) : App.Direction :=
  match d with App.next => App.prev | App.prev => App.next end.

(** The month prop is the first seven characters of the current date. *)
Definition synced (st : App.State) : Prop :=
  App.selectedMonth st = substring 0 7 (App.currentDate st).

(** The same day of the month before or after month [m] (1 to 12) of
    year [y]. *)
Definition month_shifted (dir : App.Direction) (y m d : Z) : string :=
  match dir with
  | App.next =>
      if (m =? 12)%Z then Spec.iso_date (y + 1) 1 d else Spec.iso_date y (m + 1) d
  | App.prev =>
      if (m =? 1)%Z then Spec.iso_date (y - 1) 12 d else Spec.iso_date y (m - 1) d
  end.

(** The current date is written the way [toISOString] writes it. *)
Definition canonical (st : App.State) : Prop :=
  App.isoDay (JSDate.parse (App.currentDate st)) = Some (App.currentDate st).

End SpecApp.

(** ** More sample data: the form, the navigation and the monthly rows *)

Module SampleApp.

(** [parseFloat] on the texts used below, a run of decimal digits: such a
    text below 2^53 is read exactly, as [parseFloat] reads it. *)
Definition digit_number (c : ascii) : JS.number :=
  match JSString.digit_value c with
  | 0%Z => 0%float | 1%Z => 1%float | 2%Z => 2%float | 3%Z => 3%float
  | 4%Z => 4%float | 5%Z => 5%float | 6%Z => 6%float | 7%Z => 7%float
  | 8%Z => 8%float | _ => 9%float
  end.

Fixpoint decimal (acc : JS.number) (s : string) : JS.number :=
  match s with
  | String c rest =>
      if JSString.is_digit c then decimal (acc * 10 + digit_number c)%float rest
      else acc
  | EmptyString => acc
  end.

Definition parseFloat_digits (s : string) : JS.number :=
  match s with
  | String c _ => if JSString.is_digit c then decimal 0%float s else nan
  | EmptyString => nan
  end.

(** The form of the budget manager, filled in with the rent category and
    the amount 250. *)
Definition manager_filled : BudgetManager.State :=
  BudgetManager.mkState (BudgetManager.budgets Sample.manager0)
                        false true "c2" "250" "" [].

(** The backend of the monthly query over the sample store. *)
Definition backend : UtilsMonthly.Backend :=
  UtilsMonthly.mkBackend Sample.store (fun _ => false).

(** A zone fixed at five hours behind UTC all year round (Etc/GMT+5). *)
Definition fixed_minus_5 : Z := -18000000.

(** The application showing the date [date] in the view [view]. *)
Definition showing (view : Dashboard.TimeView) (date : string) : App.State :=
  App.mkState true false false Sample.joined_transactions
              [Sample.food; Sample.rent; Sample.salary] false
              (substring 0 7 date) view date.

End SampleApp.

(** * Properties *)

(** ** The order of binary64 values *)

Section FloatOrder.

Lemma SFcompare_antisym (x y : spec_float) :
  SFcompare y x = option_map CompOpp (SFcompare x y).
Proof.
  destruct x as [sx|sx| |sx mx ex], y as [sy|sy| |sy my ey]; cbn;
    try reflexivity;
    try (destruct sx; reflexivity);
    try (destruct sy; reflexivity);
    try (destruct sx, sy; reflexivity).
  change (PosDef.Pos.compare_cont Eq my mx) with (Pos.compare my mx).
  change (PosDef.Pos.compare_cont Eq mx my) with (Pos.compare mx my).
  rewrite (Z.compare_antisym ex ey), (Pos.compare_antisym mx my).
  destruct sx, sy; cbn; try reflexivity;
    destruct (ex ?= ey)%Z; cbn; try reflexivity;
    destruct (mx ?= my)%positive; reflexivity.
Qed.

Lemma SFcompare_lt_trans (x y z : spec_float) :
  SFcompare x y = Some Lt -> SFcompare y z = Some Lt ->
  SFcompare x z = Some Lt.
Proof.
  destruct x as [sx|sx| |sx mx ex], y as [sy|sy| |sy my ey],
           z as [sz|sz| |sz mz ez]; cbn;
    try discriminate;
    try (destruct sx; discriminate);
    try (destruct sy; discriminate);
    try (destruct sz; discriminate);
    try (destruct sx, sy; discriminate);
    try (destruct sy, sz; discriminate);
    try (destruct sx, sy, sz; cbn; congruence).
  all: repeat match goal with
       | |- context [PosDef.Pos.compare_cont Eq ?a ?b] =>
         change (PosDef.Pos.compare_cont Eq a b) with (Pos.compare a b)
       end.
  all: destruct sx, sy, sz; cbn; try congruence.
  all: destruct (Z.compare_spec ex ey), (Z.compare_spec ey ez);
    try discriminate; subst.
  all: try (destruct (Pos.compare_spec mx my); try discriminate).
  all: try (destruct (Pos.compare_spec my mz); try discriminate).
  all: intros _ _.
  all: try (destruct (Z.compare_spec ex ez); try lia).
  all: try (destruct (Z.compare_spec ey ez); try lia).
  all: try (destruct (Z.compare_spec ez ez); try lia).
  all: try (destruct (Pos.compare_spec mx mz); try lia).
  all: try reflexivity.
  all: subst; try lia.
Qed.

Lemma ltb_Lt (x y : float) :
  (x <? y)%float = true <-> SFcompare (Prim2SF x) (Prim2SF y) = Some Lt.
Proof.
  rewrite ltb_spec. unfold SFltb.
  destruct (SFcompare (Prim2SF x) (Prim2SF y)) as [[ | | ]|];
    split; congruence.
Qed.

Lemma ltb_not_leb (x y : float) :
  (x <? y)%float = true -> (y <=? x)%float = false.
Proof.
  rewrite ltb_Lt, leb_spec. unfold SFleb. intros H.
  rewrite (SFcompare_antisym (Prim2SF x) (Prim2SF y)), H. reflexivity.
Qed.

Lemma leb_not_ltb (x y : float) :
  (x <=? y)%float = true -> (y <? x)%float = false.
Proof.
  rewrite ltb_spec, leb_spec. unfold SFleb, SFltb.
  rewrite (SFcompare_antisym (Prim2SF x) (Prim2SF y)).
  destruct (SFcompare (Prim2SF x) (Prim2SF y)) as [[ | | ]|]; cbn; congruence.
Qed.

Lemma ltb_trans (x y z : float) :
  (x <? y)%float = true -> (y <? z)%float = true -> (x <? z)%float = true.
Proof. rewrite !ltb_Lt. apply SFcompare_lt_trans. Qed.

Lemma ltb_irrefl (x : float) : (x <? x)%float = false.
Proof.
  destruct (x <? x)%float eqn:E; [|reflexivity].
  pose proof (ltb_not_leb _ _ E) as H.
  rewrite leb_spec in H. rewrite ltb_spec in E. unfold SFltb, SFleb in *.
  destruct (SFcompare (Prim2SF x) (Prim2SF x)) as [[ | | ]|]; congruence.
Qed.

End FloatOrder.

(** ** Budget classification: the properties *)

Module BudgetManagerFacts.
Import BudgetManager.

(** Below the warning threshold a budget is neither a warning nor over. *)
Lemma below_80 (b : BudgetWithSpending) :
  JS.lt (percentage b) 80%float = true ->
  isWarning b = false /\ isOverBudget b = false.
Proof.
  unfold JS.lt, isWarning, isOverBudget, JS.ge, JS.gt. intros H. split.
  - now apply ltb_not_leb.
  - destruct (100 <? percentage b)%float eqn:E; [|reflexivity].
    pose proof (ltb_trans _ _ _ E H) as C. vm_compute in C. discriminate.
Qed.

(** C1. For every budget card, with
    [pct = spent / limit_amount * 100]: [pct < 80] is rendered normal;
    [80 <= pct <= 100] is rendered as a warning, so [pct = 100] exactly is a
    warning and not over; [pct > 100] is rendered over budget and the caption
    reports [spent - limit_amount].  The hypothesis [limit_amount > 0] of the
    claim is not needed. *)
Theorem classify_by_percentage (b : BudgetWithSpending) (pct : JS.number) :
  pct = (spent b / Budget.limit_amount (budget b) * 100)%float ->
  ((pct <? 80)%float = true -> classify b = Normal) /\
  ((80 <=? pct)%float = true -> (pct <=? 100)%float = true ->
   classify b = Warning) /\
  (pct = 100%float -> classify b = Warning) /\
  ((100 <? pct)%float = true ->
   classify b = Over /\
   overAmount b = Some (spent b - Budget.limit_amount (budget b))%float).
Proof.
  intros ->. change (spent b / Budget.limit_amount (budget b) * 100)%float
    with (percentage b).
  unfold classify, overAmount. repeat split.
  - intros H. destruct (below_80 b H) as [-> ->]. reflexivity.
  - intros Hge Hle. unfold isOverBudget, isWarning, JS.gt, JS.ge.
    rewrite (leb_not_ltb _ _ Hle), Hge. reflexivity.
  - intros E. unfold isOverBudget, isWarning. rewrite E. reflexivity.
  - unfold isOverBudget, JS.gt. now rewrite H.
  - unfold isOverBudget, JS.gt. now rewrite H.
Qed.

Lemma classify_by_percentage_witness :
  let card := fun spent =>
    mkBudgetWithSpending Sample.food_budget spent "Food" "#F87171" "Utensils" in
  classify (card 79.999%float) = Normal
  /\ classify (card 80%float) = Warning
  /\ classify (card 100%float) = Warning
  /\ classify (card 120%float) = Over
  /\ overAmount (card 120%float) = Some 20%float.
Proof.
  intros card. split; [|split; [|split; [|split]]].
  - apply (proj1 (classify_by_percentage (card 79.999%float)
                    (79.999 / 100 * 100)%float eq_refl)).
    vm_compute. reflexivity.
  - apply (proj1 (proj2 (classify_by_percentage (card 80%float)
                           (80 / 100 * 100)%float eq_refl)));
      vm_compute; reflexivity.
  - apply (proj1 (proj2 (proj2 (classify_by_percentage (card 100%float)
                                   (100 / 100 * 100)%float eq_refl)))).
    vm_compute. reflexivity.
  - apply (proj2 (proj2 (proj2 (classify_by_percentage (card 120%float)
                                   (120 / 100 * 100)%float eq_refl)))).
    vm_compute. reflexivity.
  - destruct (proj2 (proj2 (proj2 (classify_by_percentage (card 120%float)
                                      (120 / 100 * 100)%float eq_refl))))
      as [_ H]; [vm_compute; reflexivity|].
    rewrite H. vm_compute. reflexivity.
Defined.

(** The boundaries of the specification, for a limit of 100: 79.999 is
    normal, 80 and 100 are warnings, 100.01 is over (by 0.01, up to binary64
    rounding); 85 is a warning and 120 is over by 20. *)
Example classification_boundaries :
  let b := fun spent =>
    mkBudgetWithSpending Sample.food_budget spent "Food" "#F87171" "Utensils" in
  map (fun x => classify (b x)) [79.999; 80; 85; 100; 100.01; 120]%float
  = [Normal; Warning; Warning; Warning; Over; Over]
  /\ overAmount (b 120%float) = Some 20%float
  /\ overAmount (b 100%float) = None
  /\ percentage (b 85%float) = 85%float.
Proof. vm_compute. repeat split; reflexivity. Qed.

End BudgetManagerFacts.


Module JSDateFacts.
Import Spec.
Import JSDate.
#[local] Open Scope Z_scope.

Lemma DayFromYear_step (y : Z) :
  DayFromYear (y + 1) = DayFromYear y + DaysInYear y.
Proof.
  unfold DayFromYear, DaysInYear, InLeapYear.
  destruct (Z.eqb_spec (y mod 4) 0), (Z.eqb_spec (y mod 100) 0),
    (Z.eqb_spec (y mod 400) 0); cbn [andb orb negb];
    Z.to_euclidean_division_equations; lia.
Qed.

Lemma YearFromDay_spec (d : Z) :
  DayFromYear (YearFromDay d) <= d < DayFromYear (YearFromDay d + 1).
Proof.
  unfold YearFromDay.
  set (y := 1970 + d * 400 / 146097).
  assert (Hlo : DayFromYear (y - 1) <= d).
  { unfold DayFromYear, y. Z.to_euclidean_division_equations. lia. }
  assert (Hhi : d < DayFromYear (y + 2)).
  { unfold DayFromYear, y. Z.to_euclidean_division_equations. lia. }
  destruct (Z.ltb_spec d (DayFromYear y)).
  - replace (y - 1 + 1) with y by lia. lia.
  - destruct (Z.leb_spec (DayFromYear (y + 1)) d).
    + replace (y + 1 + 1) with (y + 2) by lia. lia.
    + lia.
Qed.
Lemma DayFromYear_mono (a b : Z) : a <= b -> DayFromYear a <= DayFromYear b.
Proof. unfold DayFromYear. Z.to_euclidean_division_equations. lia. Qed.

(** [YearFromDay d] is the year whose days include [d]. *)
Lemma YearFromDay_unique (d y : Z) :
  DayFromYear y <= d < DayFromYear (y + 1) -> YearFromDay d = y.
Proof.
  intros H. pose proof (YearFromDay_spec d) as S.
  destruct (Z.lt_trichotomy (YearFromDay d) y) as [L|[E|G]]; [|exact E|].
  - pose proof (DayFromYear_mono (YearFromDay d + 1) y). lia.
  - pose proof (DayFromYear_mono (y + 1) (YearFromDay d)). lia.
Qed.

Lemma MonthFromTime_range (t : Z) : 0 <= MonthFromTime t <= 11.
Proof.
  unfold MonthFromTime.
  repeat match goal with
         | |- context [if ?c then _ else _] => destruct c; [lia|]
         end.
  lia.
Qed.

Lemma time_split (t : Z) : t = Day t * msPerDay + TimeWithinDay t.
Proof.
  unfold Day, TimeWithinDay, msPerDay.
  pose proof (Z.div_mod t 86400000). lia.
Qed.

(** The day number of a date of the month that [t] lies in. *)
Lemma MakeDay_this_month (t k : Z) :
  MakeDay (YearFromTime t) (MonthFromTime t) (DateFromTime t + k) = Day t + k.
Proof.
  pose proof (MonthFromTime_range t) as R.
  unfold MakeDay.
  rewrite (Z.div_small (MonthFromTime t) 12), (Z.mod_small (MonthFromTime t) 12)
    by lia.
  rewrite Z.add_0_r. unfold DateFromTime, DayWithinYear. lia.
Qed.

(** [d.setDate(d.getDate() + k)] moves a date by [k] days, in every zone. *)
Lemma setDate_shift (LocalTZA u k : Z) :
  setDate LocalTZA (Some u)
          (Some (DateFromTime (LocalTime LocalTZA u) + k))
  = TimeClip (u + k * msPerDay).
Proof.
  unfold setDate. rewrite MakeDay_this_month. f_equal.
  unfold UTC, MakeDate.
  pose proof (time_split (LocalTime LocalTZA u)). unfold LocalTime in *. lia.
Qed.

Lemma TimeClip_Some (t u : Z) : TimeClip t = Some u -> u = t.
Proof. unfold TimeClip. destruct (_ <=? _); congruence. Qed.

Lemma TimeClip_in_range (t : Z) :
  Z.abs t <= 8640000000000000 -> TimeClip t = Some t.
Proof.
  intros H. unfold TimeClip. destruct (Z.leb_spec (Z.abs t) 8640000000000000).
  - reflexivity.
  - lia.
Qed.

(** A midnight of UTC seen from a zone at or east of Greenwich is the same
    day; from a zone west of it, the day before. *)
Lemma Day_east (LocalTZA D : Z) :
  0 <= LocalTZA < msPerDay -> Day (D * msPerDay + LocalTZA) = D.
Proof.
  intros H. unfold Day, msPerDay in *.
  symmetry. apply (Z.div_unique _ _ _ LocalTZA); lia.
Qed.

Lemma Day_west (LocalTZA D : Z) :
  - msPerDay <= LocalTZA < 0 -> Day (D * msPerDay + LocalTZA) = D - 1.
Proof.
  intros H. unfold Day, msPerDay in *.
  symmetry. apply (Z.div_unique _ _ _ (LocalTZA + 86400000)); lia.
Qed.

Lemma digit_value_range (c : ascii) :
  JSString.is_digit c = true -> 0 <= JSString.digit_value c <= 9.
Proof.
  unfold JSString.is_digit, JSString.digit_value. intros H.
  apply andb_prop in H. destruct H as [H1 H2].
  apply Nat.leb_le in H1, H2. lia.
Qed.

Lemma digits_value_range (s : string) :
  forall acc v,
    0 <= acc ->
    JSString.digits_value acc s = Some v ->
    acc * 10 ^ Z.of_nat (String.length s) <= v
    < (acc + 1) * 10 ^ Z.of_nat (String.length s).
Proof.
  induction s as [|c s IH]; intros acc v Hacc; cbn [JSString.digits_value String.length].
  - intros [= <-]. cbn. lia.
  - destruct (JSString.is_digit c) eqn:Hc; [|discriminate].
    intros H. pose proof (digit_value_range c Hc) as Hd.
    apply IH in H; [|lia].
    rewrite Nat2Z.inj_succ, Z.pow_succ_r by lia.
    assert (0 < 10 ^ Z.of_nat (String.length s)) by (apply Z.pow_pos_nonneg; lia).
    nia.
Qed.

Lemma field_range (n : nat) (s : string) (v : Z) :
  field n s = Some v -> 0 <= v < 10 ^ Z.of_nat n.
Proof.
  unfold field. destruct (Nat.eqb_spec (String.length s) n) as [<-|]; [|discriminate].
  unfold JSString.parse_digits. destruct s; [discriminate|].
  intros H. apply digits_value_range in H; lia.
Qed.

Lemma DaysInMonth_range (y m : Z) :
  0 <= m <= 11 -> 28 <= DaysInMonth y m <= 31.
Proof.
  intros Hm. unfold DaysInMonth, MakeDay.
  assert (Hc : m = 0 \/ m = 1 \/ m = 2 \/ m = 3 \/ m = 4 \/ m = 5 \/ m = 6
               \/ m = 7 \/ m = 8 \/ m = 9 \/ m = 10 \/ m = 11) by lia.
  pose proof (DayFromYear_step y) as Hs. unfold DaysInYear in Hs.
  repeat destruct Hc as [->|Hc]; try subst m; cbn -[DayFromYear InLeapYear];
    rewrite ?Z.add_0_r; destruct (InLeapYear y); try lia;
    destruct (InLeapYear (y + 1)); lia.
Qed.

Lemma from_fields_Some (y m d u : Z) :
  from_fields y m d = Some u ->
  1 <= m <= 12 /\ 1 <= d <= 31 /\ u = MakeDay y (m - 1) d * msPerDay.
Proof.
  unfold from_fields.
  destruct (Z.leb_spec 1 m) as [H1|]; cbn [andb]; [|discriminate].
  destruct (Z.leb_spec m 12) as [H2|]; cbn [andb]; [|discriminate].
  destruct (Z.leb_spec 1 d) as [H3|]; cbn [andb]; [|discriminate].
  destruct (Z.leb_spec d (DaysInMonth y (m - 1))) as [H4|]; [|discriminate].
  intros H. apply TimeClip_Some in H. unfold MakeDate in H.
  pose proof (DaysInMonth_range y (m - 1)). lia.
Qed.

Lemma parse_fields (s : string) (u : Z) :
  parse s = Some u ->
  exists y m d, 0 <= y <= 9999 /\ from_fields y m d = Some u.
Proof.
  unfold parse.
  destruct (JSString.split "-" s) as [|ys [|ms [|ds [|x l]]]]; try discriminate.
  - destruct (field 4 ys) as [y|] eqn:Hy; [|discriminate].
    apply field_range in Hy. intros H. exists y, 1, 1. split; [cbn in Hy; lia|exact H].
  - destruct (field 4 ys) as [y|] eqn:Hy; [|discriminate].
    destruct (field 2 ms) as [m|] eqn:Hm; [|discriminate].
    apply field_range in Hy. intros H. exists y, m, 1. split; [cbn in Hy; lia|exact H].
  - destruct (field 4 ys) as [y|] eqn:Hy; [|discriminate].
    destruct (field 2 ms) as [m|] eqn:Hm; [|discriminate].
    destruct (field 2 ds) as [d|] eqn:Hd; [|discriminate].
    apply field_range in Hy. intros H. exists y, m, d. split; [cbn in Hy; lia|exact H].
Qed.

(** A date-only string is read as a midnight of UTC, in the years 0..9999. *)
Lemma parse_midnight (s : string) (u : Z) :
  parse s = Some u ->
  u = Day u * msPerDay /\ -719528 <= Day u <= 2932897.
Proof.
  intros H. apply parse_fields in H. destruct H as (y & m & d & Hy & H).
  apply from_fields_Some in H. destruct H as (Hm & Hd & ->).
  assert (HD : Day (MakeDay y (m - 1) d * msPerDay) = MakeDay y (m - 1) d).
  { unfold Day. apply Z.div_mul. unfold msPerDay. lia. }
  rewrite HD. split; [reflexivity|].
  unfold MakeDay.
  rewrite (Z.div_small (m - 1) 12), (Z.mod_small (m - 1) 12), Z.add_0_r by lia.
  assert (0 <= DaysBeforeMonth (InLeapYear y) (m - 1) <= 335).
  { assert (Hc : m - 1 = 0 \/ m - 1 = 1 \/ m - 1 = 2 \/ m - 1 = 3 \/ m - 1 = 4
                 \/ m - 1 = 5 \/ m - 1 = 6 \/ m - 1 = 7 \/ m - 1 = 8 \/ m - 1 = 9
                 \/ m - 1 = 10 \/ m - 1 = 11) by lia.
    repeat destruct Hc as [->|Hc]; try rewrite Hc; cbn;
      destruct (InLeapYear y); lia. }
  assert (DayFromYear 0 <= DayFromYear y) by (apply DayFromYear_mono; lia).
  assert (DayFromYear y <= DayFromYear 9999) by (apply DayFromYear_mono; lia).
  change (DayFromYear 0) with (-719528) in *.
  change (DayFromYear 9999) with 2932532 in *.
  lia.
Qed.

Lemma MakeDay_in_year (y m d : Z) :
  0 <= m <= 11 ->
  MakeDay y m d = DayFromYear y + DaysBeforeMonth (InLeapYear y) m + d - 1.
Proof.
  intros Hm. unfold MakeDay.
  now rewrite (Z.div_small m 12), (Z.mod_small m 12), Z.add_0_r by lia.
Qed.

Lemma MakeDay_next_year (y d : Z) : MakeDay y 12 d = MakeDay (y + 1) 0 d.
Proof.
  unfold MakeDay.
  change (12 / 12) with 1. change (12 mod 12) with 0.
  change (0 / 12) with 0. change (0 mod 12) with 0.
  now rewrite (Z.add_0_r (y + 1)).
Qed.

Ltac month_cases m :=
  let Hc := fresh "Hc" in
  assert (Hc : m = 0 \/ m = 1 \/ m = 2 \/ m = 3 \/ m = 4 \/ m = 5 \/ m = 6
               \/ m = 7 \/ m = 8 \/ m = 9 \/ m = 10 \/ m = 11) by lia;
  repeat destruct Hc as [->|Hc]; try subst m.

(** The length of a month, as the difference of two first days. *)
Lemma DaysInMonth_table (y m : Z) :
  0 <= m <= 11 ->
  DaysBeforeMonth (InLeapYear y) m + DaysInMonth y m
  = match m with
    | 0 => 31 | 1 => 59 | 2 => 90 | 3 => 120 | 4 => 151 | 5 => 181 | 6 => 212
    | 7 => 243 | 8 => 273 | 9 => 304 | 10 => 334 | _ => 365
    end + (if (m =? 0) then 0 else if InLeapYear y then 1 else 0).
Proof.
  intros Hm. unfold DaysInMonth.
  pose proof (DayFromYear_step y) as Hs. unfold DaysInYear in Hs.
  month_cases m;
    match goal with
    | |- context [MakeDay y (11 + 1) 1] =>
        change (11 + 1) with 12; rewrite MakeDay_next_year
    | |- context [MakeDay y (?k + 1) 1] =>
        let v := eval vm_compute in (k + 1) in change (k + 1) with v
    end;
    rewrite !MakeDay_in_year by lia; cbn [DaysBeforeMonth Z.eqb];
    destruct (InLeapYear y); destruct (InLeapYear (y + 1)); lia.
Qed.

(** The fields of a day given by year, month (0..11) and day of the month. *)
Lemma fields_of_MakeDay (y m d : Z) :
  0 <= m <= 11 -> 1 <= d <= DaysInMonth y m ->
  let t := MakeDay y m d * msPerDay in
  YearFromTime t = y /\ MonthFromTime t = m /\ DateFromTime t = d.
Proof.
  intros Hm Hd t.
  assert (HD : Day t = MakeDay y m d).
  { unfold t, Day. apply Z.div_mul. unfold msPerDay. lia. }
  pose proof (DayFromYear_step y) as Hs. unfold DaysInYear in Hs.
  pose proof (DaysInMonth_table y m Hm) as Ht.
  rewrite MakeDay_in_year in HD by exact Hm.
  assert (HY : YearFromTime t = y).
  { unfold YearFromTime. rewrite HD. apply YearFromDay_unique.
    month_cases m; cbn [DaysBeforeMonth Z.eqb] in *;
      destruct (InLeapYear y); lia. }
  assert (HW : DayWithinYear t = DaysBeforeMonth (InLeapYear y) m + d - 1).
  { unfold DayWithinYear. rewrite HY, HD. lia. }
  assert (HM : MonthFromTime t = m).
  { unfold MonthFromTime. rewrite HW, HY.
    month_cases m; cbn [DaysBeforeMonth Z.eqb] in *;
      destruct (InLeapYear y);
      repeat match goal with
             | |- context [(?a <? ?b)%Z] => destruct (Z.ltb_spec a b); try lia
             end; lia. }
  repeat split; [exact HY|exact HM|].
  unfold DateFromTime. rewrite HW, HY, HM. lia.
Qed.

(** The fields of a time depend on its day only. *)
Lemma fields_same_day (t t' : Z) :
  Day t = Day t' ->
  YearFromTime t = YearFromTime t' /\ MonthFromTime t = MonthFromTime t'
  /\ DateFromTime t = DateFromTime t'.
Proof.
  intros H.
  assert (HY : YearFromTime t = YearFromTime t') by (unfold YearFromTime; now rewrite H).
  assert (HW : DayWithinYear t = DayWithinYear t')
    by (unfold DayWithinYear; now rewrite H, HY).
  assert (HM : MonthFromTime t = MonthFromTime t')
    by (unfold MonthFromTime; now rewrite HW, HY).
  repeat split; auto. unfold DateFromTime. now rewrite HW, HY, HM.
Qed.

Lemma MakeDay_range (y m d : Z) :
  0 <= y <= 9999 -> 0 <= m <= 11 -> 1 <= d <= 31 ->
  -719528 <= MakeDay y m d <= 2932897.
Proof.
  intros Hy Hm Hd. rewrite MakeDay_in_year by exact Hm.
  assert (0 <= DaysBeforeMonth (InLeapYear y) m <= 335)
    by (month_cases m; cbn [DaysBeforeMonth]; destruct (InLeapYear y); lia).
  assert (DayFromYear 0 <= DayFromYear y) by (apply DayFromYear_mono; lia).
  assert (DayFromYear y <= DayFromYear 9999) by (apply DayFromYear_mono; lia).
  change (DayFromYear 0) with (-719528) in *.
  change (DayFromYear 9999) with 2932532 in *.
  lia.
Qed.

Lemma TimeWithinDay_east (LocalTZA D : Z) :
  0 <= LocalTZA < msPerDay -> TimeWithinDay (D * msPerDay + LocalTZA) = LocalTZA.
Proof.
  intros H. pose proof (time_split (D * msPerDay + LocalTZA)) as S.
  rewrite Day_east in S by exact H. lia.
Qed.

Lemma digit_char_not_T (v : Z) : Ascii.eqb (JSString.digit_char v) "T" = false.
Proof.
  unfold JSString.digit_char.
  pose proof (Z.mod_pos_bound v 10) as R.
  assert (Hc : v mod 10 = 0 \/ v mod 10 = 1 \/ v mod 10 = 2 \/ v mod 10 = 3
               \/ v mod 10 = 4 \/ v mod 10 = 5 \/ v mod 10 = 6 \/ v mod 10 = 7
               \/ v mod 10 = 8 \/ v mod 10 = 9) by lia.
  repeat destruct Hc as [->|Hc]; try rewrite Hc; reflexivity.
Qed.

Lemma pad_digits_2 (v : Z) (suffix : string) :
  JSString.pad_digits 2 v suffix
  = String (JSString.digit_char (v / 10)) (String (JSString.digit_char v) suffix).
Proof. reflexivity. Qed.

Lemma pad_digits_4 (v : Z) (suffix : string) :
  JSString.pad_digits 4 v suffix
  = String (JSString.digit_char (v / 10 / 10 / 10))
      (String (JSString.digit_char (v / 10 / 10))
         (String (JSString.digit_char (v / 10))
            (String (JSString.digit_char v) suffix))).
Proof. reflexivity. Qed.

(** The part before the [T] of a string [cccc-cc-ccT...] whose ten leading
    characters are not [T]. *)
Lemma split_T_date (c1 c2 c3 c4 c5 c6 c7 c8 : ascii) (rest : string) :
  Ascii.eqb c1 "T" = false -> Ascii.eqb c2 "T" = false ->
  Ascii.eqb c3 "T" = false -> Ascii.eqb c4 "T" = false ->
  Ascii.eqb c5 "T" = false -> Ascii.eqb c6 "T" = false ->
  Ascii.eqb c7 "T" = false -> Ascii.eqb c8 "T" = false ->
  nth 0 (JSString.split "T"
           (String c1 (String c2 (String c3 (String c4 (String "-"
              (String c5 (String c6 (String "-"
                 (String c7 (String c8 (String "T" rest)))))))))))) ""%string
  = String c1 (String c2 (String c3 (String c4 (String "-"
      (String c5 (String c6 (String "-" (String c7 (String c8 ""))))))))).
Proof.
  intros H1 H2 H3 H4 H5 H6 H7 H8.
  cbn [JSString.split]. rewrite H1, H2, H3, H4, H5, H6, H7, H8.
  change (Ascii.eqb "-" "T") with false. change (Ascii.eqb "T" "T") with true.
  reflexivity.
Qed.

(** [d.toISOString().split('T')[0]] of a midnight of UTC. *)
Lemma date_part_of_midnight (y m d : Z) :
  0 <= y <= 9999 -> 0 <= m <= 11 -> 1 <= d <= DaysInMonth y m ->
  option_map (fun iso => nth 0 (JSString.split "T" iso) "")
             (toISOString (Some (MakeDay y m d * msPerDay)))
  = Some (iso_date y (m + 1) d).
Proof.
  intros Hy Hm Hd.
  destruct (fields_of_MakeDay y m d Hm Hd) as (HY & HM & HDt).
  unfold toISOString. cbv zeta.
  rewrite HY, HM, HDt.
  replace (TimeWithinDay (MakeDay y m d * msPerDay)) with 0
    by (unfold TimeWithinDay; now rewrite Z.mod_mul by (unfold msPerDay; lia)).
  unfold year_string.
  destruct (Z.leb_spec 0 y); [|lia]. destruct (Z.leb_spec y 9999); [|lia].
  cbn [andb option_map]. f_equal.
  unfold iso_date. rewrite !pad_digits_4, !pad_digits_2.
  cbn [String.append].
  apply split_T_date; apply digit_char_not_T.
Qed.

End JSDateFacts.


(** ** The spending of a category in a month *)

Module SpendingFacts.
Import Spec.
Import JSDate JSDateFacts.
#[local] Open Scope Z_scope.

Lemma local_fields_east (LocalTZA y m d : Z) :
  0 <= LocalTZA < msPerDay -> 0 <= m <= 11 -> 1 <= d <= DaysInMonth y m ->
  let l := LocalTime LocalTZA (MakeDay y m d * msPerDay) in
  YearFromTime l = y /\ MonthFromTime l = m /\ DateFromTime l = d
  /\ TimeWithinDay l = LocalTZA.
Proof.
  intros Hz Hm Hd l.
  assert (HD : Day l = Day (MakeDay y m d * msPerDay)).
  { unfold l, LocalTime. rewrite Day_east by exact Hz.
    unfold Day. symmetry. apply Z.div_mul. unfold msPerDay. lia. }
  destruct (fields_same_day _ _ HD) as (-> & -> & ->).
  destruct (fields_of_MakeDay y m d Hm Hd) as (-> & -> & ->).
  repeat split. unfold l, LocalTime. now apply TimeWithinDay_east.
Qed.



(** June 2024 in the sample store, in UTC and in India: the expense of 85 on
    2024-06-10 counts, those of 2024-05-31 and 2024-07-01 do not. *)
Example spending_sample_UTC :
  Utils.endDateStr Sample.UTC_0 "2024-06-01" = Ok "2024-07-01"%string
  /\ Utils.getCategorySpending Sample.UTC_0 Sample.store "c1" "2024-06-01"
     = Ok 85%float
  /\ Utils.getCategorySpending Sample.UTC_plus_5_30 Sample.store "c1" "2024-06-01"
     = Ok 85%float.
Proof. vm_compute. repeat split; reflexivity. Qed.

(** C7 at a failing input.  Five hours west of Greenwich the bound for June
    2024 is 2024-07-02, so the expense of 20 on 2024-07-01, the first day of
    the next month, is counted: 105 instead of 85.  For March 2024 the bound
    is 2024-03-30, and the last two days of the month are left out. *)
Theorem spending_sample_UTC_minus_5 :
  Utils.endDateStr Sample.UTC_minus_5 "2024-06-01" = Ok "2024-07-02"%string
  /\ Utils.getCategorySpending Sample.UTC_minus_5 Sample.store "c1" "2024-06-01"
     = Ok 105%float
  /\ Utils.endDateStr Sample.UTC_minus_5 "2024-03-01" = Ok "2024-03-30"%string.
Proof. vm_compute. repeat split; reflexivity. Qed.

End SpendingFacts.

(** ** The period filter *)

Module PeriodFacts.
Import Spec.
Import Dashboard.

Lemma digit_not_hyphen (c : ascii) :
  JSString.is_digit c = true -> Ascii.eqb c "-" = false.
Proof.
  destruct c as [[] [] [] [] [] [] [] []]; vm_compute; congruence.
Qed.

Lemma month_prefix (s : string) :
  names_month s = true ->
  let parts := JSString.split "-" s in
  (JSString.template_nth 0 parts ++ "-" ++ JSString.template_nth 1 parts)%string
  = year_month s.
Proof.
  destruct s as [|y1 [|y2 [|y3 [|y4 [|h s]]]]]; try (cbn; discriminate).
  destruct h as [[] [] [] [] [] [] [] []]; try (cbn; discriminate).
  destruct s as [|m1 [|m2 rest]]; try (cbn; discriminate).
  cbn [names_month].
  intros H.
  do 6 (apply andb_prop in H; destruct H as [H ?]).
  cbn [JSString.split].
  repeat match goal with
         | D : JSString.is_digit ?c = true |- _ =>
             rewrite (digit_not_hyphen c D); clear D
         end.
  rewrite Ascii.eqb_refl.
  destruct rest as [|h2 rest]; [reflexivity|].
  destruct h2 as [[] [] [] [] [] [] [] []]; try discriminate.
  cbn [JSString.split]. rewrite Ascii.eqb_refl.
  cbn. destruct (JSString.split "-" rest); reflexivity.
Qed.

(** C3. With the month granularity and a reference date in month M
    ([YYYY-MM] or [YYYY-MM-DD]), the filter returns exactly the transactions,
    in their order, whose date string starts with M's [YYYY-MM] prefix. *)
Theorem filter_month_is_prefix_subset (LocalTZA : Z)
    (T : list TransactionWithCategory.t) (referenceDate : string) :
  names_month referenceDate = true ->
  filterByPeriod LocalTZA T referenceDate month
  = filter (fun t => String.prefix (year_month referenceDate)
                                   (TransactionWithCategory.date t)) T.
Proof.
  intros H. unfold filterByPeriod. apply filter_ext. intros t.
  unfold in_period, JSString.startsWith.
  now rewrite (month_prefix referenceDate H).
Qed.

Lemma filter_month_is_prefix_subset_witness :
  filterByPeriod Sample.UTC_0 Sample.joined_transactions "2024-06-12" month
  = filter (fun t => String.prefix "2024-06" (TransactionWithCategory.date t))
           Sample.joined_transactions
  /\ map TransactionWithCategory.date
       (filterByPeriod Sample.UTC_0 Sample.joined_transactions "2024-06-12" month)
     = ["2024-06-02"; "2024-06-05"; "2024-06-10"].
Proof.
  split.
  - apply (filter_month_is_prefix_subset Sample.UTC_0 Sample.joined_transactions
             "2024-06-12").
    reflexivity.
  - reflexivity.
Defined.

(** *** The week *)

Lemma startOfWeek_value (LocalTZA : Z) (referenceDate : string) (u : Z) :
  JSDate.parse referenceDate = Some u ->
  startOfWeek LocalTZA referenceDate
  = JSDate.TimeClip
      (u - JSDate.WeekDay (JSDate.LocalTime LocalTZA u) * JSDate.msPerDay)%Z.
Proof.
  intros H. unfold startOfWeek. rewrite H.
  cbn [JSDate.getDate JSDate.getDay option_map JSDate.sub].
  rewrite <- Z.add_opp_r, JSDateFacts.setDate_shift. f_equal. lia.
Qed.

Lemma endOfWeek_value (LocalTZA : Z) (referenceDate : string) (st : Z) :
  startOfWeek LocalTZA referenceDate = Some st ->
  endOfWeek LocalTZA referenceDate
  = JSDate.TimeClip (st + 6 * JSDate.msPerDay)%Z.
Proof.
  intros H. unfold endOfWeek. rewrite H.
  cbn [JSDate.getDate option_map JSDate.add].
  apply JSDateFacts.setDate_shift.
Qed.

Lemma WeekDay_range (t : Z) : (0 <= JSDate.WeekDay t <= 6)%Z.
Proof.
  unfold JSDate.WeekDay. pose proof (Z.mod_pos_bound (JSDate.Day t + 4) 7). lia.
Qed.

(** The bounds of the week, by the day number [D] of the reference date and
    the weekday [w] that the local clock shows at its UTC midnight. *)
Lemma week_bounds (LocalTZA : Z) (referenceDate : string) (u : Z) :
  JSDate.parse referenceDate = Some u ->
  let w := JSDate.WeekDay (JSDate.LocalTime LocalTZA u) in
  startOfWeek LocalTZA referenceDate
  = Some ((JSDate.Day u - w) * JSDate.msPerDay)%Z
  /\ endOfWeek LocalTZA referenceDate
     = Some ((JSDate.Day u - w + 6) * JSDate.msPerDay)%Z.
Proof.
  intros H w.
  destruct (JSDateFacts.parse_midnight _ _ H) as [Hu HD].
  pose proof (WeekDay_range (JSDate.LocalTime LocalTZA u)) as Hw. fold w in Hw.
  assert (Hs : startOfWeek LocalTZA referenceDate
               = Some ((JSDate.Day u - w) * JSDate.msPerDay)%Z).
  { rewrite (startOfWeek_value _ _ _ H). fold w.
    replace (u - w * JSDate.msPerDay)%Z with ((JSDate.Day u - w) * JSDate.msPerDay)%Z
      by lia.
    apply JSDateFacts.TimeClip_in_range. unfold JSDate.msPerDay. lia. }
  split; [exact Hs|].
  rewrite (endOfWeek_value _ _ _ Hs).
  replace ((JSDate.Day u - w) * JSDate.msPerDay + 6 * JSDate.msPerDay)%Z
    with ((JSDate.Day u - w + 6) * JSDate.msPerDay)%Z by lia.
  apply JSDateFacts.TimeClip_in_range. unfold JSDate.msPerDay. lia.
Qed.

(** At or east of Greenwich the local weekday is the weekday of the
    reference date; west of Greenwich it is the weekday of the day before. *)
Lemma local_weekday_east (LocalTZA : Z) (s : string) (u : Z) :
  (0 <= LocalTZA < JSDate.msPerDay)%Z ->
  JSDate.parse s = Some u ->
  JSDate.WeekDay (JSDate.LocalTime LocalTZA u) = JSDate.WeekDay u.
Proof.
  intros Hz H. destruct (JSDateFacts.parse_midnight _ _ H) as [Hu _].
  unfold JSDate.WeekDay, JSDate.LocalTime.
  rewrite Hu at 1. now rewrite JSDateFacts.Day_east.
Qed.

Lemma local_weekday_west (LocalTZA : Z) (s : string) (u : Z) :
  (- JSDate.msPerDay <= LocalTZA < 0)%Z ->
  JSDate.parse s = Some u ->
  JSDate.WeekDay (JSDate.LocalTime LocalTZA u) = ((JSDate.Day u + 3) mod 7)%Z.
Proof.
  intros Hz H. destruct (JSDateFacts.parse_midnight _ _ H) as [Hu _].
  unfold JSDate.WeekDay, JSDate.LocalTime.
  rewrite Hu at 1. rewrite JSDateFacts.Day_west by exact Hz.
  f_equal. lia.
Qed.

(** The test of the week filter, by day numbers. *)
Lemma in_week_iff (LocalTZA : Z) (referenceDate : string) (u : Z)
    (t : TransactionWithCategory.t) :
  JSDate.parse referenceDate = Some u ->
  let first := (JSDate.Day u - JSDate.WeekDay (JSDate.LocalTime LocalTZA u))%Z in
  in_period LocalTZA referenceDate week t
  = match JSDate.parse (TransactionWithCategory.date t) with
    | Some v => ((first <=? JSDate.Day v) && (JSDate.Day v <=? first + 6))%Z
    | None => false
    end.
Proof.
  intros H first. unfold in_period.
  destruct (week_bounds LocalTZA referenceDate u H) as [-> ->]. fold first.
  destruct (JSDate.parse (TransactionWithCategory.date t)) as [v|] eqn:Hv;
    [|reflexivity].
  destruct (JSDateFacts.parse_midnight _ _ Hv) as [Ev _].
  unfold JSDate.ge, JSDate.le. rewrite Ev at 1 2.
  unfold JSDate.msPerDay.
  f_equal; apply Bool.eq_true_iff_eq; rewrite !Z.leb_le; lia.
Qed.

(** In a zone whose offset from UTC is fixed (no daylight saving, no other
    change of offset), at or east of Greenwich and less than a day ahead,
    the week filter keeps exactly the transactions dated from the Sunday on
    or before the reference date to the Saturday after it. *)
Theorem week_filter_east_of_Greenwich (LocalTZA : Z)
    (T : list TransactionWithCategory.t) (referenceDate : string) (u : Z) :
  (0 <= LocalTZA < JSDate.msPerDay)%Z ->
  JSDate.parse referenceDate = Some u ->
  let sunday := (JSDate.Day u - JSDate.WeekDay u)%Z in
  filterByPeriod LocalTZA T referenceDate week
  = filter (fun t =>
              match JSDate.parse (TransactionWithCategory.date t) with
              | Some v => ((sunday <=? JSDate.Day v) && (JSDate.Day v <=? sunday + 6))%Z
              | None => false
              end) T.
Proof.
  intros Hz H sunday. unfold filterByPeriod. apply filter_ext. intros t.
  rewrite (in_week_iff LocalTZA referenceDate u t H).
  now rewrite (local_weekday_east LocalTZA referenceDate u Hz H).
Qed.

(** In a zone west of Greenwich the week that the filter keeps starts on the
    weekday after: from Monday to Sunday, and it is the week before when the
    reference date is a Sunday. *)
Theorem week_filter_west_of_Greenwich (LocalTZA : Z)
    (T : list TransactionWithCategory.t) (referenceDate : string) (u : Z) :
  (- JSDate.msPerDay <= LocalTZA < 0)%Z ->
  JSDate.parse referenceDate = Some u ->
  let first := (JSDate.Day u - (JSDate.Day u + 3) mod 7)%Z in
  first <> (JSDate.Day u - JSDate.WeekDay u)%Z
  /\ filterByPeriod LocalTZA T referenceDate week
     = filter (fun t =>
                 match JSDate.parse (TransactionWithCategory.date t) with
                 | Some v => ((first <=? JSDate.Day v) && (JSDate.Day v <=? first + 6))%Z
                 | None => false
                 end) T.
Proof.
  intros Hz H first. split.
  - unfold first, JSDate.WeekDay. Z.to_euclidean_division_equations. lia.
  - unfold filterByPeriod. apply filter_ext. intros t.
    rewrite (in_week_iff LocalTZA referenceDate u t H).
    now rewrite (local_weekday_west LocalTZA referenceDate u Hz H).
Qed.

Lemma week_filter_east_of_Greenwich_witness :
  map TransactionWithCategory.date
      (filterByPeriod Sample.UTC_plus_5_30 Sample.around_the_week "2024-06-12" week)
  = ["2024-06-09"; "2024-06-15"].
Proof.
  rewrite (week_filter_east_of_Greenwich Sample.UTC_plus_5_30
             Sample.around_the_week "2024-06-12" 1718150400000).
  - reflexivity.
  - unfold Sample.UTC_plus_5_30, JSDate.msPerDay. lia.
  - reflexivity.
Defined.

Lemma week_filter_west_of_Greenwich_witness :
  map TransactionWithCategory.date
      (filterByPeriod Sample.UTC_minus_5 Sample.around_the_week "2024-06-12" week)
  = ["2024-06-15"; "2024-06-16"].
Proof.
  destruct (week_filter_west_of_Greenwich Sample.UTC_minus_5
              Sample.around_the_week "2024-06-12" 1718150400000) as [_ H].
  - unfold Sample.UTC_minus_5, JSDate.msPerDay. lia.
  - reflexivity.
  - rewrite H. reflexivity.
Defined.

(** The scenario of the specification, in UTC and in India: for the reference
    date 2024-06-12 the week is 2024-06-09 .. 2024-06-15. *)
Example week_scenario_UTC :
  map TransactionWithCategory.date
      (filterByPeriod Sample.UTC_0 Sample.around_the_week "2024-06-12" week)
  = ["2024-06-09"; "2024-06-15"]
  /\ map TransactionWithCategory.date
       (filterByPeriod Sample.UTC_plus_5_30 Sample.around_the_week "2024-06-12" week)
     = ["2024-06-09"; "2024-06-15"].
Proof. vm_compute. split; reflexivity. Qed.

(** C4 at a failing input.  Five hours west of Greenwich, for the reference
    date 2024-06-12, the week runs from 2024-06-10 to 2024-06-16: the
    transaction of 2024-06-09 is dropped and the one of 2024-06-16 is kept. *)
Theorem week_scenario_UTC_minus_5 :
  startOfWeek Sample.UTC_minus_5 "2024-06-12" = JSDate.parse "2024-06-10"
  /\ endOfWeek Sample.UTC_minus_5 "2024-06-12" = JSDate.parse "2024-06-16"
  /\ map TransactionWithCategory.date
       (filterByPeriod Sample.UTC_minus_5 Sample.around_the_week "2024-06-12" week)
     = ["2024-06-15"; "2024-06-16"].
Proof. vm_compute. repeat split; reflexivity. Qed.

End PeriodFacts.

(** ** The totals and the alerts of the dashboard *)

Module DashboardFacts.
Import Spec.
Import Dashboard.

Lemma sum_from_filter (k : kind) (T : list TransactionWithCategory.t) :
  forall sum,
    JS.sum_from sum (map TransactionWithCategory.amount (filter (is_kind k) T))
    = sum_where k sum T.
Proof.
  induction T as [|t rest IH]; intros sum; cbn [filter map sum_where].
  - reflexivity.
  - unfold is_kind, kind_eqb, TransactionWithCategory.type,
      TransactionWithCategory.amount.
    destruct (Transaction.type (TransactionWithCategory.row t)), k;
      cbn [map]; try apply IH;
      unfold JS.sum_from in *; cbn [fold_left]; apply IH.
Qed.

(** [checkBudgetAlerts] writes the alerts and nothing else. *)
Lemma checkBudgetAlerts_frame (LocalTZA : Z) (p : Props) (s : Store.t)
    (st : State) :
  monthlyStats (checkBudgetAlerts LocalTZA p s st) = monthlyStats st
  /\ chartType (checkBudgetAlerts LocalTZA p s st) = chartType st.
Proof.
  unfold checkBudgetAlerts.
  destruct (bind _ _); split; reflexivity.
Qed.

Lemma calculateStats_monthlyStats (LocalTZA : Z) (p : Props) (s : Store.t)
    (st : State) :
  monthlyStats (calculateStats LocalTZA p s st)
  = aggregate (filterByPeriod LocalTZA (transactions p) (selectedMonth p)
                              (timeView p)).
Proof.
  unfold calculateStats.
  destruct (timeView p); try reflexivity.
  now rewrite (proj1 (checkBudgetAlerts_frame _ _ _ _)).
Qed.

(** C5. For every transaction list [T], [aggregate T] has [income] the sum
    of the amounts of the income transactions, [expenses] the sum of the
    amounts of the expense transactions (each summed from 0 in list order),
    and [net] exactly [income - expenses].  ([calculateStats_monthlyStats]:
    these are the totals stored for the filtered transactions.) *)
Theorem aggregate_totals (T : list TransactionWithCategory.t) :
  income (aggregate T) = sum_where Income 0%float T
  /\ expenses (aggregate T) = sum_where Expense 0%float T
  /\ net (aggregate T) = (income (aggregate T) - expenses (aggregate T))%float
  /\ net (aggregate T)
     = (sum_where Income 0%float T - sum_where Expense 0%float T)%float.
Proof.
  unfold aggregate; cbn [income expenses net].
  rewrite !sum_from_filter. repeat split.
Qed.

Lemma aggregate_totals_witness :
  aggregate Sample.joined_transactions
  = mkStats 1000%float 612%float 388%float.
Proof.
  destruct (aggregate_totals Sample.joined_transactions)
    as (Hi & He & _ & Hn).
  destruct (aggregate Sample.joined_transactions) as [i e n].
  cbn [income expenses net] in Hi, He, Hn. rewrite Hi, He, Hn.
  vm_compute. reflexivity.
Defined.

(** The scenario of the specification: an expense of 50 on 2024-06-01 and an
    income of 1000 on 2024-06-02, filtered to the month 2024-06. *)
Example aggregate_scenario :
  let food := Category.mk "c1" "Food" Expense "Utensils" false "#F87171" "" in
  let T :=
    [ TransactionWithCategory.mk
        (Transaction.mk "t1" Expense 50%float "c1" None "2024-06-01" "" false None None)
        (Some food);
      TransactionWithCategory.mk
        (Transaction.mk "t2" Income 1000%float "c9" None "2024-06-02" "" false None None)
        None ] in
  aggregate (filterByPeriod 0 T "2024-06" month) = mkStats 1000%float 50%float 950%float.
Proof. vm_compute. reflexivity. Qed.

(** C10. In the day and the week view [calculateStats] leaves the alert list
    (and the chart type) as they were; only the totals are replaced. *)
Theorem alerts_untouched_outside_month (LocalTZA : Z) (p : Props)
    (s : Store.t) (st : State) :
  timeView p <> month ->
  budgetAlerts (calculateStats LocalTZA p s st) = budgetAlerts st
  /\ chartType (calculateStats LocalTZA p s st) = chartType st
  /\ calculateStats LocalTZA p s st
     = setMonthlyStats st
         (aggregate (filterByPeriod LocalTZA (transactions p)
                                    (selectedMonth p) (timeView p))).
Proof.
  intros H. unfold calculateStats.
  destruct (timeView p); try contradiction; repeat split.
Qed.

Lemma alerts_untouched_outside_month_witness :
  budgetAlerts
    (calculateStats Sample.UTC_0 Sample.week_props Sample.store Sample.dashboard0)
  = [Sample.stale_alert].
Proof.
  apply (alerts_untouched_outside_month Sample.UTC_0 Sample.week_props
           Sample.store Sample.dashboard0).
  discriminate.
Defined.

(** In the month view the alerts are evaluated afresh: what was shown
    before has no influence on what a successful evaluation installs. *)
Lemma alerts_fresh_in_month (LocalTZA : Z) (p : Props) (s : Store.t)
    (st st' : State) (alerts : list Alert) :
  timeView p = month ->
  (budgets <- Utils.getBudgets s (selectedMonth p) ;;
   alerts_loop LocalTZA p s budgets []) = Ok alerts ->
  budgetAlerts (calculateStats LocalTZA p s st) = alerts
  /\ budgetAlerts (calculateStats LocalTZA p s st') = alerts.
Proof.
  intros Hm Hok. unfold calculateStats, checkBudgetAlerts.
  rewrite Hm, Hok. split; reflexivity.
Qed.

Lemma alert_for_iff (p : Props) (b : Budget.t) (x : JS.number) :
  alert_for p b x <> None
  <-> JS.ge ((x / Budget.limit_amount b) * 100)%float 80%float = true.
Proof.
  unfold alert_for.
  destruct (JS.ge _ _); split; congruence.
Qed.

Lemma alerts_loop_ok (LocalTZA : Z) (p : Props) (s : Store.t)
    (bs : list Budget.t) :
  Forall (fetched LocalTZA s (selectedMonth p)) bs ->
  forall alerts,
    alerts_loop LocalTZA p s bs alerts
    = Ok (alerts
          ++ flat_map
               (fun b =>
                  match alert_for p b (spent_of LocalTZA s (selectedMonth p) b) with
                  | Some a => [a]
                  | None => []
                  end) bs).
Proof.
  induction 1 as [|b bs [x Hx] _ IH]; intros alerts; cbn [alerts_loop flat_map].
  - now rewrite app_nil_r.
  - unfold spent_of at 1. rewrite Hx. cbn [bind]. rewrite IH.
    destruct (alert_for p b x); cbn [app]; [|reflexivity].
    now rewrite <- app_assoc.
Qed.

Lemma flat_map_alerts (p : Props) (spent : Budget.t -> JS.number)
    (bs : list Budget.t) :
  flat_map (fun b => match alert_for p b (spent b) with
                     | Some a => [a]
                     | None => []
                     end) bs
  = map (fun b =>
           mkAlert
             (JS.str_or_else
                (match find_category (categories p) (Budget.category_id b) with
                 | Some c => Category.name c
                 | None => ""
                 end) "Unknown")
             (spent b) (Budget.limit_amount b)
             ((spent b / Budget.limit_amount b) * 100)%float)
        (filter (fun b => JS.ge ((spent b / Budget.limit_amount b) * 100)%float
                                80%float) bs).
Proof.
  induction bs as [|b bs IH]; cbn [flat_map filter map]; [reflexivity|].
  unfold alert_for at 1.
  destruct (JS.ge _ _); cbn [app map]; now rewrite IH.
Qed.

(** C2. When the budgets of the month and the spending of each of them are
    fetched, [checkBudgetAlerts] installs one alert for each budget of the
    month with [spent / limit_amount * 100 >= 80], in order, and none for
    any other budget: a budget gets an alert if and only if its percentage
    is at least 80. *)
Theorem alert_iff_at_least_80 (LocalTZA : Z) (p : Props) (s : Store.t)
    (st : State) (bs : list Budget.t) :
  Utils.getBudgets s (selectedMonth p) = Ok bs ->
  Forall (fetched LocalTZA s (selectedMonth p)) bs ->
  bs = filter (fun b => String.eqb (Budget.month b) (selectedMonth p))
              (Store.budgets s)
  /\ budgetAlerts (checkBudgetAlerts LocalTZA p s st)
     = map (fun b =>
              mkAlert
                (JS.str_or_else
                   (match find_category (categories p) (Budget.category_id b) with
                    | Some c => Category.name c
                    | None => ""
                    end) "Unknown")
                (spent_of LocalTZA s (selectedMonth p) b)
                (Budget.limit_amount b)
                (percentage_of LocalTZA s (selectedMonth p) b))
           (filter (fun b => JS.ge (percentage_of LocalTZA s (selectedMonth p) b)
                                   80%float) bs)
  /\ forall b,
       In b bs ->
       (alert_for p b (spent_of LocalTZA s (selectedMonth p) b) <> None
        <-> JS.ge (percentage_of LocalTZA s (selectedMonth p) b) 80%float = true).
Proof.
  intros Hb Hf. split; [|split].
  - unfold Utils.getBudgets, Store.select_budgets, Store.request in Hb.
    destruct (Store.failing s _); congruence.
  - unfold checkBudgetAlerts. rewrite Hb. cbn [bind].
    rewrite (alerts_loop_ok _ _ _ _ Hf). cbn [app setBudgetAlerts budgetAlerts].
    apply flat_map_alerts.
  - intros b _. apply alert_for_iff.
Qed.

Lemma alert_iff_at_least_80_witness :
  budgetAlerts
    (checkBudgetAlerts Sample.UTC_0 Sample.month_props Sample.store
                       Sample.dashboard0)
  = [mkAlert "Food" 85%float 100%float 85%float].
Proof.
  refine (eq_trans
            (proj1 (proj2
               (alert_iff_at_least_80 Sample.UTC_0 Sample.month_props
                  Sample.store Sample.dashboard0
                  [Sample.food_budget; Sample.rent_budget] _ _))) _).
  - reflexivity.
  - repeat constructor; eexists; vm_compute; reflexivity.
  - vm_compute. reflexivity.
Defined.

(** When a fetch fails [checkBudgetAlerts] installs nothing. *)
Lemma checkBudgetAlerts_failure (LocalTZA : Z) (p : Props) (s : Store.t)
    (st : State) (e : Error) :
  (budgets <- Utils.getBudgets s (selectedMonth p) ;;
   alerts_loop LocalTZA p s budgets []) = Err e ->
  checkBudgetAlerts LocalTZA p s st = st.
Proof. intros H. unfold checkBudgetAlerts. now rewrite H. Qed.

End DashboardFacts.

(** ** Loading the budget list *)

Module BudgetListFacts.
Import BudgetManager.

Lemma all_Err {A B : Type} (f : A -> Result B) (xs : list A) (x : A) (e : Error) :
  In x xs -> f x = Err e -> exists e', all f xs = Err e'.
Proof.
  induction xs as [|y ys IH]; intros Hin Hx; [contradiction|].
  cbn [all]. destruct Hin as [->|Hin].
  - rewrite Hx. eauto.
  - destruct (IH Hin Hx) as [e' ->]. destruct (f y); eauto.
Qed.

Lemma all_Ok {A B : Type} (f : A -> Result B) (xs : list A) (ys : list B) :
  all f xs = Ok ys -> Forall2 (fun x y => f x = Ok y) xs ys.
Proof.
  revert ys. induction xs as [|x xs IH]; intros ys; cbn [all].
  - intros [= <-]. constructor.
  - destruct (f x) eqn:Hx; [|discriminate].
    destruct (all f xs) eqn:Ha; [|discriminate].
    intros [= <-]. constructor; auto.
Qed.

Lemma withSpending_budget (LocalTZA : Z) (p : Props) (s : Store.t)
    (b : Budget.t) (w : BudgetWithSpending) :
  withSpending LocalTZA p s b = Ok w ->
  budget w = b
  /\ Utils.getCategorySpending LocalTZA s (Budget.category_id b)
       (selectedMonth p) = Ok (spent w).
Proof.
  unfold withSpending.
  destruct (Utils.getCategorySpending _ _ _ _); cbn [bind]; [|discriminate].
  intros [= <-]. split; reflexivity.
Qed.

(** C9. If the spending fetch fails for any budget of the fetched list,
    [loadBudgets] ends with the budget list it started with (the error
    message set, the loading flag cleared); and whatever happens, the list
    it ends with is either the one it started with or has one entry for
    every fetched budget, each with its fetched spending: never a part of
    the list. *)
Theorem loadBudgets_all_or_nothing (LocalTZA : Z) (p : Props) (s : Store.t)
    (st : State) :
  (forall data b e,
      Utils.getBudgets s (selectedMonth p) = Ok data ->
      In b data ->
      Utils.getCategorySpending LocalTZA s (Budget.category_id b)
        (selectedMonth p) = Err e ->
      loadBudgets LocalTZA p s st
      = setIsLoading (setError st "Failed to load budgets") false
      /\ budgets (loadBudgets LocalTZA p s st) = budgets st)
  /\ (budgets (loadBudgets LocalTZA p s st) = budgets st
      \/ exists data,
           Utils.getBudgets s (selectedMonth p) = Ok data
           /\ Forall2
                (fun b w =>
                   budget w = b
                   /\ Utils.getCategorySpending LocalTZA s
                        (Budget.category_id b) (selectedMonth p)
                      = Ok (spent w))
                data (budgets (loadBudgets LocalTZA p s st))).
Proof.
  split.
  - intros data b e Hd Hin He.
    assert (Hw : withSpending LocalTZA p s b = Err e).
    { unfold withSpending. now rewrite He. }
    destruct (all_Err _ _ _ _ Hin Hw) as [e' Ha].
    unfold loadBudgets. rewrite Hd. cbn [bind]. rewrite Ha.
    split; reflexivity.
  - unfold loadBudgets.
    destruct (Utils.getBudgets s (selectedMonth p)) as [data|e] eqn:Hd;
      cbn [bind]; [|left; reflexivity].
    destruct (all (withSpending LocalTZA p s) data) as [ws|e] eqn:Ha;
      [|left; reflexivity].
    right. exists data. split; [reflexivity|].
    cbn [setIsLoading setBudgets budgets].
    apply all_Ok in Ha.
    clear Hd. induction Ha as [|b w data ws Hw _ IH]; [constructor|].
    constructor; [now apply withSpending_budget in Hw | exact IH].
Qed.

Lemma loadBudgets_all_or_nothing_witness :
  budgets (loadBudgets Sample.UTC_0 Sample.manager_props Sample.store_rent_down
                       Sample.manager0)
  = budgets Sample.manager0
  /\ error (loadBudgets Sample.UTC_0 Sample.manager_props Sample.store_rent_down
                        Sample.manager0)
     = "Failed to load budgets".
Proof.
  destruct (proj1 (loadBudgets_all_or_nothing Sample.UTC_0 Sample.manager_props
                     Sample.store_rent_down Sample.manager0)
              [Sample.food_budget; Sample.rent_budget] Sample.rent_budget
              (StoreError "request failed"))
    as [Hst Hb].
  - reflexivity.
  - right. left. reflexivity.
  - vm_compute. reflexivity.
  - split; [exact Hb|]. rewrite Hst. reflexivity.
Defined.

(** With every fetch answered the list is replaced as a whole. *)
Example loadBudgets_sample :
  map (fun w => (categoryName w, spent w))
      (budgets (loadBudgets Sample.UTC_0 Sample.manager_props Sample.store
                            Sample.manager0))
  = [("Food", 85%float); ("Rent", 500%float)].
Proof. vm_compute. reflexivity. Qed.

End BudgetListFacts.

(** ** The budget upsert *)

Module SetBudgetFacts.
Import Spec.
Import Store.

Lemma budget_for_set_limit (c m : string) (a : JS.number) (u : string)
    (b : Budget.t) :
  budget_for c m (set_limit a u b) = budget_for c m b.
Proof. reflexivity. Qed.

Lemma filter_map_update {A : Type} (f h : A -> bool) (g : A -> A)
    (l : list A) :
  (forall x, f (g x) = f x) ->
  filter f (map (fun x => if h x then g x else x) l)
  = map (fun x => if h x then g x else x) (filter f l).
Proof.
  intros Hg. induction l as [|x l IH]; cbn [map filter]; [reflexivity|].
  replace (f (if h x then g x else x)) with (f x)
    by (destruct (h x); [now rewrite Hg | reflexivity]).
  destruct (f x); cbn [map]; now rewrite IH.
Qed.

Lemma filter_singleton_In {A : Type} (f : A -> bool) (l : list A) (y x : A) :
  filter f l = [y] -> In x l -> f x = true -> x = y.
Proof.
  intros Hf Hin Hx.
  assert (H : In x (filter f l)) by (apply filter_In; auto).
  rewrite Hf in H. destruct H as [H|[]]. now symmetry.
Qed.

Lemma single_Ok {A : Type} (rows : list A) (r : A) :
  single rows = Ok r -> rows = [r].
Proof.
  destruct rows as [|x [|y rows]]; cbn; try discriminate.
  now intros [= ->].
Qed.

Lemma existsb_filter_nil {A : Type} (f : A -> bool) (l : list A) :
  filter f l = [] -> existsb f l = false.
Proof.
  induction l as [|x l IH]; cbn [filter existsb]; [reflexivity|].
  destruct (f x); [discriminate|]. exact IH.
Qed.

Lemma update_budget_Ok (s : t) (c m : string) (a : JS.number) (u : string)
    (old b : Budget.t) :
  filter (budget_for c m) (budgets s) = [old] ->
  snd (update_budget s (Budget.id old) a u) = Ok b ->
  b = set_limit a u old
  /\ budgets (fst (update_budget s (Budget.id old) a u))
     = map (fun x => if budget_for c m x then set_limit a u x else x)
           (budgets s).
Proof.
  intros Hold. unfold update_budget.
  destruct (failing s _); [discriminate|].
  destruct (negb (check_limit a)); [discriminate|].
  destruct (single _) as [row|e] eqn:Hs; [|discriminate].
  cbn [fst snd]. intros [= <-].
  apply single_Ok in Hs.
  assert (Hin : In old (budgets s)).
  { assert (H : In old (filter (budget_for c m) (budgets s)))
      by (rewrite Hold; now left).
    now apply filter_In in H. }
  assert (Hpair : budget_for c m old = true).
  { assert (H : In old (filter (budget_for c m) (budgets s)))
      by (rewrite Hold; now left).
    now apply filter_In in H. }
  destruct (filter (fun b => String.eqb (Budget.id b) (Budget.id old)) (budgets s))
    as [|y [|z rest]] eqn:Hid; try discriminate.
  cbn [map] in Hs. injection Hs as <-.
  assert (Hy : y = old).
  { symmetry. apply (filter_singleton_In _ _ _ _ Hid Hin).
    apply String.eqb_refl. }
  subst y. split; [reflexivity|].
  cbn [with_budgets budgets].
  apply map_ext_in. intros x Hx.
  destruct (String.eqb (Budget.id x) (Budget.id old)) eqn:E1,
           (budget_for c m x) eqn:E2; try reflexivity.
  - rewrite (filter_singleton_In _ _ _ _ Hid Hx E1) in E2. congruence.
  - rewrite (filter_singleton_In _ _ _ _ Hold Hx E2) in E1.
    rewrite String.eqb_refl in E1. discriminate.
Qed.

Lemma update_budget_Err (s : t) (id : string) (a : JS.number) (u : string)
    (e : Error) :
  snd (update_budget s id a u) = Err e -> fst (update_budget s id a u) = s.
Proof.
  unfold update_budget.
  destruct (failing s _); [reflexivity|].
  destruct (negb (check_limit a)); [reflexivity|].
  destruct (single _); [discriminate|reflexivity].
Qed.

Lemma insert_budget_cases (env : Env) (s : t) (c : string) (a : JS.number)
    (m : string) :
  (exists e, insert_budget env s c a m = (s, Err e))
  \/ insert_budget env s c a m
     = (with_budgets s
          (budgets s
           ++ [Budget.mk (gen_random_uuid env) c a m (db_now env) (db_now env)]),
        Ok (Budget.mk (gen_random_uuid env) c a m (db_now env) (db_now env))).
Proof.
  unfold insert_budget.
  repeat match goal with
         | |- context [if ?x then _ else _] => destruct x; eauto
         end.
Qed.

Lemma setBudget_cases (env : Env) (s : t) (c : string) (a : JS.number)
    (m : string) :
  (exists e, Utils.setBudget env s c a m = (s, Err e))
  \/ exists b,
       snd (Utils.setBudget env s c a m) = Ok b
       /\ (updated_in_place env s (fst (Utils.setBudget env s c a m)) c a m b
           \/ inserted env s (fst (Utils.setBudget env s c a m)) c a m b).
Proof.
  unfold Utils.setBudget, select_budget_id, request.
  destruct (failing s (SelectBudgetId c m)); [left; eauto|].
  destruct (filter (budget_for c m) (budgets s)) as [|old [|x rest]] eqn:Hf;
    cbn [map maybeSingle]; [| |left; eauto].
  - destruct (insert_budget_cases env s c a m) as [[e ->]| ->];
      [left; eauto|right].
    eexists. split; [reflexivity|]. right. repeat split. exact Hf.
  - destruct (snd (update_budget s (Budget.id old) a (client_now env)))
      as [b|e] eqn:Hr.
    + right. exists b. split; [reflexivity|]. left.
      destruct (update_budget_Ok s c m a _ old b Hf Hr) as [-> Hs].
      exists old. auto.
    + left. exists e. rewrite <- (update_budget_Err _ _ _ _ _ Hr) at 2.
      rewrite <- Hr. now destruct (update_budget _ _ _ _).
Qed.

Lemma updated_in_place_keeps (env : Env) (s s' : t) (c : string)
    (a : JS.number) (m : string) (b : Budget.t) :
  at_most_one_per_pair (budgets s) ->
  updated_in_place env s s' c a m b ->
  at_most_one_per_pair (budgets s')
  /\ filter (budget_for c m) (budgets s') = [b]
  /\ List.length (budgets s') = List.length (budgets s).
Proof.
  intros Hinv (old & Hold & -> & ->). repeat split.
  - intros c' m'.
    rewrite filter_map_update by (intros; apply budget_for_set_limit).
    rewrite length_map. apply Hinv.
  - rewrite filter_map_update by (intros; apply budget_for_set_limit).
    rewrite Hold. cbn [map].
    assert (H : In old (filter (budget_for c m) (budgets s)))
      by (rewrite Hold; now left).
    apply filter_In in H. now rewrite (proj2 H).
  - apply length_map.
Qed.

Lemma inserted_keeps (env : Env) (s s' : t) (c : string)
    (a : JS.number) (m : string) (b : Budget.t) :
  at_most_one_per_pair (budgets s) ->
  inserted env s s' c a m b ->
  at_most_one_per_pair (budgets s')
  /\ filter (budget_for c m) (budgets s') = [b].
Proof.
  intros Hinv (Hnone & -> & ->). split.
  - intros c' m'. rewrite filter_app, length_app. cbn [filter].
    unfold budget_for at 2. cbn [Budget.category_id Budget.month].
    destruct (String.eqb_spec c c') as [<-|]; cbn [andb];
      [|cbn [List.length]; specialize (Hinv c' m'); lia].
    destruct (String.eqb_spec m m') as [<-|];
      [|cbn [List.length]; specialize (Hinv c m'); lia].
    rewrite Hnone. cbn. lia.
  - rewrite filter_app, Hnone. cbn [filter app].
    unfold budget_for. cbn [Budget.category_id Budget.month].
    now rewrite !String.eqb_refl.
Qed.


Lemma filter_by_id_singleton (bs : list Budget.t) (old : Budget.t) :
  NoDup (map Budget.id bs) -> In old bs ->
  filter (fun b => String.eqb (Budget.id b) (Budget.id old)) bs = [old].
Proof.
  induction bs as [|b bs IH]; intros Hnd Hin; [contradiction|].
  cbn [map] in Hnd. apply NoDup_cons_iff in Hnd. destruct Hnd as [Hb Hnd].
  cbn [filter]. destruct Hin as [->|Hin].
  - rewrite String.eqb_refl. f_equal.
    destruct (filter _ bs) as [|x l] eqn:Hf; [reflexivity|].
    assert (Hx : In x (filter (fun b => String.eqb (Budget.id b) (Budget.id old)) bs))
      by (rewrite Hf; now left).
    apply filter_In in Hx. destruct Hx as [Hx E]. apply String.eqb_eq in E.
    exfalso. apply Hb. rewrite <- E. now apply in_map.
  - destruct (String.eqb_spec (Budget.id b) (Budget.id old)) as [E|_]; [|auto].
    exfalso. apply Hb. rewrite E. now apply in_map.
Qed.

(** When the month is a calendar date written [YYYY-MM-DD], the store
    answers, the limit passes the check, the category exists and the
    generated id is new, [setBudget] succeeds. *)
Theorem setBudget_succeeds (env : Env) (s : t) (c : string) (a : JS.number)
    (m : string) (year month day : Z) :
  m = iso_date year month day ->
  (1 <= year <= 9999)%Z -> (1 <= month <= 12)%Z ->
  (1 <= day <= JSDate.DaysInMonth year (month - 1))%Z ->
  (forall r, failing s r = false) ->
  check_limit a = true ->
  existsb (fun x => String.eqb (Category.id x) c) (categories s) = true ->
  ~ In (gen_random_uuid env) (map Budget.id (budgets s)) ->
  NoDup (map Budget.id (budgets s)) ->
  at_most_one_per_pair (budgets s) ->
  exists b, snd (Utils.setBudget env s c a m) = Ok b.
Proof.
  intros _ _ _ _ Hup Hlim Hcat Hfresh Hids Hinv.
  unfold Utils.setBudget, select_budget_id, request. rewrite Hup.
  pose proof (Hinv c m) as Hone.
  destruct (filter (budget_for c m) (budgets s)) as [|old [|x rest]] eqn:Hf;
    cbn [map maybeSingle]; [| |cbn in Hone; lia].
  - unfold insert_budget. rewrite Hup, Hlim, Hcat. cbn [negb].
    rewrite (existsb_filter_nil _ _ Hf).
    destruct (existsb _ (budgets s)) eqn:E; [|cbn; eauto].
    exfalso. apply Hfresh. apply existsb_exists in E.
    destruct E as (b & Hb & E). cbn [Budget.id] in E. apply String.eqb_eq in E.
    rewrite <- E. now apply in_map.
  - assert (Hin : In old (budgets s)).
    { assert (H : In old (filter (budget_for c m) (budgets s)))
        by (rewrite Hf; now left).
      now apply filter_In in H. }
    unfold update_budget. rewrite Hup, Hlim. cbn [negb].
    rewrite (filter_by_id_singleton _ _ Hids Hin). cbn. eauto.
Qed.

Lemma sample_at_most_one : at_most_one_per_pair (budgets Sample.store).
Proof.
  intros c m. cbn [Sample.store budgets filter budget_for].
  unfold budget_for. cbn [Budget.category_id Budget.month Sample.food_budget
                          Sample.rent_budget].
  destruct (String.eqb "c1" c && String.eqb "2024-06-01" m) eqn:E1;
    destruct (String.eqb "c2" c && String.eqb "2024-06-01" m) eqn:E2;
    cbn [List.length]; try lia.
  apply andb_prop in E1, E2. destruct E1 as [E1 _], E2 as [E2 _].
  apply String.eqb_eq in E1, E2. congruence.
Defined.

Lemma setBudget_succeeds_witness :
  exists b,
    snd (Utils.setBudget Sample.env Sample.store "c1" 150%float "2024-06-01")
    = Ok b.
Proof.
  apply (setBudget_succeeds Sample.env Sample.store "c1" 150%float "2024-06-01"
           2024 6 1).
  - reflexivity.
  - lia.
  - lia.
  - split; [lia|]. apply Z.leb_le. vm_compute. reflexivity.
  - reflexivity.
  - reflexivity.
  - reflexivity.
  - cbn. intros [H|[H|[]]]; discriminate H.
  - cbn. repeat constructor; cbn; intros H;
      repeat (destruct H as [H|H]; try discriminate H); exact H.
  - exact sample_at_most_one.
Defined.


(** A budget for a pair that has none is appended. *)
Example setBudget_inserts :
  map Budget.id
      (budgets (fst (Utils.setBudget Sample.env Sample.store "c1" 150%float
                                     "2024-07-01")))
  = ["b1"; "b2"; "b3"]
  /\ snd (Utils.setBudget Sample.env Sample.store "c1" 150%float "2024-07-01")
     = Ok (Budget.mk "b3" "c1" 150%float "2024-07-01"
                     "2024-06-20T10:00:00.000Z" "2024-06-20T10:00:00.000Z").
Proof. vm_compute. split; reflexivity. Qed.

(** A limit that the check constraint refuses changes nothing. *)
Example setBudget_refused :
  Utils.setBudget Sample.env Sample.store "c1" 0%float "2024-06-01"
  = (Sample.store, Err (StoreError "violates check constraint")).
Proof. vm_compute. reflexivity. Qed.

End SetBudgetFacts.

(** ** The expense breakdown *)

Module GroupingFacts.
Import Spec.
Import Dashboard.

Lemma amounts_named_snoc (n : string) (T : list TransactionWithCategory.t)
    (t : TransactionWithCategory.t) :
  amounts_named n (T ++ [t])
  = amounts_named n T
    ++ (if String.eqb (categoryNameOf t) n
        then [TransactionWithCategory.amount t] else []).
Proof.
  unfold amounts_named. rewrite filter_app, map_app. cbn [filter].
  now destruct (String.eqb (categoryNameOf t) n).
Qed.

Lemma sum_from_snoc (init x : JS.number) (xs : list JS.number) :
  JS.sum_from init (xs ++ [x]) = (JS.sum_from init xs + x)%float.
Proof. unfold JS.sum_from. now rewrite fold_left_app. Qed.

Lemma has_own_In (acc : Grouped) (key : string) :
  has_own acc key = true <-> In key (map fst acc).
Proof.
  unfold has_own. rewrite existsb_exists, in_map_iff. split.
  - intros (e & He & Hk). apply String.eqb_eq in Hk. eauto.
  - intros (e & Hk & He). exists e. split; [exact He|].
    now apply String.eqb_eq.
Qed.

Lemma add_amount_keys (key : string) (x : JS.number) (acc : Grouped) :
  map fst (add_amount key x acc) = map fst acc.
Proof.
  unfold add_amount. rewrite map_map. apply map_ext. intros e.
  now destruct (String.eqb (fst e) key).
Qed.

Lemma add_amount_In (key : string) (x : JS.number) (acc : Grouped)
    (k : string) (b : Bucket) :
  In (k, b) (add_amount key x acc) ->
  exists b0,
    In (k, b0) acc
    /\ bucket_amount b
       = (if String.eqb k key then (bucket_amount b0 + x)%float
          else bucket_amount b0).
Proof.
  unfold add_amount. rewrite in_map_iff. intros ([k0 b0] & He & Hin).
  cbn [fst snd] in He. destruct (String.eqb k0 key) eqn:E.
  - injection He as <- <-. exists b0. rewrite E. auto.
  - injection He as <- <-. exists b0. rewrite E. auto.
Qed.

Lemma grouped_of_nil : grouped_of [] [].
Proof. constructor; cbn; try constructor; contradiction. Qed.

Lemma eqb_false_of_inherited (k n : string) :
  inherited k = false -> inherited n = true -> String.eqb n k = false.
Proof.
  intros Hk Hn. destruct (String.eqb_spec n k) as [->|]; congruence.
Qed.

Lemma grouped_of_step (T : list TransactionWithCategory.t) (acc : Grouped)
    (t : TransactionWithCategory.t) :
  grouped_of T acc -> grouped_of (T ++ [t]) (group_step acc t).
Proof.
  intros [Hnd Hkeys Hin Hsum]. unfold group_step.
  set (n := categoryNameOf t).
  set (x := TransactionWithCategory.amount t).
  destruct (has_own acc n) eqn:Hown; cbn [orb negb].
  - (* the category already has a bucket *)
    rewrite Hown. apply has_own_In in Hown.
    constructor.
    + now rewrite add_amount_keys.
    + rewrite add_amount_keys. intros k Hk.
      destruct (Hkeys k Hk) as (Hi & t' & Ht' & <-).
      split; [exact Hi|]. exists t'. split; [|reflexivity].
      apply in_or_app. now left.
    + rewrite add_amount_keys. intros t' Ht' Hi.
      apply in_app_or in Ht'. destruct Ht' as [Ht'|[<-|[]]]; auto.
    + intros k b Hb. apply add_amount_In in Hb.
      destruct Hb as (b0 & Hb0 & ->).
      rewrite amounts_named_snoc. fold n x.
      rewrite (String.eqb_sym k n).
      destruct (String.eqb n k).
      * now rewrite sum_from_snoc, (Hsum _ _ Hb0).
      * now rewrite app_nil_r, (Hsum _ _ Hb0).
  - destruct (inherited n) eqn:Hinh; cbn [negb].
    + (* the name is inherited from the prototype: nothing is recorded *)
      rewrite Hown. constructor.
      * exact Hnd.
      * intros k Hk. destruct (Hkeys k Hk) as (Hi & t' & Ht' & <-).
        split; [exact Hi|]. exists t'. split; [|reflexivity].
        apply in_or_app. now left.
      * intros t' Ht' Hi.
        apply in_app_or in Ht'. destruct Ht' as [Ht'|[<-|[]]]; auto.
        fold n in Hi. congruence.
      * intros k b Hb. rewrite amounts_named_snoc. fold n.
        assert (Hk : In k (map fst acc)) by (apply in_map_iff; now exists (k, b)).
        destruct (Hkeys k Hk) as (Hi & _).
        rewrite (eqb_false_of_inherited k n Hi Hinh), app_nil_r. eauto.
    + (* a new bucket, created at 0 and then increased *)
      assert (Hnew : ~ In n (map fst acc)).
      { intros H. apply has_own_In in H. congruence. }
      set (b0 := mkBucket 0%float _ _).
      assert (Hown' : has_own (acc ++ [(n, b0)]) n = true).
      { apply has_own_In. rewrite map_app. apply in_or_app. right. now left. }
      rewrite Hown'.
      constructor.
      * rewrite add_amount_keys, map_app. cbn [map fst].
        apply NoDup_app; [exact Hnd|repeat constructor; intros []|].
        intros k Hk [<-|[]]. contradiction.
      * rewrite add_amount_keys, map_app. intros k Hk.
        apply in_app_or in Hk. destruct Hk as [Hk|[<-|[]]].
        -- destruct (Hkeys k Hk) as (Hi & t' & Ht' & <-).
           split; [exact Hi|]. exists t'. split; [|reflexivity].
           apply in_or_app. now left.
        -- split; [exact Hinh|]. exists t. split; [|reflexivity].
           apply in_or_app. right. now left.
      * rewrite add_amount_keys, map_app. intros t' Ht' Hi.
        apply in_or_app.
        apply in_app_or in Ht'. destruct Ht' as [Ht'|[<-|[]]]; [left; auto|].
        right. now left.
      * intros k b Hb. apply add_amount_In in Hb.
        destruct Hb as (b1 & Hb1 & ->).
        rewrite amounts_named_snoc. fold n x.
        rewrite (String.eqb_sym k n).
        apply in_app_or in Hb1. destruct Hb1 as [Hb1|[[= <- <-]|[]]].
        -- assert (Hk : In k (map fst acc))
             by (apply in_map_iff; now exists (k, b1)).
           destruct (String.eqb_spec n k) as [<-|]; [contradiction|].
           now rewrite app_nil_r, (Hsum _ _ Hb1).
        -- rewrite String.eqb_refl, sum_from_snoc.
           assert (Hnone : amounts_named n T = []).
           { unfold amounts_named.
             destruct (filter _ T) as [|t' l] eqn:Hf; [reflexivity|].
             assert (H : In t' (filter (fun t => String.eqb (categoryNameOf t) n) T))
               by (rewrite Hf; now left).
             apply filter_In in H. destruct H as [Ht' Hn].
             apply String.eqb_eq in Hn.
             exfalso. apply Hnew. rewrite <- Hn. apply Hin; [exact Ht'|].
             now rewrite Hn. }
           rewrite Hnone. reflexivity.
Qed.

Lemma grouped_of_fold (T : list TransactionWithCategory.t) :
  grouped_of T (fold_left group_step T []).
Proof.
  induction T as [|t T IH] using rev_ind.
  - apply grouped_of_nil.
  - rewrite fold_left_app. cbn [fold_left]. now apply grouped_of_step.
Qed.

Lemma insert_by_index_perm (e : string * Bucket) (l : Grouped) :
  Permutation (insert_by_index e l) (e :: l).
Proof.
  induction l as [|h l IH]; cbn [insert_by_index]; [reflexivity|].
  destruct (index_of e <=? index_of h)%Z; [reflexivity|].
  rewrite IH. apply perm_swap.
Qed.

Lemma sort_by_index_perm (l : Grouped) :
  Permutation (fold_right insert_by_index [] l) l.
Proof.
  induction l as [|e l IH]; cbn [fold_right]; [reflexivity|].
  now rewrite insert_by_index_perm, IH.
Qed.

Lemma filter_split_perm {A : Type} (f : A -> bool) (l : list A) :
  Permutation (filter f l ++ filter (fun x => negb (f x)) l) l.
Proof.
  induction l as [|x l IH]; cbn [filter]; [reflexivity|].
  destruct (f x); cbn [negb app].
  - now rewrite IH.
  - rewrite <- Permutation_middle. now rewrite IH.
Qed.

Lemma entries_perm (acc : Grouped) : Permutation (entries acc) acc.
Proof.
  unfold entries. rewrite sort_by_index_perm. apply filter_split_perm.
Qed.

(** The breakdown, entry by entry, without inherited names among the
    categories. *)
Lemma breakdown_by_category (T : list TransactionWithCategory.t) :
  let out := groupExpensesByCategory T in
  NoDup (map name out)
  /\ (forall g, In g out ->
                amount g = JS.sum_from 0%float (amounts_named (name g) T)
                /\ inherited (name g) = false
                /\ exists t, In t T /\ categoryNameOf t = name g)
  /\ (forall t, In t T -> inherited (categoryNameOf t) = false ->
                exists g, In g out /\ name g = categoryNameOf t).
Proof.
  cbn zeta. unfold groupExpensesByCategory.
  destruct (grouped_of_fold T) as [Hnd Hkeys Hin Hsum].
  set (acc := fold_left group_step T []) in *.
  pose proof (entries_perm acc) as Hp.
  repeat split.
  - rewrite map_map. cbn [name].
    apply (Permutation_NoDup (l := map fst acc)); [|exact Hnd].
    symmetry. now apply Permutation_map.
  - apply in_map_iff in H. destruct H as ([k b] & <- & He). cbn.
    apply Hsum. now apply (Permutation_in _ Hp).
  - apply in_map_iff in H. destruct H as ([k b] & <- & He). cbn.
    apply (Permutation_in _ Hp) in He.
    apply Hkeys. apply in_map_iff. now exists (k, b).
  - apply in_map_iff in H. destruct H as ([k b] & <- & He). cbn.
    apply (Permutation_in _ Hp) in He.
    apply Hkeys. apply in_map_iff. now exists (k, b).
  - intros t Ht Hi. specialize (Hin t Ht Hi).
    apply in_map_iff in Hin. destruct Hin as ([k b] & Hk & He).
    cbn [fst] in Hk. subst k.
    exists (mkCategoryExpense (categoryNameOf t) (bucket_amount b)
                              (bucket_color b) (bucket_icon b)).
    split; [|reflexivity].
    apply in_map_iff. exists (categoryNameOf t, b). split; [reflexivity|].
    apply (Permutation_in _ (Permutation_sym Hp)). exact He.
Qed.

Lemma exact_total_app (xs ys : list JS.number) :
  exact_total (xs ++ ys) = (exact_total xs + exact_total ys)%Z.
Proof.
  unfold exact_total. induction xs as [|x xs IH]; cbn [app map fold_right]; lia.
Qed.

Lemma sum_indicator (k : string) (v : Z) (N : list string) :
  NoDup N ->
  fold_right Z.add 0%Z (map (fun n => if String.eqb k n then v else 0%Z) N)
  = if existsb (String.eqb k) N then v else 0%Z.
Proof.
  induction 1 as [|n N Hn _ IH]; cbn [map fold_right existsb]; [reflexivity|].
  rewrite IH. destruct (String.eqb_spec k n) as [->|]; cbn [orb]; [|reflexivity].
  destruct (existsb (String.eqb n) N) eqn:E; [|lia].
  apply existsb_exists in E. destruct E as (n' & Hin & E).
  apply String.eqb_eq in E. subst n'. contradiction.
Qed.

(** Distinct names that cover the input split it: adding, name by name, the
    exact totals of the transactions of that name gives the exact total of
    all of them. *)
Lemma exact_total_by_name (N : list string)
    (T : list TransactionWithCategory.t) :
  NoDup N ->
  (forall t, In t T -> In (categoryNameOf t) N) ->
  fold_right Z.add 0%Z (map (fun n => exact_total (amounts_named n T)) N)
  = exact_total (map TransactionWithCategory.amount T).
Proof.
  intros Hnd. induction T as [|t T IH]; intros Hcov.
  - clear. induction N as [|n N IH]; cbn [map fold_right]; [reflexivity|].
    now rewrite IH.
  - transitivity
      (fold_right Z.add 0%Z
         (map (fun n => if String.eqb (categoryNameOf t) n
                        then scaled (TransactionWithCategory.amount t) else 0%Z) N)
       + fold_right Z.add 0%Z (map (fun n => exact_total (amounts_named n T)) N))%Z.
    + clear. induction N as [|n N IH]; cbn [map fold_right]; [reflexivity|].
      rewrite IH. unfold amounts_named at 1. cbn [filter].
      destruct (String.eqb (categoryNameOf t) n); cbn [map];
        unfold exact_total; cbn [map fold_right]; unfold amounts_named; lia.
    + rewrite IH by (intros t' Ht'; apply Hcov; now right).
      rewrite (sum_indicator _ _ _ Hnd).
      assert (E : existsb (String.eqb (categoryNameOf t)) N = true).
      { apply existsb_exists. exists (categoryNameOf t). split.
        - apply Hcov. now left.
        - apply String.eqb_refl. }
      rewrite E. unfold exact_total. cbn [map fold_right]. reflexivity.
Qed.

(** C6, as amended.  When no category name collides with a property that
    the accumulator inherits from [Object.prototype], the breakdown has
    exactly one entry for each category name of the input, and the amount
    of an entry is the sum, from 0 in input order, of the amounts of the
    input transactions of that category.  The entries split the input: the
    totals, entry by entry, of the transactions behind them add up, without
    rounding, to the total of the input. *)
Theorem group_sums_per_category (T : list TransactionWithCategory.t) :
  (forall t, In t T -> inherited (categoryNameOf t) = false) ->
  let out := groupExpensesByCategory T in
  NoDup (map name out)
  /\ (forall g, In g out ->
                amount g = JS.sum_from 0%float (amounts_named (name g) T)
                /\ exists t, In t T /\ categoryNameOf t = name g)
  /\ (forall t, In t T ->
                exists g, In g out /\ name g = categoryNameOf t)
  /\ fold_right Z.add 0%Z
       (map (fun g => exact_total (amounts_named (name g) T)) out)
     = exact_total (map TransactionWithCategory.amount T).
Proof.
  intros Hno. destruct (breakdown_by_category T) as (H1 & H2 & H3).
  cbn zeta. repeat split; auto.
  - now apply H2.
  - now apply H2.
  - rewrite <- (exact_total_by_name (map name (groupExpensesByCategory T)) T).
    + now rewrite map_map.
    + exact H1.
    + intros t Ht. destruct (H3 t Ht (Hno t Ht)) as (g & Hg & <-).
      now apply in_map.
Qed.

Lemma group_sums_per_category_witness :
  map (fun g => (name g, amount g))
      (groupExpensesByCategory
         (filter (is_kind Expense) Sample.joined_transactions))
  = [("Food", 112%float); ("Rent", 500%float)]
  /\ NoDup (map name
              (groupExpensesByCategory
                 (filter (is_kind Expense) Sample.joined_transactions))).
Proof.
  split; [reflexivity|].
  apply (group_sums_per_category
           (filter (is_kind Expense) Sample.joined_transactions)).
  intros t Ht. cbn in Ht.
  repeat destruct Ht as [<-|Ht]; try reflexivity. contradiction.
Defined.

(** C6 as stated fails in binary64.  Expenses of 0.1 (Food), 0.1 (Rent) and
    1.1 (Food) add up to 1.3 in input order; the Food group holds
    0.1 + 1.1 = 1.2000000000000002, and the two group amounts add up to
    1.3000000000000003. *)
Lemma group_totals_differ :
  totalExpense (groupExpensesByCategory Sample.rounding_sample)
  <> JS.sum_from 0%float (map TransactionWithCategory.amount Sample.rounding_sample).
Proof.
  intros H. apply (f_equal Prim2SF) in H.
  vm_compute in H. discriminate H.
Qed.

Example group_totals_sample :
  map amount (groupExpensesByCategory Sample.rounding_sample)
  = [1.2000000000000002; 0.1]%float
  /\ totalExpense (groupExpensesByCategory Sample.rounding_sample)
     = 1.3000000000000003%float
  /\ JS.sum_from 0%float (map TransactionWithCategory.amount Sample.rounding_sample)
     = 1.3%float.
Proof. vm_compute. repeat split. Qed.

(** The difference is not one of summation order only: the group amounts,
    added exactly, are not the input amounts added exactly. *)
Lemma group_totals_differ_exactly :
  exact_total (map amount (groupExpensesByCategory Sample.rounding_sample))
  <> exact_total (map TransactionWithCategory.amount Sample.rounding_sample).
Proof. vm_compute. discriminate. Qed.

(** A category named like a member of [Object.prototype] gets no entry at
    all. *)
Example inherited_name_is_dropped :
  let toString :=
    Category.mk "c9" "toString" Expense "Package" true "#6B7280" "2024-01-01" in
  groupExpensesByCategory
    [ Sample.joined toString (Sample.txn "t1" Expense 5%float "c9" "2024-06-01") ]
  = [].
Proof. reflexivity. Qed.

End GroupingFacts.

(** ** The budget table: deleting, and looking up what was set *)

Module BudgetTableFacts.
Import Spec Store.

Lemma filter_keeps_at_most_one (f : Budget.t -> bool) (bs : list Budget.t) :
  at_most_one_per_pair bs -> at_most_one_per_pair (filter f bs).
Proof.
  intros H c m. specialize (H c m).
  assert (L : forall (g : Budget.t -> bool) l,
             (List.length (filter g (filter f l)) <= List.length (filter g l))%nat).
  { intros g l. induction l as [|x l IH]; cbn [filter]; [lia|].
    destruct (f x) eqn:Ef, (g x) eqn:Eg; cbn [filter List.length];
      rewrite ?Eg; cbn [List.length]; lia. }
  specialize (L (budget_for c m) bs). lia.
Qed.

Lemma deleteBudget_err (s : t) (id : string) (e : Error) :
  snd (Utils.deleteBudget s id) = Err e -> fst (Utils.deleteBudget s id) = s.
Proof.
  unfold Utils.deleteBudget, delete_budget.
  destruct (failing s (DeleteBudget id)); [reflexivity|discriminate].
Qed.

Lemma deleteBudget_ok (s : t) (id : string) :
  snd (Utils.deleteBudget s id) = Ok tt ->
  forall b, In b (budgets (fst (Utils.deleteBudget s id))) ->
            Budget.id b <> id.
Proof.
  unfold Utils.deleteBudget, delete_budget.
  destruct (failing s (DeleteBudget id)); [discriminate|].
  intros _ b H. cbn [fst with_budgets budgets] in H.
  apply filter_In in H. destruct H as [_ H]. intros E.
  rewrite E, String.eqb_refl in H. discriminate.
Qed.

(** [deleteBudget] removes the budgets with the given id and no other, keeps
    the other tables and "at most one budget per (category, month)", and does
    nothing when repeated; a failed request changes nothing. *)
Theorem deleteBudget_effect (s : t) (id : string) :
  let s' := fst (Utils.deleteBudget s id) in
  (forall e, snd (Utils.deleteBudget s id) = Err e -> s' = s)
  /\ (snd (Utils.deleteBudget s id) = Ok tt ->
      (forall b, In b (budgets s')
                 <-> In b (budgets s) /\ Budget.id b <> id)
      /\ categories s' = categories s
      /\ transactions s' = transactions s
      /\ (at_most_one_per_pair (budgets s) -> at_most_one_per_pair (budgets s'))
      /\ budgets (fst (Utils.deleteBudget s' id)) = budgets s').
Proof.
  unfold Utils.deleteBudget, delete_budget.
  destruct (failing s (DeleteBudget id)) eqn:F; cbn [fst snd].
  - split; [reflexivity|discriminate].
  - split; [discriminate|]. intros _. cbn [with_budgets budgets categories
                                           transactions failing].
    split; [|split; [reflexivity|split; [reflexivity|split]]].
    + intros b. rewrite filter_In. split; intros [H1 H2]; (split; [exact H1|]).
      * intros E. rewrite E, String.eqb_refl in H2. discriminate.
      * now destruct (String.eqb_spec (Budget.id b) id).
    + apply filter_keeps_at_most_one.
    + rewrite F. cbn [fst with_budgets budgets].
      induction (budgets s) as [|x l IH]; cbn [filter]; [reflexivity|].
      destruct (negb (String.eqb (Budget.id x) id)) eqn:E; cbn [filter];
        [rewrite E; f_equal|]; exact IH.
Qed.

Lemma filter_id_fresh (bs : list Budget.t) (id : string) :
  ~ In id (map Budget.id bs) ->
  filter (fun b => negb (String.eqb (Budget.id b) id)) bs = bs.
Proof.
  induction bs as [|x l IH]; cbn [map filter]; intros H; [reflexivity|].
  destruct (String.eqb_spec (Budget.id x) id) as [E|_]; cbn [negb].
  - exfalso. apply H. now left.
  - f_equal. apply IH. intros H'. apply H. now right.
Qed.

Lemma setBudget_failing (env : Env) (s : t) (c : string) (a : JS.number)
    (m : string) :
  failing (fst (Utils.setBudget env s c a m)) = failing s
  /\ categories (fst (Utils.setBudget env s c a m)) = categories s
  /\ transactions (fst (Utils.setBudget env s c a m)) = transactions s.
Proof.
  unfold Utils.setBudget.
  destruct (select_budget_id s c m) as [[existing|]|e]; cbn [fst].
  - unfold update_budget.
    repeat match goal with
           | |- context [if ?x then _ else _] => destruct x
           | |- context [match single ?x with _ => _ end] => destruct (single x)
           end; repeat split.
  - unfold insert_budget.
    repeat match goal with
           | |- context [if ?x then _ else _] => destruct x
           end; repeat split.
  - repeat split.
Qed.

(** A budget that [setBudget] had to insert is taken out again by
    [deleteBudget] on its id: the table is as it was before the two calls. *)
Theorem setBudget_then_deleteBudget (env : Env) (s : t) (c : string)
    (a : JS.number) (m : string) (b : Budget.t) :
  filter (budget_for c m) (budgets s) = [] ->
  ~ In (gen_random_uuid env) (map Budget.id (budgets s)) ->
  snd (Utils.setBudget env s c a m) = Ok b ->
  failing s (DeleteBudget (Budget.id b)) = false ->
  let s1 := fst (Utils.setBudget env s c a m) in
  Utils.deleteBudget s1 (Budget.id b) = (with_budgets s1 (budgets s), Ok tt)
  /\ budgets (fst (Utils.deleteBudget s1 (Budget.id b))) = budgets s.
Proof.
  intros Hnone Hfresh Hb Hdel s1.
  destruct (SetBudgetFacts.setBudget_cases env s c a m)
    as [[e He]|(b' & Hb' & Hc)].
  { rewrite He in Hb. discriminate. }
  rewrite Hb in Hb'. injection Hb' as <-.
  destruct Hc as [(old & Hold & _)|(_ & Eb & Hs1)].
  { rewrite Hnone in Hold. discriminate. }
  fold s1 in Hs1.
  assert (Hid : Budget.id b = gen_random_uuid env) by (rewrite Eb; reflexivity).
  assert (E : Utils.deleteBudget s1 (Budget.id b)
              = (with_budgets s1 (budgets s), Ok tt)).
  { unfold Utils.deleteBudget, delete_budget.
    pose proof (proj1 (setBudget_failing env s c a m)) as Hf. fold s1 in Hf.
    rewrite Hf, Hdel.
    f_equal. f_equal. rewrite Hs1, filter_app, Hid.
    rewrite (filter_id_fresh _ _ Hfresh). cbn [filter].
    rewrite <- Hid at 1. rewrite String.eqb_refl. cbn [negb].
    apply app_nil_r. }
  split; [exact E|]. rewrite E. reflexivity.
Qed.

Lemma setBudget_then_deleteBudget_witness :
  budgets
    (fst (Utils.deleteBudget
            (fst (Utils.setBudget Sample.env Sample.store "c1" 150%float
                                  "2024-07-01"))
            "b3"))
  = budgets Sample.store.
Proof.
  destruct (setBudget_then_deleteBudget Sample.env Sample.store "c1" 150%float
              "2024-07-01"
              (Budget.mk "b3" "c1" 150%float "2024-07-01"
                         "2024-06-20T10:00:00.000Z" "2024-06-20T10:00:00.000Z"))
    as [_ H].
  - reflexivity.
  - cbn. intros [H|[H|[]]]; discriminate H.
  - reflexivity.
  - reflexivity.
  - exact H.
Defined.

Lemma lookup_after_setBudget (env : Env) (s : t) (c : string)
    (a : JS.number) (m : string) (b : Budget.t) :
  at_most_one_per_pair (budgets s) ->
  snd (Utils.setBudget env s c a m) = Ok b ->
  failing s (SelectBudgets m) = false ->
  exists bs,
    Utils.getBudgets (fst (Utils.setBudget env s c a m)) m = Ok bs
    /\ filter (fun x => String.eqb (Budget.category_id x) c) bs = [b]
    /\ Budget.limit_amount b = a
    /\ Budget.month b = m.
Proof.
  intros Hinv Hb Hsel.
  destruct (SetBudgetFacts.setBudget_cases env s c a m)
    as [[e He]|(b' & Hb' & Hc)].
  { rewrite He in Hb. discriminate. }
  rewrite Hb in Hb'. injection Hb' as <-.
  set (s1 := fst (Utils.setBudget env s c a m)) in *.
  assert (Hone : filter (budget_for c m) (budgets s1) = [b]
                 /\ Budget.limit_amount b = a).
  { destruct Hc as [Hu|Hi].
    - destruct (SetBudgetFacts.updated_in_place_keeps _ _ _ _ _ _ _ Hinv Hu)
        as (_ & H2 & _).
      split; [exact H2|]. destruct Hu as (old & _ & -> & _). reflexivity.
    - destruct (SetBudgetFacts.inserted_keeps _ _ _ _ _ _ _ Hinv Hi) as (_ & H2).
      split; [exact H2|]. destruct Hi as (_ & -> & _). reflexivity. }
  destruct Hone as [Hone Hlim].
  exists (filter (fun x => String.eqb (Budget.month x) m) (budgets s1)).
  repeat split.
  - unfold Utils.getBudgets, select_budgets, request.
    pose proof (proj1 (setBudget_failing env s c a m)) as Hf. fold s1 in Hf.
    rewrite Hf, Hsel. reflexivity.
  - rewrite <- Hone. clear.
    induction (budgets s1) as [|x l IH]; cbn [filter]; [reflexivity|].
    unfold budget_for at 1.
    destruct (String.eqb (Budget.month x) m);
      destruct (String.eqb (Budget.category_id x) c) eqn:E;
      cbn [filter andb]; rewrite ?E; cbn [andb]; try rewrite IH; reflexivity.
  - exact Hlim.
  - assert (H : In b (filter (budget_for c m) (budgets s1)))
      by (rewrite Hone; now left).
    apply filter_In in H. destruct H as [_ H]. unfold budget_for in H.
    apply andb_prop in H. now apply String.eqb_eq.
Qed.

(** What [setBudget] stored is what [getBudgets] answers for the month: the
    list holds exactly one budget of the category, the returned one, with the
    given limit. *)
Theorem setBudget_then_getBudgets (env : Env) (s : t) (c : string)
    (a : JS.number) (m : string) (b : Budget.t) :
  at_most_one_per_pair (budgets s) ->
  snd (Utils.setBudget env s c a m) = Ok b ->
  failing s (SelectBudgets m) = false ->
  exists bs,
    Utils.getBudgets (fst (Utils.setBudget env s c a m)) m = Ok bs
    /\ filter (fun x => String.eqb (Budget.category_id x) c) bs = [b]
    /\ Budget.limit_amount b = a
    /\ Budget.month b = m.
Proof. apply lookup_after_setBudget. Qed.

Lemma setBudget_then_getBudgets_witness :
  exists bs,
    Utils.getBudgets
      (fst (Utils.setBudget Sample.env Sample.store "c2" 250%float "2024-06-01"))
      "2024-06-01" = Ok bs
    /\ filter (fun x => String.eqb (Budget.category_id x) "c2") bs
       = [Budget.mk "b2" "c2" 250%float "2024-06-01" "2024-05-20"
                    "2024-06-20T10:00:00.000Z"].
Proof.
  destruct (setBudget_then_getBudgets Sample.env Sample.store "c2" 250%float
              "2024-06-01"
              (Budget.mk "b2" "c2" 250%float "2024-06-01" "2024-05-20"
                         "2024-06-20T10:00:00.000Z"))
    as (bs & Hget & Hone & _).
  - exact SetBudgetFacts.sample_at_most_one.
  - reflexivity.
  - reflexivity.
  - exists bs. split; [exact Hget|exact Hone].
Defined.

End BudgetTableFacts.

(** ** Spending, alerts and the budget cards together *)

Module ConsistencyFacts.
Import Spec.

Lemma ltb_leb (x y : float) : (x <? y)%float = true -> (x <=? y)%float = true.
Proof.
  rewrite ltb_Lt, leb_spec. unfold SFleb. now intros ->.
Qed.

(** The answer of [getCategorySpending] is never NaN and never a negative
    zero: a sum that is NaN or zero is answered as [0]. *)
Theorem getCategorySpending_is_a_number (LocalTZA : Z) (s : Store.t)
    (categoryId month : string) (x : JS.number) :
  Utils.getCategorySpending LocalTZA s categoryId month = Ok x ->
  is_nan x = false /\ (x = 0%float \/ (x =? 0)%float = false).
Proof.
  unfold Utils.getCategorySpending.
  destruct (Utils.endDateStr LocalTZA month) as [e|]; cbn [bind]; [|discriminate].
  destruct (Store.select_amounts s categoryId month e) as [data|]; cbn [bind];
    [|discriminate].
  intros [= <-]. unfold JS.or_else, JS.truthy.
  destruct (JS.sum_from 0%float data =? 0)%float eqn:Hz; cbn [negb andb].
  - split; [reflexivity|now left].
  - destruct (is_nan (JS.sum_from 0%float data)) eqn:Hn; cbn [negb].
    + split; [reflexivity|now left].
    + split; [exact Hn|now right].
Qed.

Lemma getCategorySpending_is_a_number_witness :
  is_nan 85%float = false /\ (85%float = 0%float \/ (85 =? 0)%float = false).
Proof.
  apply (getCategorySpending_is_a_number Sample.UTC_0 Sample.store "c1"
           "2024-06-01" 85%float).
  vm_compute. reflexivity.
Defined.

(** A month that is not a date makes [getCategorySpending] reject with a
    RangeError, whatever the store holds. *)
Theorem getCategorySpending_invalid_month (LocalTZA : Z) (s : Store.t)
    (categoryId month : string) :
  JSDate.parse month = None ->
  Utils.getCategorySpending LocalTZA s categoryId month = Err RangeError.
Proof.
  intros H. unfold Utils.getCategorySpending, Utils.endDateStr.
  rewrite H. reflexivity.
Qed.

(** The dashboard and the budget manager agree, in every time zone: for one
    budget and one fetched spending, the dashboard raises an alert exactly
    when the manager renders the budget as a warning or as over budget, and
    both show the same percentage. *)
Theorem alert_iff_not_normal (LocalTZA : Z) (p : Dashboard.Props)
    (q : BudgetManager.Props) (s : Store.t) (b : Budget.t) (x : JS.number) :
  BudgetManager.selectedMonth q = Dashboard.selectedMonth p ->
  Utils.getCategorySpending LocalTZA s (Budget.category_id b)
    (Dashboard.selectedMonth p) = Ok x ->
  exists w,
    BudgetManager.withSpending LocalTZA q s b = Ok w
    /\ (Dashboard.alert_for p b x <> None
        <-> BudgetManager.classify w <> BudgetManager.Normal)
    /\ (forall a, Dashboard.alert_for p b x = Some a ->
                  Dashboard.percentage a = BudgetManager.percentage w
                  /\ Dashboard.spent a = BudgetManager.spent w).
Proof.
  intros Hm Hx. unfold BudgetManager.withSpending. rewrite Hm, Hx. cbn [bind].
  eexists. split; [reflexivity|]. split.
  - rewrite DashboardFacts.alert_for_iff.
    unfold BudgetManager.classify, BudgetManager.isOverBudget,
      BudgetManager.isWarning, BudgetManager.percentage,
      BudgetManager.limit_amount.
    cbn [BudgetManager.spent BudgetManager.budget].
    set (pct := ((x / Budget.limit_amount b) * 100)%float).
    destruct (JS.gt pct 100%float) eqn:Over.
    + unfold JS.gt in Over. unfold JS.ge.
      assert (H80 : (80 <? pct)%float = true)
        by (apply (ltb_trans 80%float 100%float pct); [reflexivity|exact Over]).
      rewrite (ltb_leb _ _ H80). split; [discriminate|reflexivity].
    + destruct (JS.ge pct 80%float); split; congruence.
  - intros a. unfold Dashboard.alert_for.
    destruct (JS.ge _ 80%float); [|discriminate]. intros [= <-]. split; reflexivity.
Qed.

Lemma alert_iff_not_normal_witness :
  exists w,
    BudgetManager.withSpending Sample.UTC_0 Sample.manager_props Sample.store
      Sample.food_budget = Ok w
    /\ (Dashboard.alert_for Sample.month_props Sample.food_budget 85%float
        <> None
        <-> BudgetManager.classify w <> BudgetManager.Normal).
Proof.
  destruct (alert_iff_not_normal Sample.UTC_0 Sample.month_props
              Sample.manager_props Sample.store Sample.food_budget 85%float)
    as (w & Hw & Hiff & _).
  - reflexivity.
  - vm_compute. reflexivity.
  - exists w. split; [exact Hw|exact Hiff].
Defined.

(** [getCategorySpending] and [getMonthlySpending] cover the same period, in
    every time zone: the spending of a category is the sum over the expense
    rows of the month that belong to the category. *)
Theorem spending_is_sum_of_monthly_rows (LocalTZA : Z)
    (b : UtilsMonthly.Backend) (categoryId month : string)
    (rows : list UtilsMonthly.Row) :
  UtilsMonthly.getMonthlySpending LocalTZA b month Expense = Ok rows ->
  (forall e, Store.failing (UtilsMonthly.store b)
               (Store.SelectAmounts categoryId month e) = false) ->
  Utils.getCategorySpending LocalTZA (UtilsMonthly.store b) categoryId month
  = Ok (JS.or_else
          (JS.sum_from 0%float
             (map UtilsMonthly.amount
                  (filter (fun r => String.eqb (UtilsMonthly.category_id r) categoryId)
                          rows)))
          0%float).
Proof.
  unfold UtilsMonthly.getMonthlySpending, Utils.getCategorySpending.
  destruct (Utils.endDateStr LocalTZA month) as [e|]; cbn [bind]; [|discriminate].
  unfold UtilsMonthly.select_month, Store.select_amounts, Store.request.
  destruct (UtilsMonthly.failing b _); [discriminate|].
  intros [= <-] Hup. rewrite Hup. cbn [bind]. do 3 f_equal.
  induction (Store.transactions (UtilsMonthly.store b)) as [|t l IH];
    cbn [filter map]; [reflexivity|].
  unfold Store.in_range at 1, UtilsMonthly.in_month at 1.
  destruct (String.eqb (Transaction.category_id t) categoryId) eqn:Ec;
    destruct (kind_eqb (Transaction.type t) Expense);
    destruct (String.leb month (Transaction.date t));
    destruct (String.ltb (Transaction.date t) e);
    cbn [andb map filter UtilsMonthly.category_id UtilsMonthly.amount];
    rewrite ?Ec; cbn [map]; rewrite IH; reflexivity.
Qed.

Lemma spending_is_sum_of_monthly_rows_witness :
  Utils.getCategorySpending Sample.UTC_0 Sample.store "c1" "2024-06-01"
  = Ok (JS.or_else
          (JS.sum_from 0%float
             (map UtilsMonthly.amount
                  (filter (fun r => String.eqb (UtilsMonthly.category_id r) "c1")
                          [UtilsMonthly.mkRow 500%float "c2";
                           UtilsMonthly.mkRow 85%float "c1"])))
          0%float).
Proof.
  apply (spending_is_sum_of_monthly_rows Sample.UTC_0 SampleApp.backend "c1"
           "2024-06-01").
  - vm_compute. reflexivity.
  - intros e. reflexivity.
Defined.

End ConsistencyFacts.

(** ** The handlers of the budget manager *)

Module BudgetManagerHandlerFacts.
Import Spec BudgetManager BudgetManagerHandlers.

Lemma Set_of_acc (xs acc : list string) :
  NoDup acc ->
  let r := fold_left (fun acc x => if existsb (String.eqb x) acc then acc
                                   else acc ++ [x]) xs acc in
  NoDup r /\ forall x, In x r <-> In x acc \/ In x xs.
Proof.
  revert acc. induction xs as [|y xs IH]; intros acc Hnd; cbn [fold_left].
  - split; [exact Hnd|]. intros x. cbn. tauto.
  - destruct (existsb (String.eqb y) acc) eqn:E.
    + destruct (IH acc Hnd) as [H1 H2]. split; [exact H1|].
      intros x. rewrite H2. cbn [In]. split; [tauto|].
      intros [H|[<-|H]]; auto. left.
      apply existsb_exists in E. destruct E as (z & Hz & E).
      apply String.eqb_eq in E. now subst z.
    + assert (Hnew : ~ In y acc).
      { intros H. rewrite <- Bool.not_true_iff_false in E. apply E.
        apply existsb_exists. exists y. split; [exact H|apply String.eqb_refl]. }
      assert (Hnd' : NoDup (acc ++ [y])).
      { apply NoDup_app; [exact Hnd|repeat constructor; intros []|].
        intros z Hz [<-|[]]. contradiction. }
      destruct (IH (acc ++ [y]) Hnd') as [H1 H2]. split; [exact H1|].
      intros x. rewrite H2, in_app_iff. cbn [In]. tauto.
Qed.

Lemma Set_of_spec (xs : list string) :
  NoDup (Set_of xs) /\ forall x, In x (Set_of xs) <-> In x xs.
Proof.
  destruct (Set_of_acc xs [] (NoDup_nil _)) as [H1 H2]. split; [exact H1|].
  intros x. unfold Set_of. rewrite H2. cbn. tauto.
Qed.

Lemma Set_without_spec (set : list string) (x y : string) :
  In y (Set_without set x) <-> In y set /\ y <> x.
Proof.
  unfold Set_without. rewrite filter_In, (proj2 (Set_of_spec set)).
  destruct (String.eqb_spec y x); cbn [negb]; split; intros [H1 H2];
    split; congruence.
Qed.

(** The spending fetch reads the transactions and nothing else of the
    store. *)
Lemma getCategorySpending_ext (LocalTZA : Z) (s s' : Store.t) (c m : string) :
  Store.transactions s' = Store.transactions s ->
  Store.failing s' = Store.failing s ->
  Utils.getCategorySpending LocalTZA s' c m
  = Utils.getCategorySpending LocalTZA s c m.
Proof.
  intros Ht Hf. unfold Utils.getCategorySpending, Store.select_amounts,
                  Store.request.
  now rewrite Ht, Hf.
Qed.

Lemma all_of_answers {A B : Type} (f : A -> Result B) (xs : list A) :
  (forall x, In x xs -> exists y, f x = Ok y) ->
  exists ys, all f xs = Ok ys /\ Forall2 (fun x y => f x = Ok y) xs ys.
Proof.
  induction xs as [|x xs IH]; intros H; cbn [all].
  - exists []. split; [reflexivity|constructor].
  - destruct (H x (or_introl eq_refl)) as [y Hy].
    destruct IH as (ys & Hys & HF); [intros z Hz; apply H; now right|].
    rewrite Hy, Hys. exists (y :: ys). split; [reflexivity|].
    constructor; assumption.
Qed.

(** A reload that is answered shows the fetched budgets, one card each, and
    touches neither the form nor the error message. *)
Lemma loadBudgets_answered (LocalTZA : Z) (p : Props) (s : Store.t)
    (st : State) (data : list Budget.t) :
  Utils.getBudgets s (selectedMonth p) = Ok data ->
  (forall c, exists x,
      Utils.getCategorySpending LocalTZA s c (selectedMonth p) = Ok x) ->
  let st' := loadBudgets LocalTZA p s st in
  map budget (budgets st') = data
  /\ error st' = error st
  /\ newBudgetCategory st' = newBudgetCategory st
  /\ newBudgetAmount st' = newBudgetAmount st
  /\ deletingIds st' = deletingIds st
  /\ isLoading st' = false.
Proof.
  intros Hd Hx. unfold loadBudgets. rewrite Hd. cbn [bind].
  destruct (all_of_answers (withSpending LocalTZA p s) data) as (ws & Hws & HF).
  { intros b _. unfold withSpending.
    destruct (Hx (Budget.category_id b)) as [x ->]. cbn [bind]. eauto. }
  rewrite Hws. cbn. repeat split.
  clear Hws Hd. induction HF as [|b w data ws Hw _ IH]; cbn [map]; [reflexivity|].
  f_equal; [|exact IH].
  now apply BudgetListFacts.withSpending_budget in Hw.
Qed.

(** A submission that is refused, because a field is empty or because
    [setBudget] fails, leaves the store, the displayed budgets and the two
    fields as they are and sets an error message. *)
Theorem handleAddBudget_refused (LocalTZA : Z) (parseFloat : string -> JS.number)
    (p : Props) (env : Store.Env) (s : Store.t) (st : State) :
  (newBudgetCategory st = "" \/ newBudgetAmount st = "" ->
   handleAddBudget LocalTZA parseFloat p env s st
   = (s, setError st "Please fill in all fields"))
  /\ (forall e,
        newBudgetCategory st <> "" -> newBudgetAmount st <> "" ->
        snd (Utils.setBudget env s (newBudgetCategory st)
                             (parseFloat (newBudgetAmount st)) (selectedMonth p))
        = Err e ->
        handleAddBudget LocalTZA parseFloat p env s st
        = (s, setError st "Failed to add budget")).
Proof.
  unfold handleAddBudget. split.
  - intros [H|H]; rewrite H; [reflexivity|].
    now destruct (newBudgetCategory st).
  - intros e Hc Ha He.
    destruct (newBudgetCategory st) as [|c0 c] eqn:Ec; [contradiction|].
    destruct (newBudgetAmount st) as [|a0 a] eqn:Ea; [contradiction|].
    cbn [setError newBudgetCategory newBudgetAmount]. rewrite Ec, Ea.
    destruct (SetBudgetFacts.setBudget_cases env s (String c0 c)
                (parseFloat (String a0 a)) (selectedMonth p))
      as [[e' He']|(b & Hb & _)].
    + rewrite He'. reflexivity.
    + rewrite He in Hb. discriminate.
Qed.

(** A submission that [setBudget] accepts, followed by an answered reload,
    clears the two fields and the error message, shows exactly one card for
    the category, with the entered limit, and no longer offers the
    category. *)
Theorem handleAddBudget_added (LocalTZA : Z) (parseFloat : string -> JS.number)
    (p : Props) (env : Store.Env) (s : Store.t) (st : State) (b : Budget.t) :
  newBudgetCategory st <> "" -> newBudgetAmount st <> "" ->
  at_most_one_per_pair (Store.budgets s) ->
  snd (Utils.setBudget env s (newBudgetCategory st)
                       (parseFloat (newBudgetAmount st)) (selectedMonth p))
  = Ok b ->
  Store.failing s (Store.SelectBudgets (selectedMonth p)) = false ->
  (forall c, exists x,
      Utils.getCategorySpending LocalTZA s c (selectedMonth p) = Ok x) ->
  let st' := snd (handleAddBudget LocalTZA parseFloat p env s st) in
  newBudgetCategory st' = "" /\ newBudgetAmount st' = "" /\ error st' = ""
  /\ (exists w,
        filter (fun w => String.eqb (Budget.category_id (budget w))
                                    (newBudgetCategory st))
               (budgets st') = [w]
        /\ budget w = b
        /\ limit_amount w = parseFloat (newBudgetAmount st))
  /\ forall c, In c (availableCategories p st') ->
               Category.id c <> newBudgetCategory st.
Proof.
  intros Hc Ha Hinv Hb Hsel Hx st'.
  destruct (BudgetTableFacts.lookup_after_setBudget env s
              (newBudgetCategory st) (parseFloat (newBudgetAmount st))
              (selectedMonth p) b Hinv Hb Hsel) as (bs & Hbs & Hone & Hlim & _).
  destruct (BudgetTableFacts.setBudget_failing env s (newBudgetCategory st)
              (parseFloat (newBudgetAmount st)) (selectedMonth p))
    as (Hfail & _ & Htx).
  assert (Hst' : st' = loadBudgets LocalTZA p
                         (fst (Utils.setBudget env s (newBudgetCategory st)
                                 (parseFloat (newBudgetAmount st)) (selectedMonth p)))
                         (setNewBudgetAmount
                            (setNewBudgetCategory (setError st "") "") "")).
  { unfold st', handleAddBudget.
    destruct (newBudgetCategory st) as [|c0 c] eqn:Ec; [contradiction|].
    destruct (newBudgetAmount st) as [|a0 a] eqn:Ea; [contradiction|].
    cbn [setError newBudgetCategory newBudgetAmount]. rewrite Ec, Ea.
    destruct (Utils.setBudget env s (String c0 c) (parseFloat (String a0 a))
                              (selectedMonth p)) as [s1 r].
    cbn [snd] in Hb. subst r. reflexivity. }
  set (s1 := fst (Utils.setBudget env s (newBudgetCategory st)
                    (parseFloat (newBudgetAmount st)) (selectedMonth p))) in *.
  assert (Hx1 : forall c, exists x,
               Utils.getCategorySpending LocalTZA s1 c (selectedMonth p) = Ok x).
  { intros c. rewrite (getCategorySpending_ext LocalTZA s s1 c _ Htx Hfail).
    apply Hx. }
  destruct (loadBudgets_answered LocalTZA p s1
              (setNewBudgetAmount (setNewBudgetCategory (setError st "") "") "")
              bs Hbs Hx1) as (Hmap & Herr & Hcat & Hamt & _).
  rewrite <- Hst' in Hmap, Herr, Hcat, Hamt.
  split; [exact Hcat|]. split; [exact Hamt|]. split; [exact Herr|].
  assert (Hfilter :
            map budget
                (filter (fun w => String.eqb (Budget.category_id (budget w))
                                             (newBudgetCategory st))
                        (budgets st'))
            = [b]).
  { rewrite <- Hone, <- Hmap. clear.
    induction (budgets st') as [|w ws IH]; cbn [map filter]; [reflexivity|].
    destruct (String.eqb (Budget.category_id (budget w)) (newBudgetCategory st));
      cbn [map]; now rewrite IH. }
  destruct (filter _ (budgets st')) as [|w [|w' ws]] eqn:Hf; try discriminate.
  cbn [map] in Hfilter. injection Hfilter as Hw.
  split.
  - exists w. split; [reflexivity|]. split; [exact Hw|].
    unfold limit_amount. now rewrite Hw.
  - intros c Hin E. unfold availableCategories in Hin.
    apply filter_In in Hin. destruct Hin as [_ Hin].
    rewrite Bool.negb_true_iff, <- Bool.not_true_iff_false in Hin. apply Hin.
    apply existsb_exists. exists (newBudgetCategory st). split.
    + unfold usedCategoryIds.
      assert (Hw' : In w (filter (fun w => String.eqb (Budget.category_id (budget w))
                                                      (newBudgetCategory st))
                                 (budgets st')))
        by (rewrite Hf; now left).
      apply filter_In in Hw'. destruct Hw' as [Hw1 Hw2].
      apply String.eqb_eq in Hw2. rewrite <- Hw2.
      apply (in_map (fun b0 => Budget.category_id (budget b0))). exact Hw1.
    + now apply String.eqb_eq.
Qed.

Lemma sample_spending_answered (c : string) :
  exists x,
    Utils.getCategorySpending Sample.UTC_0 Sample.store c "2024-06-01" = Ok x.
Proof.
  unfold Utils.getCategorySpending.
  replace (Utils.endDateStr Sample.UTC_0 "2024-06-01") with (Ok "2024-07-01")
    by (vm_compute; reflexivity).
  eexists. reflexivity.
Qed.

Lemma handleAddBudget_added_witness :
  let st' :=
    snd (handleAddBudget Sample.UTC_0 SampleApp.parseFloat_digits
           Sample.manager_props Sample.env Sample.store SampleApp.manager_filled) in
  newBudgetCategory st' = "" /\ newBudgetAmount st' = "" /\ error st' = ""
  /\ exists w,
       filter (fun w => String.eqb (Budget.category_id (budget w)) "c2")
              (budgets st') = [w]
       /\ limit_amount w = 250%float.
Proof.
  destruct (handleAddBudget_added Sample.UTC_0 SampleApp.parseFloat_digits
              Sample.manager_props Sample.env Sample.store
              SampleApp.manager_filled
              (Budget.mk "b2" "c2" 250%float "2024-06-01" "2024-05-20"
                         "2024-06-20T10:00:00.000Z"))
    as (H1 & H2 & H3 & (w & Hw & _ & Hl) & _).
  - discriminate.
  - discriminate.
  - exact SetBudgetFacts.sample_at_most_one.
  - vm_compute. reflexivity.
  - reflexivity.
  - exact sample_spending_answered.
  - cbv zeta. split; [exact H1|]. split; [exact H2|]. split; [exact H3|].
    exists w. split; [exact Hw|]. rewrite Hl. vm_compute. reflexivity.
Defined.

Lemma deleteBudget_keeps (s : Store.t) (id : string) :
  Store.failing (fst (Utils.deleteBudget s id)) = Store.failing s
  /\ Store.transactions (fst (Utils.deleteBudget s id)) = Store.transactions s.
Proof.
  unfold Utils.deleteBudget, Store.delete_budget.
  destruct (Store.failing s (Store.DeleteBudget id)); split; reflexivity.
Qed.

(** Whatever happens to the request, the deleted id is not among the ids
    being deleted afterwards and the other ids are kept.  A failed request
    leaves the store and the displayed budgets as they are and sets the error
    message; after an answered request and an answered reload no card with
    that id is displayed. *)
Theorem handleDeleteBudget_effect (LocalTZA : Z) (p : Props) (s : Store.t)
    (st : State) (id : string) :
  let r := handleDeleteBudget LocalTZA p s st id in
  (forall j, In j (deletingIds (snd r)) <-> In j (deletingIds st) /\ j <> id)
  /\ (forall e, snd (Utils.deleteBudget s id) = Err e ->
                fst r = s /\ budgets (snd r) = budgets st
                /\ error (snd r) = "Failed to delete budget")
  /\ (snd (Utils.deleteBudget s id) = Ok tt ->
      Store.failing s (Store.SelectBudgets (selectedMonth p)) = false ->
      (forall c, exists x,
          Utils.getCategorySpending LocalTZA s c (selectedMonth p) = Ok x) ->
      fst r = fst (Utils.deleteBudget s id)
      /\ forall w, In w (budgets (snd r)) -> Budget.id (budget w) <> id).
Proof.
  cbv zeta. unfold handleDeleteBudget.
  destruct (Utils.deleteBudget s id) as [s' res] eqn:Hdel.
  cbn [fst snd]. split; [|split].
  - intros j.
    assert (Hids : forall st0 : State,
               deletingIds
                 (match res with
                  | Ok _ => loadBudgets LocalTZA p s' st0
                  | Err _ => setError st0 "Failed to delete budget"
                  end) = deletingIds st0).
    { intros st0. destruct res; [|reflexivity].
      unfold loadBudgets. destruct (bind _ _); reflexivity. }
    cbn [setDeletingIds deletingIds]. rewrite Hids.
    cbn [setDeletingIds deletingIds].
    rewrite Set_without_spec, (proj2 (Set_of_spec _)), in_app_iff.
    cbn [In]. split; [|tauto]. intros [[H|[H|[]]] Hne]; [tauto|].
    congruence.
  - intros e ->. pose proof (BudgetTableFacts.deleteBudget_err s id e) as H.
    rewrite Hdel in H. cbn [fst snd] in H. rewrite (H eq_refl).
    repeat split.
  - intros -> Hsel Hx. split; [reflexivity|].
    cbn [setDeletingIds budgets].
    pose proof (BudgetTableFacts.deleteBudget_ok s id) as Hok.
    rewrite Hdel in Hok. cbn [fst snd] in Hok. specialize (Hok eq_refl).
    destruct (deleteBudget_keeps s id) as [Hfail Htx].
    rewrite Hdel in Hfail, Htx. cbn [fst] in Hfail, Htx.
    assert (Hx' : forall c, exists x,
               Utils.getCategorySpending LocalTZA s' c (selectedMonth p) = Ok x).
    { intros c. rewrite (getCategorySpending_ext LocalTZA s s' c _ Htx Hfail).
      apply Hx. }
    assert (Hget : Utils.getBudgets s' (selectedMonth p)
                   = Ok (filter (fun b => String.eqb (Budget.month b) (selectedMonth p))
                                (Store.budgets s'))).
    { unfold Utils.getBudgets, Store.select_budgets, Store.request.
      now rewrite Hfail, Hsel. }
    destruct (loadBudgets_answered LocalTZA p s'
                (setDeletingIds st (Set_of (deletingIds st ++ [id]))) _ Hget Hx')
      as (Hmap & _).
    intros w Hw.
    assert (Hb : In (budget w)
                    (filter (fun b => String.eqb (Budget.month b) (selectedMonth p))
                            (Store.budgets s')))
      by (rewrite <- Hmap; now apply in_map).
    apply filter_In in Hb. destruct Hb as [Hb _].
    now apply Hok in Hb.
Qed.

End BudgetManagerHandlerFacts.

(** ** Calendar dates and their ISO strings, both ways *)

Module JSDateStringFacts.
Import Spec JSDate JSDateFacts.
#[local] Open Scope Z_scope.

Lemma DayWithinYear_range (t : Z) :
  0 <= DayWithinYear t < DaysInYear (YearFromTime t).
Proof.
  unfold DayWithinYear, YearFromTime.
  pose proof (YearFromDay_spec (Day t)) as S.
  rewrite DayFromYear_step in S. lia.
Qed.

(** The day of the month lies within the month. *)
Lemma DateFromTime_range (t : Z) :
  1 <= DateFromTime t <= DaysInMonth (YearFromTime t) (MonthFromTime t).
Proof.
  pose proof (DayWithinYear_range t) as R. unfold DaysInYear in R.
  unfold DateFromTime, MonthFromTime.
  set (y := YearFromTime t) in *. set (w := DayWithinYear t) in *.
  repeat match goal with
         | |- context [if (w <? ?b) then _ else _] =>
             destruct (Z.ltb_spec w b)
         end;
    match goal with
    | |- context [DaysInMonth y ?m] =>
        pose proof (DaysInMonth_table y m ltac:(lia)) as T
    end;
    cbn [DaysBeforeMonth Z.eqb] in *; destruct (InLeapYear y); lia.
Qed.

Lemma YearFromTime_range (t : Z) :
  DayFromYear 0 <= Day t < DayFromYear 10000 -> 0 <= YearFromTime t <= 9999.
Proof.
  intros H. unfold YearFromTime. pose proof (YearFromDay_spec (Day t)) as S.
  split.
  - destruct (Z.lt_ge_cases (YearFromDay (Day t)) 0) as [L|]; [|lia].
    pose proof (DayFromYear_mono (YearFromDay (Day t) + 1) 0). lia.
  - destruct (Z.lt_ge_cases 9999 (YearFromDay (Day t))) as [L|]; [|lia].
    pose proof (DayFromYear_mono 10000 (YearFromDay (Day t))). lia.
Qed.

Lemma digit_char_is_digit (v : Z) :
  JSString.is_digit (JSString.digit_char v) = true
  /\ JSString.digit_value (JSString.digit_char v) = v mod 10.
Proof.
  unfold JSString.digit_char.
  pose proof (Z.mod_pos_bound v 10) as R.
  assert (Hc : v mod 10 = 0 \/ v mod 10 = 1 \/ v mod 10 = 2 \/ v mod 10 = 3
               \/ v mod 10 = 4 \/ v mod 10 = 5 \/ v mod 10 = 6 \/ v mod 10 = 7
               \/ v mod 10 = 8 \/ v mod 10 = 9) by lia.
  repeat destruct Hc as [->|Hc]; try rewrite Hc; split; reflexivity.
Qed.

(** The fields of a string [cccc-cc-cc] of digits. *)
Lemma parse_of_digits (c1 c2 c3 c4 c5 c6 c7 c8 : ascii) :
  JSString.is_digit c1 = true -> JSString.is_digit c2 = true ->
  JSString.is_digit c3 = true -> JSString.is_digit c4 = true ->
  JSString.is_digit c5 = true -> JSString.is_digit c6 = true ->
  JSString.is_digit c7 = true -> JSString.is_digit c8 = true ->
  parse (String c1 (String c2 (String c3 (String c4 (String "-"
           (String c5 (String c6 (String "-" (String c7 (String c8 ""))))))))))
  = from_fields
      (10 * (10 * (10 * (10 * 0 + JSString.digit_value c1)
                   + JSString.digit_value c2)
             + JSString.digit_value c3)
       + JSString.digit_value c4)
      (10 * (10 * 0 + JSString.digit_value c5) + JSString.digit_value c6)
      (10 * (10 * 0 + JSString.digit_value c7) + JSString.digit_value c8).
Proof.
  intros H1 H2 H3 H4 H5 H6 H7 H8. unfold parse.
  cbn [JSString.split].
  rewrite (PeriodFacts.digit_not_hyphen c1 H1), (PeriodFacts.digit_not_hyphen c2 H2),
    (PeriodFacts.digit_not_hyphen c3 H3), (PeriodFacts.digit_not_hyphen c4 H4),
    (PeriodFacts.digit_not_hyphen c5 H5), (PeriodFacts.digit_not_hyphen c6 H6),
    (PeriodFacts.digit_not_hyphen c7 H7), (PeriodFacts.digit_not_hyphen c8 H8).
  change (Ascii.eqb "-" "-") with true. cbv iota beta.
  unfold field. cbn [String.length Nat.eqb JSString.parse_digits
                     JSString.digits_value].
  rewrite H1, H2, H3, H4, H5, H6, H7, H8. reflexivity.
Qed.

(** Reading back the ISO string of a date gives its fields. *)
Lemma parse_iso_date (y m d : Z) :
  0 <= y <= 9999 -> 0 <= m <= 99 -> 0 <= d <= 99 ->
  parse (iso_date y m d) = from_fields y m d.
Proof.
  intros Hy Hm Hd. unfold iso_date.
  rewrite !pad_digits_4, !pad_digits_2. cbn [String.append].
  rewrite parse_of_digits by apply digit_char_is_digit.
  rewrite !(proj2 (digit_char_is_digit _)).
  f_equal; Z.to_euclidean_division_equations; lia.
Qed.

(** The ISO day of a midnight of UTC in the years 0..9999 reads back as that
    midnight. *)
Lemma isoDay_round_trip (D : Z) :
  DayFromYear 0 <= D < DayFromYear 10000 ->
  exists s, App.isoDay (Some (D * msPerDay)) = Some s
            /\ parse s = Some (D * msPerDay)
            /\ String.length s = 10%nat.
Proof.
  intros HD.
  assert (Hday : Day (D * msPerDay) = D)
    by (unfold Day; apply Z.div_mul; unfold msPerDay; lia).
  set (t := D * msPerDay) in *.
  pose proof (YearFromTime_range t ltac:(rewrite Hday; exact HD)) as Hy.
  pose proof (MonthFromTime_range t) as Hm.
  pose proof (DateFromTime_range t) as Hd.
  pose proof (DaysInMonth_range (YearFromTime t) (MonthFromTime t) Hm) as Hl.
  pose proof (MakeDay_this_month t 0) as HM. rewrite Z.add_0_r, Z.add_0_r, Hday in HM.
  exists (iso_date (YearFromTime t) (MonthFromTime t + 1) (DateFromTime t)).
  split; [|split].
  - unfold App.isoDay. unfold t at 1. rewrite <- HM.
    apply date_part_of_midnight; assumption.
  - rewrite parse_iso_date by lia. unfold from_fields.
    replace (MonthFromTime t + 1 - 1) with (MonthFromTime t) by lia.
    destruct (Z.leb_spec 1 (MonthFromTime t + 1)); [|lia].
    destruct (Z.leb_spec (MonthFromTime t + 1) 12); [|lia].
    destruct (Z.leb_spec 1 (DateFromTime t)); [|lia].
    destruct (Z.leb_spec (DateFromTime t)
                (DaysInMonth (YearFromTime t) (MonthFromTime t))); [|lia].
    cbn [andb]. rewrite HM. unfold MakeDate. rewrite Z.add_0_r.
    apply TimeClip_in_range.
    change (DayFromYear 0) with (-719528) in HD.
    change (DayFromYear 10000) with 2932897 in HD.
    unfold t, msPerDay. lia.
  - unfold iso_date. rewrite !pad_digits_4, !pad_digits_2. reflexivity.
Qed.

Lemma parse_midnight_of (y m d : Z) :
  0 <= y <= 9999 -> 1 <= m <= 12 -> 1 <= d <= 28 ->
  parse (iso_date y m d) = Some (MakeDay y (m - 1) d * msPerDay).
Proof.
  intros Hy Hm Hd. rewrite parse_iso_date by lia. unfold from_fields.
  pose proof (DaysInMonth_range y (m - 1) ltac:(lia)) as Hr.
  replace ((1 <=? m) && (m <=? 12) && (1 <=? d) && (d <=? DaysInMonth y (m - 1)))
    with true
    by (symmetry; rewrite !andb_true_iff; repeat split; apply Z.leb_le; lia).
  pose proof (MakeDay_range y (m - 1) d ltac:(lia) ltac:(lia) ltac:(lia)).
  unfold MakeDate. rewrite Z.add_0_r.
  apply TimeClip_in_range. unfold msPerDay. lia.
Qed.

End JSDateStringFacts.

(** ** Spending of a month named by its first day *)

Module SpendingDateFacts.
Import Spec JSDate JSDateFacts JSDateStringFacts.
#[local] Open Scope Z_scope.



End SpendingDateFacts.

(** ** The date navigation *)

Module AppFacts.
Import Spec SpecApp JSDate JSDateFacts JSDateStringFacts.
#[local] Open Scope Z_scope.

Lemma substring_length_le (n : nat) (s : string) :
  (String.length (substring 0 n s) <= n)%nat.
Proof.
  revert s. induction n as [|n IH]; intros [|c s]; cbn; try lia.
  specialize (IH s). lia.
Qed.

(** The month prop follows the current date from the first render on. *)
Lemma synced_invariant :
  (forall now st, App.initial now = Some st -> synced st)
  /\ (forall LocalTZA dir st,
        synced st -> synced (App.handleDateChange LocalTZA dir st))
  /\ (forall st v, synced st -> synced (App.setTimeView st v)).
Proof.
  unfold synced. repeat split.
  - intros now st. unfold App.initial.
    destruct (App.isoDay _); [|discriminate]. now intros [= <-].
  - intros LocalTZA dir st H. unfold App.handleDateChange.
    destruct (App.isoDay _); [reflexivity|exact H].
  - intros st v H. exact H.
Qed.

Lemma step_range (dir : App.Direction) (k : Z) : 0 <= k -> - k <= App.step dir k <= k.
Proof. destruct dir; cbn; lia. Qed.

(** The date that a step in the day or the week view computes. *)
Lemma stepped_date (LocalTZA : Z) (dir : App.Direction) (st : App.State) (u : Z) :
  App.timeView st <> Dashboard.month ->
  parse (App.currentDate st) = Some u ->
  App.handleDateChange LocalTZA dir st
  = match App.isoDay
            (TimeClip (u + App.step dir (stride (App.timeView st)) * msPerDay)) with
    | Some newDate =>
        App.setSelectedMonth (App.setCurrentDate st newDate) (substring 0 7 newDate)
    | None => st
    end.
Proof.
  intros Hv Hp. unfold App.handleDateChange. rewrite Hp.
  cbn [getDate add option_map].
  destruct (App.timeView st); try contradiction; cbn [stride];
    now rewrite setDate_shift.
Qed.

Lemma handleDateChange_step (LocalTZA : Z) (dir : App.Direction)
    (st : App.State) (u : Z) :
  App.timeView st <> Dashboard.month ->
  parse (App.currentDate st) = Some u ->
  DayFromYear 0 <= Day u + App.step dir (stride (App.timeView st))
  < DayFromYear 10000 ->
  exists s,
    App.handleDateChange LocalTZA dir st
    = App.setSelectedMonth (App.setCurrentDate st s) (substring 0 7 s)
    /\ parse s
       = Some (u + App.step dir (stride (App.timeView st)) * msPerDay)
    /\ String.length s = 10%nat.
Proof.
  intros Hv Hp HD.
  rewrite (stepped_date LocalTZA dir st u Hv Hp).
  set (k := App.step dir (stride (App.timeView st))) in *.
  destruct (parse_midnight _ _ Hp) as [Hu _].
  replace (u + k * msPerDay) with ((Day u + k) * msPerDay) by lia.
  destruct (isoDay_round_trip (Day u + k) HD) as (s & Hs & Hps & Hlen).
  change (DayFromYear 0) with (-719528) in HD.
  change (DayFromYear 10000) with 2932897 in HD.
  rewrite TimeClip_in_range by (unfold msPerDay; lia).
  rewrite Hs. exists s. repeat split; assumption.
Qed.

(** In the day and the week view, in every zone whose offset from UTC is
    fixed, a step moves the current date by exactly one day, or seven, and
    the month prop with it. *)
Theorem handleDateChange_days (LocalTZA : Z) (dir : App.Direction)
    (st : App.State) (u : Z) :
  App.timeView st <> Dashboard.month ->
  parse (App.currentDate st) = Some u ->
  let k := App.step dir (stride (App.timeView st)) in
  DayFromYear 0 <= Day u + k < DayFromYear 10000 ->
  let st' := App.handleDateChange LocalTZA dir st in
  parse (App.currentDate st') = Some (u + k * msPerDay)
  /\ String.length (App.currentDate st') = 10%nat
  /\ App.selectedMonth st' = substring 0 7 (App.currentDate st')
  /\ App.timeView st' = App.timeView st
  /\ App.transactions st' = App.transactions st
  /\ App.categories st' = App.categories st.
Proof.
  intros Hv Hp k HD st'. unfold st'.
  destruct (handleDateChange_step LocalTZA dir st u Hv Hp HD)
    as (s & -> & Hps & Hlen).
  cbn. repeat split; assumption.
Qed.

Lemma handleDateChange_days_witness :
  let st' :=
    App.handleDateChange Sample.UTC_minus_5 App.next
      (SampleApp.showing Dashboard.week "2024-06-27") in
  parse (App.currentDate st') = Some (1719446400000 + 7 * msPerDay)
  /\ App.selectedMonth st' = substring 0 7 (App.currentDate st').
Proof.
  destruct (handleDateChange_days Sample.UTC_minus_5 App.next
              (SampleApp.showing Dashboard.week "2024-06-27") 1719446400000)
    as (Hp & _ & Hs & _).
  - discriminate.
  - vm_compute. reflexivity.
  - split; [apply Z.leb_le|apply Z.ltb_lt]; vm_compute; reflexivity.
  - split; [exact Hp|exact Hs].
Defined.

(** A step and the step back, in the day or the week view and in every zone
    whose offset from UTC is fixed (no daylight saving, no other change of
    offset), restore the state. *)
Theorem handleDateChange_there_and_back (LocalTZA : Z) (dir : App.Direction)
    (st : App.State) (u : Z) :
  App.timeView st <> Dashboard.month ->
  parse (App.currentDate st) = Some u ->
  canonical st -> synced st ->
  DayFromYear 0 <= Day u + App.step dir (stride (App.timeView st))
  < DayFromYear 10000 ->
  App.handleDateChange LocalTZA (opposite dir)
    (App.handleDateChange LocalTZA dir st) = st.
Proof.
  intros Hv Hp Hcan Hsync HD.
  destruct (handleDateChange_step LocalTZA dir st u Hv Hp HD)
    as (s & Hst & Hp' & _).
  rewrite Hst.
  set (st1 := App.setSelectedMonth (App.setCurrentDate st s) (substring 0 7 s)).
  assert (Hv' : App.timeView st1 = App.timeView st) by reflexivity.
  rewrite (stepped_date LocalTZA (opposite dir) st1 _
             ltac:(rewrite Hv'; exact Hv) Hp').
  rewrite Hv'.
  replace (u + App.step dir (stride (App.timeView st)) * msPerDay
           + App.step (opposite dir) (stride (App.timeView st)) * msPerDay)
    with u by (destruct dir; cbn [App.step opposite]; lia).
  destruct (parse_midnight _ _ Hp) as [Hu Hr].
  rewrite TimeClip_in_range by (rewrite Hu; unfold msPerDay; lia).
  unfold canonical in Hcan. rewrite Hp in Hcan. rewrite Hcan.
  unfold synced in Hsync.
  destruct st; cbn in *. now rewrite Hsync.
Qed.

Lemma handleDateChange_there_and_back_witness :
  App.handleDateChange SampleApp.fixed_minus_5 App.prev
    (App.handleDateChange SampleApp.fixed_minus_5 App.next
       (SampleApp.showing Dashboard.day "2024-06-30"))
  = SampleApp.showing Dashboard.day "2024-06-30".
Proof.
  apply (handleDateChange_there_and_back SampleApp.fixed_minus_5 App.next
           (SampleApp.showing Dashboard.day "2024-06-30") 1719705600000).
  - discriminate.
  - vm_compute. reflexivity.
  - vm_compute. reflexivity.
  - reflexivity.
  - split; [apply Z.leb_le|apply Z.ltb_lt]; vm_compute; reflexivity.
Defined.

Lemma MakeDay_prev_year (y d : Z) : MakeDay y (-1) d = MakeDay (y - 1) 11 d.
Proof.
  unfold MakeDay. change (-1 / 12) with (-1). change (-1 mod 12) with 11.
  change (11 / 12) with 0. change (11 mod 12) with 11.
  now replace (y - 1 + 0) with (y + -1) by lia.
Qed.

(** In the month view, in a zone whose offset from UTC is fixed (no daylight
    saving, no other change of offset) at or east of Greenwich, and up to
    the 28th, a step moves the current date to the same day of the
    neighbouring month. *)
Theorem handleDateChange_month_east (LocalTZA : Z) (dir : App.Direction)
    (st : App.State) (y m d : Z) :
  0 <= LocalTZA < msPerDay ->
  App.timeView st = Dashboard.month ->
  App.currentDate st = iso_date y m d ->
  1 <= y <= 9998 -> 1 <= m <= 12 -> 1 <= d <= 28 ->
  let st' := App.handleDateChange LocalTZA dir st in
  App.currentDate st' = month_shifted dir y m d
  /\ App.selectedMonth st' = substring 0 7 (month_shifted dir y m d)
  /\ App.timeView st' = Dashboard.month
  /\ App.transactions st' = App.transactions st.
Proof.
  intros Hz Hv Hc Hy Hm Hd st'. unfold st', App.handleDateChange.
  rewrite Hv, Hc, parse_midnight_of by lia.
  cbn [getMonth add option_map setMonth].
  pose proof (DaysInMonth_range y (m - 1) ltac:(lia)) as Hr.
  destruct (SpendingFacts.local_fields_east LocalTZA y (m - 1) d Hz ltac:(lia) ltac:(lia))
    as (-> & -> & -> & ->).
  unfold UTC, MakeDate.
  set (n := m - 1 + App.step dir 1).
  assert (Hiso : exists y' m', 0 <= y' <= 9999 /\ 0 <= m' <= 11
            /\ MakeDay y n d = MakeDay y' m' d
            /\ month_shifted dir y m d = iso_date y' (m' + 1) d).
  { unfold n, month_shifted. destruct dir; cbn [App.step].
    - destruct (Z.eqb_spec m 1) as [->|Hne].
      + exists (y - 1), 11. repeat split; try lia.
        apply MakeDay_prev_year.
      + exists y, (m - 2). repeat split; try lia.
        * f_equal. lia.
        * f_equal. lia.
    - destruct (Z.eqb_spec m 12) as [->|Hne].
      + exists (y + 1), 0. repeat split; try lia.
        apply MakeDay_next_year.
      + exists y, m. repeat split; try lia. f_equal. lia. }
  destruct Hiso as (y' & m' & Hy' & Hm' & -> & ->).
  pose proof (DaysInMonth_range y' m' Hm') as Hr'.
  pose proof (MakeDay_range y' m' d Hy' Hm' ltac:(lia)) as HR.
  replace (MakeDay y' m' d * msPerDay + LocalTZA - LocalTZA)
    with (MakeDay y' m' d * msPerDay) by lia.
  rewrite TimeClip_in_range by (unfold msPerDay; lia).
  unfold App.isoDay.
  rewrite (date_part_of_midnight y' m' d Hy' Hm' ltac:(lia)).
  cbn. rewrite Hv. repeat split; reflexivity.
Qed.

Lemma handleDateChange_month_east_witness :
  App.currentDate
    (App.handleDateChange Sample.UTC_plus_5_30 App.next
       (SampleApp.showing Dashboard.month "2024-12-12"))
  = "2025-01-12"
  /\ App.selectedMonth
       (App.handleDateChange Sample.UTC_plus_5_30 App.next
          (SampleApp.showing Dashboard.month "2024-12-12"))
     = "2025-01".
Proof.
  destruct (handleDateChange_month_east Sample.UTC_plus_5_30 App.next
              (SampleApp.showing Dashboard.month "2024-12-12") 2024 12 12)
    as (Hc & Hs & _).
  - unfold Sample.UTC_plus_5_30, msPerDay. lia.
  - reflexivity.
  - vm_compute. reflexivity.
  - lia.
  - lia.
  - lia.
  - split; [rewrite Hc|rewrite Hs]; vm_compute; reflexivity.
Defined.

(** What the dashboard is given for a month: the first seven characters
    of a ten-character date are no date of any transaction. *)
Lemma month_prop_is_no_day (s d : string) :
  String.length d = 10%nat -> String.eqb d (substring 0 7 s) = false.
Proof.
  intros Hd. destruct (String.eqb_spec d (substring 0 7 s)) as [E|]; [|reflexivity].
  pose proof (substring_length_le 7 s) as Hl. rewrite <- E, Hd in Hl. lia.
Qed.

Lemma filter_none {A : Type} (f : A -> bool) (l : list A) :
  (forall x, In x l -> f x = false) -> filter f l = [].
Proof.
  induction l as [|x l IH]; intros H; cbn; [reflexivity|].
  rewrite (H x (or_introl eq_refl)). apply IH. intros z Hz. apply H. now right.
Qed.

(** In the day view the dashboard of the application counts no transaction
    whose date is a ten-character day: its totals are zero and its breakdown
    is empty. *)
Theorem day_view_counts_nothing (LocalTZA : Z) (st : App.State) (s : Store.t)
    (dst : Dashboard.State) :
  synced st ->
  App.timeView st = Dashboard.day ->
  (forall t, In t (App.transactions st) ->
             String.length (TransactionWithCategory.date t) = 10%nat) ->
  let p := App.dashboardProps st in
  Dashboard.filterByPeriod LocalTZA (Dashboard.transactions p)
    (Dashboard.selectedMonth p) (Dashboard.timeView p) = []
  /\ Dashboard.monthlyStats (Dashboard.calculateStats LocalTZA p s dst)
     = Dashboard.mkStats 0%float 0%float (0 - 0)%float
  /\ Dashboard.getExpensesByCategory LocalTZA p = []
  /\ Dashboard.budgetAlerts (Dashboard.calculateStats LocalTZA p s dst)
     = Dashboard.budgetAlerts dst.
Proof.
  intros Hs Hv Hd p.
  assert (Hnone : forall f,
            filter (fun t => Dashboard.in_period LocalTZA
                               (Dashboard.selectedMonth p)
                               (Dashboard.timeView p) t && f t)%bool
                   (Dashboard.transactions p) = []).
  { intros f. apply filter_none. intros t Ht. unfold p. cbn.
    rewrite Hv. cbn [Dashboard.in_period]. rewrite Hs.
    now rewrite (month_prop_is_no_day _ _ (Hd t Ht)). }
  assert (Hfil : Dashboard.filterByPeriod LocalTZA (Dashboard.transactions p)
                   (Dashboard.selectedMonth p) (Dashboard.timeView p) = []).
  { unfold Dashboard.filterByPeriod.
    rewrite <- (Hnone (fun _ => true)). apply filter_ext.
    intros t. now rewrite andb_true_r. }
  split; [exact Hfil|]. split; [|split].
  - rewrite DashboardFacts.calculateStats_monthlyStats, Hfil. reflexivity.
  - unfold Dashboard.getExpensesByCategory. rewrite Hnone. reflexivity.
  - unfold Dashboard.calculateStats.
    change (Dashboard.timeView p) with (App.timeView st).
    rewrite Hv. reflexivity.
Qed.

Lemma day_view_counts_nothing_witness :
  Dashboard.monthlyStats
    (Dashboard.calculateStats Sample.UTC_0
       (App.dashboardProps (SampleApp.showing Dashboard.day "2024-06-10"))
       Sample.store Sample.dashboard0)
  = Dashboard.mkStats 0%float 0%float (0 - 0)%float.
Proof.
  destruct (day_view_counts_nothing Sample.UTC_0
              (SampleApp.showing Dashboard.day "2024-06-10") Sample.store
              Sample.dashboard0)
    as (_ & H & _).
  - reflexivity.
  - reflexivity.
  - intros t Ht. cbn in Ht.
    repeat (destruct Ht as [<-|Ht]; [reflexivity|]). destruct Ht.
  - exact H.
Defined.

Lemma parse_of_month_digits (c1 c2 c3 c4 c5 c6 : ascii) :
  JSString.is_digit c1 = true -> JSString.is_digit c2 = true ->
  JSString.is_digit c3 = true -> JSString.is_digit c4 = true ->
  JSString.is_digit c5 = true -> JSString.is_digit c6 = true ->
  parse (String c1 (String c2 (String c3 (String c4 (String "-"
           (String c5 (String c6 "")))))))
  = from_fields
      (10 * (10 * (10 * (10 * 0 + JSString.digit_value c1)
                   + JSString.digit_value c2)
             + JSString.digit_value c3)
       + JSString.digit_value c4)
      (10 * (10 * 0 + JSString.digit_value c5) + JSString.digit_value c6)
      1.
Proof.
  intros H1 H2 H3 H4 H5 H6. unfold parse.
  cbn [JSString.split].
  rewrite (PeriodFacts.digit_not_hyphen c1 H1), (PeriodFacts.digit_not_hyphen c2 H2),
    (PeriodFacts.digit_not_hyphen c3 H3), (PeriodFacts.digit_not_hyphen c4 H4),
    (PeriodFacts.digit_not_hyphen c5 H5), (PeriodFacts.digit_not_hyphen c6 H6).
  change (Ascii.eqb "-" "-") with true. cbv iota beta.
  unfold field. cbn [String.length Nat.eqb JSString.parse_digits
                     JSString.digits_value].
  rewrite H1, H2, H3, H4, H5, H6. reflexivity.
Qed.

(** The month prop of a date is read as the first day of its month. *)
Lemma parse_month_prop (y m d : Z) :
  0 <= y <= 9999 -> 0 <= m <= 99 ->
  parse (substring 0 7 (iso_date y m d)) = parse (iso_date y m 1).
Proof.
  intros Hy Hm. rewrite (parse_iso_date y m 1) by lia. unfold iso_date.
  rewrite !pad_digits_4, !pad_digits_2. cbn [String.append substring].
  rewrite parse_of_month_digits by apply digit_char_is_digit.
  rewrite !(proj2 (digit_char_is_digit _)).
  f_equal; Z.to_euclidean_division_equations; lia.
Qed.

(** In the week view the dashboard of the application shows the week of the
    first day of the current month, whatever the current day. *)
Theorem week_view_is_first_week_of_month (LocalTZA : Z) (st : App.State)
    (y m d : Z) :
  synced st ->
  App.timeView st = Dashboard.week ->
  App.currentDate st = iso_date y m d ->
  0 <= y <= 9999 -> 0 <= m <= 99 ->
  let p := App.dashboardProps st in
  Dashboard.filterByPeriod LocalTZA (Dashboard.transactions p)
    (Dashboard.selectedMonth p) (Dashboard.timeView p)
  = Dashboard.filterByPeriod LocalTZA (App.transactions st)
      (iso_date y m 1) Dashboard.week.
Proof.
  intros Hs Hv Hc Hy Hm p. unfold p. cbn [App.dashboardProps
    Dashboard.transactions Dashboard.selectedMonth Dashboard.timeView].
  rewrite Hv, Hs, Hc. unfold Dashboard.filterByPeriod.
  apply filter_ext. intros t. cbn [Dashboard.in_period].
  unfold Dashboard.endOfWeek, Dashboard.startOfWeek.
  now rewrite (parse_month_prop y m d Hy Hm).
Qed.

Lemma week_view_is_first_week_of_month_witness :
  Dashboard.filterByPeriod Sample.UTC_0 Sample.joined_transactions "2024-06"
    Dashboard.week
  = Dashboard.filterByPeriod Sample.UTC_0 Sample.joined_transactions
      "2024-06-01" Dashboard.week.
Proof.
  apply (week_view_is_first_week_of_month Sample.UTC_0
           (SampleApp.showing Dashboard.week "2024-06-12") 2024 6 12).
  - reflexivity.
  - reflexivity.
  - vm_compute. reflexivity.
  - lia.
  - lia.
Defined.

Lemma MakeDay_date (y n d : Z) : MakeDay y n d = MakeDay y n 1 + d - 1.
Proof. unfold MakeDay. lia. Qed.

Lemma month_prop_of_date (y m d d' : Z) :
  substring 0 7 (iso_date y m d) = substring 0 7 (iso_date y m d').
Proof.
  unfold iso_date. rewrite !pad_digits_4, !pad_digits_2. reflexivity.
Qed.

(** In a zone whose offset from UTC is fixed (no daylight saving, no other
    change of offset) west of Greenwich, the first of a month is read as the
    last day of the month before: the step to the next month, from the first
    of a month that is longer than the one before it, stays in the same
    month, on the day after the length of the month before. *)
Theorem next_month_from_the_first_west (LocalTZA : Z) (st : App.State)
    (y m : Z) :
  - msPerDay <= LocalTZA < 0 ->
  App.timeView st = Dashboard.month ->
  App.currentDate st = iso_date y m 1 ->
  1 <= y <= 9998 -> 2 <= m <= 12 ->
  DaysInMonth y (m - 2) < DaysInMonth y (m - 1) ->
  let st' := App.handleDateChange LocalTZA App.next st in
  App.currentDate st' = iso_date y m (DaysInMonth y (m - 2) + 1)
  /\ App.selectedMonth st' = substring 0 7 (App.currentDate st).
Proof.
  intros Hz Hv Hc Hy Hm Hlt st'. unfold st', App.handleDateChange.
  rewrite Hv, Hc, parse_midnight_of by lia.
  cbn [getMonth add option_map setMonth App.step].
  set (L := DaysInMonth y (m - 2)) in *.
  pose proof (DaysInMonth_range y (m - 2) ltac:(lia)) as HL. fold L in HL.
  pose proof (DaysInMonth_range y (m - 1) ltac:(lia)) as HL'.
  assert (HD : MakeDay y (m - 1) 1 - 1 = MakeDay y (m - 2) L).
  { rewrite (MakeDay_date y (m - 2) L). unfold L, DaysInMonth.
    replace (m - 2 + 1) with (m - 1) by lia. lia. }
  set (l := LocalTime LocalTZA (MakeDay y (m - 1) 1 * msPerDay)).
  assert (Hl : l = MakeDay y (m - 2) L * msPerDay + (msPerDay + LocalTZA)).
  { unfold l, LocalTime. rewrite <- HD. lia. }
  assert (Hday : Day l = Day (MakeDay y (m - 2) L * msPerDay)).
  { rewrite Hl, (Day_east (msPerDay + LocalTZA)) by lia.
    rewrite <- (Z.add_0_r (MakeDay y (m - 2) L * msPerDay)).
    now rewrite (Day_east 0) by (unfold msPerDay; lia). }
  destruct (fields_same_day _ _ Hday) as (HY & HM & HDt).
  destruct (fields_of_MakeDay y (m - 2) L ltac:(lia) ltac:(lia))
    as (HY' & HM' & HDt').
  rewrite HY, HM, HDt, HY', HM', HDt'.
  assert (HT : TimeWithinDay l = msPerDay + LocalTZA).
  { rewrite Hl. apply TimeWithinDay_east. lia. }
  rewrite HT. unfold UTC, MakeDate.
  replace (m - 2 + 1) with (m - 1) by lia.
  replace (MakeDay y (m - 1) L * msPerDay + (msPerDay + LocalTZA) - LocalTZA)
    with (MakeDay y (m - 1) (L + 1) * msPerDay)
    by (rewrite (MakeDay_date y (m - 1) (L + 1)), (MakeDay_date y (m - 1) L); lia).
  pose proof (MakeDay_range y (m - 1) (L + 1) ltac:(lia) ltac:(lia) ltac:(lia)).
  rewrite TimeClip_in_range by (unfold msPerDay; lia).
  unfold App.isoDay.
  rewrite (date_part_of_midnight y (m - 1) (L + 1)) by lia.
  replace (m - 1 + 1) with m by lia.
  cbn [App.currentDate App.selectedMonth App.setSelectedMonth App.setCurrentDate].
  split; [reflexivity|]. apply month_prop_of_date.
Qed.

Lemma next_month_from_the_first_west_witness :
  App.currentDate
    (App.handleDateChange SampleApp.fixed_minus_5 App.next
       (SampleApp.showing Dashboard.month "2024-03-01"))
  = "2024-03-30"
  /\ App.selectedMonth
       (App.handleDateChange SampleApp.fixed_minus_5 App.next
          (SampleApp.showing Dashboard.month "2024-03-01"))
     = "2024-03".
Proof.
  destruct (next_month_from_the_first_west SampleApp.fixed_minus_5
              (SampleApp.showing Dashboard.month "2024-03-01") 2024 3)
    as (Hc & Hs).
  - unfold SampleApp.fixed_minus_5, msPerDay. lia.
  - reflexivity.
  - vm_compute. reflexivity.
  - lia.
  - lia.
  - apply Z.ltb_lt. vm_compute. reflexivity.
  - split; [rewrite Hc|rewrite Hs]; vm_compute; reflexivity.
Defined.

End AppFacts.
